(** * CanvasFlow whiteboard: document model, history and prompt interpreter

    A shallow embedding of the client logic of
    [frontend/src/pages/WhiteboardPage.js]: the bounding-box geometry, the
    React state of an open board (objects, version, undo/redo history), the
    socket handlers, the suggestion applier, the rule-based prompt
    interpreter, the command loop of the AI fallback, the pointer gestures
    and the list of other users, followed by the properties proved about
    them.

    Conventions of the embedding.
    - JavaScript numbers are exact rationals extended with [+Infinity],
      [-Infinity] and [NaN]; IEEE rounding and the sign of zero are not
      represented in [JsNum]. The page computes in binary64: the two agree
      where every intermediate result is a binary64 number, as for sums,
      differences and halves of whole numbers of moderate size ([small]),
      and the statements about computed coordinates are made there. Where
      rounding decides, [Double] follows the page on binary64 numbers.
    - The version of the board is an integer; [boardVersion + 1] is exact
      in the page for the versions in [counted].
    - Strings are sequences of characters with codes below 256 (Latin-1);
      [toLowerCase] and the character classes of the regular expressions
      act on that range.
    - A handler runs against the state captured by the render that created
      it (the closure) and queues state updates; see [M] below. *)

From Corelib Require Import PrimFloat.
From Stdlib Require Import QArith Qcanon Ascii String.
From stdpp Require Import base numbers list strings pretty gmap.

(** ** JavaScript numbers *)

Module JsNum.

Inductive num : Type :=
| Fin (q : Qc)
| PInf
| NInf
| NaN.

(** The values a numeric field of an object can hold: a number, [null]
    (what JSON makes of a non-finite number) or [undefined] (the field is
    missing). *)
Inductive val : Type :=
| VNum (n : num)
| VNull
| VUndef.

Definition of_Z (z : Z) : num := Fin (Qc_of_Z z).

(** ToNumber, as applied by the arithmetic operators and by [Math.min] and
    [Math.max]. *)
Definition ToNumber (v : val) : num :=
  match v with
  | VNum n => n
  | VNull => of_Z 0
  | VUndef => NaN
  end.

Definition neg (a : num) : num :=
  match a with
  | Fin q => Fin (- q)%Qc
  | PInf => NInf
  | NInf => PInf
  | NaN => NaN
  end.

Definition add (a b : num) : num :=
  match a, b with
  | NaN, _ | _, NaN => NaN
  | Fin p, Fin q => Fin (p + q)%Qc
  | PInf, NInf | NInf, PInf => NaN
  | PInf, _ | _, PInf => PInf
  | NInf, _ | _, NInf => NInf
  end.

Definition sub (a b : num) : num := add a (neg b).

(** [flip_if b a] is [a] when [b] is false and [-a] otherwise. *)
Definition flip_if (b : bool) (a : num) : num := if b then neg a else a.

Definition is_neg (q : Qc) : bool := bool_decide (q < 0)%Qc.
Definition is_zero (q : Qc) : bool := bool_decide (q = 0%Qc).

Definition mul (a b : num) : num :=
  match a, b with
  | NaN, _ | _, NaN => NaN
  | Fin p, Fin q => Fin (p * q)%Qc
  | Fin p, PInf | PInf, Fin p => if is_zero p then NaN else flip_if (is_neg p) PInf
  | Fin p, NInf | NInf, Fin p => if is_zero p then NaN else flip_if (is_neg p) NInf
  | PInf, PInf | NInf, NInf => PInf
  | PInf, NInf | NInf, PInf => NInf
  end.

Definition div (a b : num) : num :=
  match a, b with
  | NaN, _ | _, NaN => NaN
  | Fin p, Fin q =>
      if is_zero q
      then (if is_zero p then NaN else flip_if (is_neg p) PInf)
      else Fin (p / q)%Qc
  | Fin _, (PInf | NInf) => of_Z 0
  | PInf, Fin q => flip_if (is_neg q) PInf
  | NInf, Fin q => flip_if (is_neg q) NInf
  | (PInf | NInf), (PInf | NInf) => NaN
  end.

Definition Qc_min (p q : Qc) : Qc := if decide (p ≤ q)%Qc then p else q.
Definition Qc_max (p q : Qc) : Qc := if decide (p ≤ q)%Qc then q else p.

(** [Math.min(a, b)] and [Math.max(a, b)] on numbers. *)
Definition min (a b : num) : num :=
  match a, b with
  | NaN, _ | _, NaN => NaN
  | NInf, _ | _, NInf => NInf
  | PInf, c | c, PInf => c
  | Fin p, Fin q => Fin (Qc_min p q)
  end.

Definition max (a b : num) : num :=
  match a, b with
  | NaN, _ | _, NaN => NaN
  | PInf, _ | _, PInf => PInf
  | NInf, c | c, NInf => c
  | Fin p, Fin q => Fin (Qc_max p q)
  end.

(** Truthiness of a number: [0] and [NaN] are falsy. *)
Definition truthy (a : num) : bool :=
  match a with
  | Fin q => negb (is_zero q)
  | PInf | NInf => true
  | NaN => false
  end.

(** [v || d] for a numeric field [v] and a number [d]. *)
Definition or_default (v : val) (d : num) : num :=
  match v with
  | VNum n => if truthy n then n else d
  | VNull | VUndef => d
  end.

(** What [JSON.parse(JSON.stringify(v))] makes of a numeric field:
    non-finite numbers are written as [null], a missing field stays
    missing. *)
Definition json_val (v : val) : val :=
  match v with
  | VNum (Fin q) => VNum (Fin q)
  | VNum _ => VNull
  | VNull => VNull
  | VUndef => VUndef
  end.

(** The same for an entry of an array, where [undefined] is written as
    [null] too. *)
Definition json_item (v : val) : val :=
  match v with
  | VNum (Fin q) => VNum (Fin q)
  | VNum _ | VNull | VUndef => VNull
  end.

End JsNum.

Import JsNum.

Declare Scope js_scope.
Delimit Scope js_scope with js.
Infix "+" := JsNum.add : js_scope.
Infix "-" := JsNum.sub : js_scope.
Infix "*" := JsNum.mul : js_scope.
Infix "/" := JsNum.div : js_scope.

Coercion VNum : num >-> val.

(** ** JavaScript strings and regular expressions *)

Module JsString.

Definition code (c : ascii) : N := N_of_ascii c.

Definition in_range (lo hi : N) (c : ascii) : bool :=
  (lo <=? code c)%N && (code c <=? hi)%N.

(** Upper-case letters of Latin-1: A-Z, and the accented capitals except
    the multiplication sign (215). *)
Definition is_upper (c : ascii) : bool :=
  in_range 65 90 c || in_range 192 214 c || in_range 216 222 c.

Definition lower_char (c : ascii) : ascii :=
  if is_upper c then ascii_of_N (code c + 32) else c.

Fixpoint toLowerCase (s : string) : string :=
  match s with
  | EmptyString => EmptyString
  | String c s' => String (lower_char c) (toLowerCase s')
  end.

Fixpoint starts_with (p s : list ascii) : bool :=
  match p, s with
  | [], _ => true
  | _ :: _, [] => false
  | a :: p', b :: s' => bool_decide (a = b) && starts_with p' s'
  end.

Fixpoint includes_from (s sub : list ascii) : bool :=
  starts_with sub s ||
  match s with
  | [] => false
  | _ :: s' => includes_from s' sub
  end.

(** [s.includes(sub)] *)
Definition includes (s sub : string) : bool :=
  includes_from (list_ascii_of_string s) (list_ascii_of_string sub).

(** *** A backtracking matcher

    Regular expressions are matched the way the JavaScript engine does it:
    alternatives in order, greedy quantifiers longest first, lazy ones
    shortest first, and the first start position that admits a match wins. *)

Inductive re : Type :=
| Chr (p : ascii -> bool)
| Eps
| Seq (r1 r2 : re)
| Alt (r1 r2 : re)
| Star (greedy : bool) (r : re)
| Group (n : nat) (r : re)
| Eoi.

(** Captured groups, most recent binding first. *)
Definition caps : Type := list (nat * list ascii).

Definition kont : Type := list ascii -> caps -> option caps.

Definition or_else (a : option caps) (b : option caps) : option caps :=
  match a with
  | Some c => Some c
  | None => b
  end.

(** Iteration of a quantified sub-expression. An iteration has to consume
    input, so the length of the remaining input bounds their number. *)
Fixpoint star_loop (step : list ascii -> caps -> kont -> option caps)
    (greedy : bool) (fuel : nat) (s : list ascii) (c : caps) (k : kont)
    : option caps :=
  match fuel with
  | O => k s c
  | S fuel' =>
      let iter :=
        step s c (fun s' c' =>
          if bool_decide (length s' < length s)%nat
          then star_loop step greedy fuel' s' c' k
          else None) in
      if greedy then or_else iter (k s c) else or_else (k s c) iter
  end.

Fixpoint rmatch (r : re) (s : list ascii) (c : caps) (k : kont) : option caps :=
  match r with
  | Chr p =>
      match s with
      | a :: s' => if p a then k s' c else None
      | [] => None
      end
  | Eps => k s c
  | Seq r1 r2 => rmatch r1 s c (fun s' c' => rmatch r2 s' c' k)
  | Alt r1 r2 => or_else (rmatch r1 s c k) (rmatch r2 s c k)
  | Star g r1 => star_loop (rmatch r1) g (length s) s c k
  | Group n r1 =>
      rmatch r1 s c (fun s' c' =>
        k s' ((n, take (length s - length s') s) :: c'))
  | Eoi =>
      match s with
      | [] => k s c
      | _ :: _ => None
      end
  end.

Fixpoint search (r : re) (s : list ascii) : option caps :=
  or_else (rmatch r s [] (fun _ c => Some c))
          match s with
          | [] => None
          | _ :: s' => search r s'
          end.

(** [s.match(r)] for a regular expression without the [g] flag: the
    captured groups of the first match, if any. *)
Definition exec (r : re) (s : string) : option caps :=
  search r (list_ascii_of_string s).

Fixpoint lookup_group (c : caps) (n : nat) : option string :=
  match c with
  | [] => None
  | (m, t) :: c' =>
      if bool_decide (m = n) then Some (string_of_list_ascii t)
      else lookup_group c' n
  end.

(** *** Building blocks *)

Definition plus (r : re) : re := Seq r (Star true r).
Definition plus_lazy (r : re) : re := Seq r (Star false r).
Definition opt (r : re) : re := Alt r Eps.

Fixpoint lit_chars (l : list ascii) : re :=
  match l with
  | [] => Eps
  | a :: l' => Seq (Chr (fun b => bool_decide (a = b))) (lit_chars l')
  end.
Definition lit (s : string) : re := lit_chars (list_ascii_of_string s).

(** A literal under the [i] flag. *)
Fixpoint lit_ci_chars (l : list ascii) : re :=
  match l with
  | [] => Eps
  | a :: l' =>
      Seq (Chr (fun b => bool_decide (lower_char a = lower_char b)))
          (lit_ci_chars l')
  end.
Definition lit_ci (s : string) : re := lit_ci_chars (list_ascii_of_string s).

Fixpoint alts (l : list re) : re :=
  match l with
  | [] => Chr (fun _ => false)
  | [r] => r
  | r :: l' => Alt r (alts l')
  end.

(** [\d], [\w], [\s] and [.] *)
Definition digit (c : ascii) : bool := in_range 48 57 c.
Definition word (c : ascii) : bool :=
  in_range 97 122 c || in_range 65 90 c || digit c || bool_decide (code c = 95%N).
Definition space (c : ascii) : bool :=
  in_range 9 13 c || bool_decide (code c = 32%N) || bool_decide (code c = 160%N).
Definition dot (c : ascii) : bool :=
  negb (bool_decide (code c = 10%N) || bool_decide (code c = 13%N)).

(** [parseInt] on a string of decimal digits. *)
Definition digit_value (c : ascii) : nat := N.to_nat (code c - 48).
Definition parseInt_digits (s : string) : nat :=
  fold_left (fun acc c => (10 * acc + digit_value c)%nat)
            (list_ascii_of_string s) O.

End JsString.

Import JsString.

(** ** Board objects *)

(** The [TOOLS] table; an object's [type] is the tool that drew it. *)
Inductive Tool : Type :=
| PEN
| SELECT
| RECTANGLE
| CIRCLE
| ARROW
| TEXT
| ERASER.

#[global] Instance Tool_eq_dec : EqDecision Tool.
Proof. solve_decision. Defined.

(** The [data] payload of an object. One record carries the fields of every
    kind, as the JavaScript object does; a field an object does not have is
    [VUndef], [None] or [false]. *)
Module Data.

Record t : Type := mk {
  x : val;
  y : val;
  width : val;
  height : val;
  radius : val;
  points : option (list val);
  closed : bool;
  text : option string;
  fontSize : val;
  align : option string;
  stroke : option string;
  strokeWidth : val;
  fill : option string
}.

(** [{}] *)
Definition empty : t :=
  mk VUndef VUndef VUndef VUndef VUndef None false None VUndef None None VUndef None.

Definition set_x (v : val) (d : t) : t :=
  mk v (y d) (width d) (height d) (radius d) (points d) (closed d) (text d)
     (fontSize d) (align d) (stroke d) (strokeWidth d) (fill d).

Definition set_y (v : val) (d : t) : t :=
  mk (x d) v (width d) (height d) (radius d) (points d) (closed d) (text d)
     (fontSize d) (align d) (stroke d) (strokeWidth d) (fill d).

Definition set_points (p : option (list val)) (d : t) : t :=
  mk (x d) (y d) (width d) (height d) (radius d) p (closed d) (text d)
     (fontSize d) (align d) (stroke d) (strokeWidth d) (fill d).

End Data.

Record BoardObject : Type := mkObject {
  id : string;
  type : Tool;
  data : Data.t
}.

Module Box.

Record t : Type := mk {
  x : val;
  y : val;
  width : val;
  height : val
}.

End Box.

Local Open Scope string_scope.
Local Open Scope list_scope.

(** ** Geometry *)

(** The four running extremes of the point loop: minX, maxX, minY, maxY. *)
Record Extremes : Type := mkExtremes {
  minX : num;
  maxX : num;
  minY : num;
  maxY : num
}.

(** One turn of the loop body, for [pts[i]] and [pts[i + 1]]. *)
Definition extend (e : Extremes) (px py : val) : Extremes :=
  {| minX := JsNum.min (minX e) (ToNumber px);
     maxX := JsNum.max (maxX e) (ToNumber px);
     minY := JsNum.min (minY e) (ToNumber py);
     maxY := JsNum.max (maxY e) (ToNumber py) |}.

(** [for (let i = 0; i < pts.length; i += 2)]: the list is consumed two
    entries at a time; when a last entry has no partner, [pts[i + 1]] reads
    as [undefined]. *)
Fixpoint point_loop (pts : list val) (e : Extremes) : Extremes :=
  match pts with
  | [] => e
  | [px] => extend e px VUndef
  | px :: py :: rest => point_loop rest (extend e px py)
  end.

Definition getBoundingBox (obj : option BoardObject) : option Box.t :=
  match obj with
  | None => None
  | Some obj =>
      let data := data obj in
      if decide (type obj = RECTANGLE) then
        let x1 := JsNum.min (ToNumber (Data.x data))
                            (ToNumber (Data.x data) + ToNumber (Data.width data))%js in
        let y1 := JsNum.min (ToNumber (Data.y data))
                            (ToNumber (Data.y data) + ToNumber (Data.height data))%js in
        let x2 := JsNum.max (ToNumber (Data.x data))
                            (ToNumber (Data.x data) + ToNumber (Data.width data))%js in
        let y2 := JsNum.max (ToNumber (Data.y data))
                            (ToNumber (Data.y data) + ToNumber (Data.height data))%js in
        Some {| Box.x := x1; Box.y := y1;
                Box.width := (x2 - x1)%js; Box.height := (y2 - y1)%js |}
      else if decide (type obj = CIRCLE) then
        let r := or_default (Data.radius data) (of_Z 0) in
        Some {| Box.x := (ToNumber (Data.x data) - r)%js;
                Box.y := (ToNumber (Data.y data) - r)%js;
                Box.width := (r * of_Z 2)%js;
                Box.height := (r * of_Z 2)%js |}
      else if decide (type obj = PEN ∨ type obj = ARROW) then
        let pts := default [] (Data.points data) in
        if decide (length pts < 2)%nat then None
        else
          let e := point_loop pts (mkExtremes PInf NInf PInf NInf) in
          Some {| Box.x := minX e; Box.y := minY e;
                  Box.width := (maxX e - minX e)%js;
                  Box.height := (maxY e - minY e)%js |}
      else if decide (type obj = TEXT) then
        Some {| Box.x := Data.x data; Box.y := Data.y data;
                Box.width := or_default (Data.width data) (of_Z 120);
                Box.height := or_default (Data.fontSize data) (of_Z 20) |}
      else None
  end.

(** ** Component state and handlers *)

(** The [useState] cells of [WhiteboardPage] that the embedded handlers read
    or write. [socket] records whether the socket cell holds a socket object
    ([null] until [setupSocket] has stored one). *)
Record State : Type := mkState {
  objects : list BoardObject;
  boardVersion : Z;
  selectedTool : Tool;
  selectedId : option string;
  history : list (list BoardObject);
  historyStep : nat;
  isDrawing : bool;
  currentShape : option BoardObject;
  socket : bool
}.

(** What a handler does besides updating state: messages sent on the socket
    and toasts shown. *)
Inductive Effect : Type :=
| Emit_board_update (objs : list BoardObject) (version : Z)
| Toast_error (msg : string)
| Toast_success (msg : string).

(** A handler reads the state cells as captured by the render that created
    it and queues updates; the queued updates take effect at the next render.
    [M A] takes the captured state, the state being assembled and the effects
    so far. [None] stands for a handler that leaves the document model (it
    stores [undefined] where a list is expected, or throws). *)
Definition M (A : Type) : Type :=
  State -> State * list Effect -> option (A * (State * list Effect)).

#[global] Instance M_ret : MRet M :=
  fun A a _ p => Some (a, p).

#[global] Instance M_bind : MBind M :=
  fun A B f m cl p =>
    match m cl p with
    | Some (a, p') => f a cl p'
    | None => None
    end.

Definition read {A : Type} (f : State -> A) : M A :=
  fun cl p => Some (f cl, p).

Definition update (f : State -> State) : M unit :=
  fun _ p => Some (tt, (f p.1, p.2)).

Definition effect (e : Effect) : M unit :=
  fun _ p => Some (tt, (p.1, p.2 ++ [e])).

Definition fail {A : Type} : M A :=
  fun _ _ => None.

(** Running a handler created by a render of state [st]. *)
Definition run {A : Type} (m : M A) (st : State) : option (A * (State * list Effect)) :=
  m st (st, []).

(** Record updates, one per state cell. *)
Definition with_objects (v : list BoardObject) (s : State) : State :=
  mkState v (boardVersion s) (selectedTool s) (selectedId s)
    (history s) (historyStep s) (isDrawing s) (currentShape s) (socket s).

Definition with_boardVersion (v : Z) (s : State) : State :=
  mkState (objects s) v (selectedTool s) (selectedId s)
    (history s) (historyStep s) (isDrawing s) (currentShape s) (socket s).

Definition with_selectedId (v : option string) (s : State) : State :=
  mkState (objects s) (boardVersion s) (selectedTool s) v
    (history s) (historyStep s) (isDrawing s) (currentShape s) (socket s).

Definition with_history (v : list (list BoardObject)) (s : State) : State :=
  mkState (objects s) (boardVersion s) (selectedTool s) (selectedId s)
    v (historyStep s) (isDrawing s) (currentShape s) (socket s).

Definition with_historyStep (v : nat) (s : State) : State :=
  mkState (objects s) (boardVersion s) (selectedTool s) (selectedId s)
    (history s) v (isDrawing s) (currentShape s) (socket s).

Definition with_isDrawing (v : bool) (s : State) : State :=
  mkState (objects s) (boardVersion s) (selectedTool s) (selectedId s)
    (history s) (historyStep s) v (currentShape s) (socket s).

Definition with_currentShape (v : option BoardObject) (s : State) : State :=
  mkState (objects s) (boardVersion s) (selectedTool s) (selectedId s)
    (history s) (historyStep s) (isDrawing s) v (socket s).

(** The state setters returned by [useState]. *)
Definition setObjects (v : list BoardObject) : M unit := update (with_objects v).
Definition setBoardVersion (v : Z) : M unit := update (with_boardVersion v).
Definition setSelectedId (v : option string) : M unit := update (with_selectedId v).
Definition setHistory (v : list (list BoardObject)) : M unit := update (with_history v).
Definition setHistoryStep (v : nat) : M unit := update (with_historyStep v).
Definition setIsDrawing (v : bool) : M unit := update (with_isDrawing v).
Definition setCurrentShape (v : option BoardObject) : M unit := update (with_currentShape v).

(** The state updates of [loadBoard] once the board has arrived: [objs] is
    [response.data.objects || []] and [version] is
    [response.data.version || 0]. *)
Definition on_board_loaded (objs : list BoardObject) (version : Z) : M unit :=
  setObjects objs ;;
  setBoardVersion version ;;
  setHistory [objs] ;;
  setHistoryStep 0.

(** The payload of a received [board_updated] event. [bu_version] is [Some v]
    when [typeof data.version === 'number'] and [None] otherwise. *)
Record BoardUpdated : Type := mkBoardUpdated {
  bu_objects : list BoardObject;
  bu_version : option Z
}.

(** [newSocket.on('board_updated', ...)] *)
Definition on_board_updated (data : BoardUpdated) : M unit :=
  setObjects (bu_objects data) ;;
  match bu_version data with
  | Some v => setBoardVersion v
  | None => mret tt
  end.

Definition saveToHistory (newObjects : list BoardObject) : M unit :=
  h ← read history;
  step ← read historyStep;
  let newHistory := take (step + 1) h ++ [newObjects] in
  setHistory newHistory ;;
  setHistoryStep (length newHistory - 1).

Definition broadcastUpdate (newObjects : list BoardObject) : M unit :=
  s ← read socket;
  if (s : bool) then
    v ← read boardVersion;
    let nextVersion := (v + 1)%Z in
    setBoardVersion nextVersion ;;
    effect (Emit_board_update newObjects nextVersion)
  else mret tt.

Definition commitObjects (newObjects : list BoardObject) : M unit :=
  setObjects newObjects ;;
  saveToHistory newObjects ;;
  broadcastUpdate newObjects.

(** [getPrimaryObject]: the last object, or [null]. *)
Definition getPrimaryObject : M (option BoardObject) :=
  read (fun cl => last (objects cl)).

(** [history[i]]; reading past the end yields [undefined], which
    [setObjects] cannot take. *)
Definition snapshot_at (i : nat) : M (list BoardObject) :=
  h ← read history;
  match h !! i with
  | Some o => mret o
  | None => fail
  end.

Definition handleUndo : M unit :=
  step ← read historyStep;
  if decide (step = 0) then mret tt
  else
    let newStep := step - 1 in
    (setHistoryStep newStep ;;
     newObjects ← snapshot_at newStep;
     setObjects newObjects ;;
     broadcastUpdate newObjects) : M unit.

Definition handleRedo : M unit :=
  step ← read historyStep;
  h ← read history;
  if decide (Z.of_nat step >= Z.of_nat (length h) - 1)%Z then mret tt
  else
    let newStep := step + 1 in
    (setHistoryStep newStep ;;
     newObjects ← snapshot_at newStep;
     setObjects newObjects ;;
     broadcastUpdate newObjects) : M unit.

(** An AI suggestion; the handlers read only [type] and [title]. *)
Module Suggestion.

Record t : Type := mk {
  id : string;
  type : option string;
  title : option string;
  description : option string
}.

End Suggestion.

(** A structured shape-creation command of the AI fallback. [quantity] is
    [0] when the command has none. *)
Module ShapeCommand.

Record t : Type := mk {
  shape_type : string;
  quantity : nat;
  position : option string;
  reference : option string;
  text_content : option string
}.

End ShapeCommand.

(** Truthiness of a string that may be missing. *)
Definition nonempty (s : option string) : bool :=
  match s with
  | Some s => negb (bool_decide (s = ""))
  | None => false
  end.

Section Handlers.

(** [Date.now()], taken to return the same instant throughout one handler
    call, and the size of the browser window. *)
Variable now : N.
Variables innerWidth innerHeight : num.

Definition applyShapeClean (target : BoardObject) : M bool :=
  match getBoundingBox (Some target) with
  | None => mret false
  | Some box =>
      let rect :=
        {| id := "rect-" +:+ pretty now;
           type := RECTANGLE;
           data := Data.mk (Box.x box) (Box.y box) (Box.width box) (Box.height box)
                     VUndef None false None VUndef None
                     (Some "#18181B") (of_Z 2) (Some "transparent") |} in
      objs ← read objects;
      let newObjects :=
        filter (fun o => id o ≠ id target) objs ++ [rect] in
      commitObjects newObjects ;;
      setSelectedId (Some (id rect)) ;;
      mret true
  end.

Definition applyAnnotation (target : BoardObject) (suggestion : option Suggestion.t)
    : M bool :=
  match getBoundingBox (Some target) with
  | None => mret false
  | Some box =>
      let label :=
        if nonempty (suggestion ≫= Suggestion.title)
        then default "" (suggestion ≫= Suggestion.title)
        else "Label" in
      let text :=
        {| id := "text-" +:+ pretty now;
           type := TEXT;
           data := Data.mk
                     (ToNumber (Box.x box) + ToNumber (Box.width box) / of_Z 2 - of_Z 60)%js
                     (ToNumber (Box.y box) + ToNumber (Box.height box) / of_Z 2 - of_Z 10)%js
                     (of_Z 120) VUndef VUndef None false (Some label) (of_Z 18)
                     (Some "center") None VUndef (Some "#18181B") |} in
      objs ← read objects;
      commitObjects (objs ++ [text]) ;;
      setSelectedId (Some (id text)) ;;
      mret true
  end.

Definition applyFlowExpansion (target : BoardObject) : M bool :=
  match getBoundingBox (Some target) with
  | None => mret false
  | Some box =>
      let baseWidth := or_default (Box.width box) (of_Z 140) in
      let baseHeight := or_default (Box.height box) (of_Z 80) in
      let newRect_x := (ToNumber (Box.x box) + ToNumber (Box.width box) + of_Z 80)%js in
      let newRect :=
        {| id := "rect-" +:+ pretty now;
           type := RECTANGLE;
           data := Data.mk newRect_x (Box.y box) baseWidth baseHeight
                     VUndef None false None VUndef None
                     (Some "#18181B") (of_Z 2) (Some "transparent") |} in
      let sourceCenter_x := (ToNumber (Box.x box) + ToNumber (Box.width box) / of_Z 2)%js in
      let sourceCenter_y := (ToNumber (Box.y box) + ToNumber (Box.height box) / of_Z 2)%js in
      let targetCenter_x := (newRect_x + baseWidth / of_Z 2)%js in
      let targetCenter_y := (ToNumber (Box.y box) + baseHeight / of_Z 2)%js in
      let newArrow :=
        {| id := "arrow-" +:+ pretty now;
           type := ARROW;
           data := Data.mk VUndef VUndef VUndef VUndef VUndef
                     (Some [VNum sourceCenter_x; VNum sourceCenter_y;
                            VNum targetCenter_x; VNum targetCenter_y])
                     false None VUndef None
                     (Some "#18181B") (of_Z 2) (Some "#18181B") |} in
      objs ← read objects;
      commitObjects (objs ++ [newRect; newArrow]) ;;
      setSelectedId (Some (id newRect)) ;;
      mret true
  end.

Definition applySuggestion (suggestion : option Suggestion.t) : M bool :=
  target ← getPrimaryObject;
  match target with
  | None =>
      effect (Toast_error "Draw something first to apply suggestions") ;;
      mret false
  | Some target =>
      let title := toLowerCase (default "" (suggestion ≫= Suggestion.title)) in
      let ty := suggestion ≫= Suggestion.type in
      if decide (ty = Some "shape_clean") then applyShapeClean target
      else if decide (ty = Some "annotation") then applyAnnotation target suggestion
      else if decide (ty = Some "diagram_improvement") then applyFlowExpansion target
      else if includes title "rectangle" then applyShapeClean target
      else if includes title "label" then applyAnnotation target suggestion
      else if includes title "flow" then applyFlowExpansion target
      else mret false
  end.

(** [handleMouseDown]: [pointer_x] and [pointer_y] are the pointer position
    on the stage, [answer] is what [prompt('Enter text:')] returns when the
    text tool asks for it. *)
Definition handleMouseDown (pointer_x pointer_y : val) (answer : option string)
    : M unit :=
  tool ← read selectedTool;
  if decide (tool = SELECT ∨ tool = ERASER) then mret tt
  else
    let newShape (d : Data.t) : BoardObject :=
      {| id := "shape-" +:+ pretty now; type := tool; data := d |} in
    setIsDrawing true ;;
    if decide (tool = PEN) then
      setCurrentShape (Some (newShape
        (Data.mk VUndef VUndef VUndef VUndef VUndef
           (Some [pointer_x; pointer_y]) false None VUndef None
           (Some "#18181B") (of_Z 2) None)))
    else if decide (tool = RECTANGLE) then
      setCurrentShape (Some (newShape
        (Data.mk pointer_x pointer_y (of_Z 0) (of_Z 0) VUndef None false None
           VUndef None (Some "#18181B") (of_Z 2) (Some "transparent"))))
    else if decide (tool = CIRCLE) then
      setCurrentShape (Some (newShape
        (Data.mk pointer_x pointer_y VUndef VUndef (of_Z 0) None false None
           VUndef None (Some "#18181B") (of_Z 2) (Some "transparent"))))
    else if decide (tool = ARROW) then
      setCurrentShape (Some (newShape
        (Data.mk VUndef VUndef VUndef VUndef VUndef
           (Some [pointer_x; pointer_y; pointer_x; pointer_y]) false None
           VUndef None (Some "#18181B") (of_Z 2) (Some "#18181B"))))
    else if decide (tool = TEXT) then
      (if nonempty answer then
         let newShape :=
           newShape (Data.mk pointer_x pointer_y VUndef VUndef VUndef None false
                       answer (of_Z 20) None None VUndef (Some "#18181B")) in
         objs ← read objects;
         let newObjects := objs ++ [newShape] in
         setObjects newObjects ;;
         saveToHistory newObjects ;;
         broadcastUpdate newObjects
       else mret tt) ;;
      setIsDrawing false
    else setCurrentShape (Some (newShape Data.empty)).

Definition handleMouseUp : M unit :=
  drawing ← read isDrawing;
  shape ← read currentShape;
  match (drawing : bool), shape with
  | true, Some currentShape =>
      objs ← read objects;
      let newObjects := objs ++ [currentShape] in
      setObjects newObjects ;;
      saveToHistory newObjects ;;
      broadcastUpdate newObjects ;;
      setIsDrawing false ;;
      setCurrentShape None
  | _, _ => mret tt
  end.

Definition deleteById (targetId : option string) : M bool :=
  match targetId with
  | Some targetId =>
      if bool_decide (targetId = "") then mret false
      else
        objs ← read objects;
        let newObjects := filter (fun obj => id obj ≠ targetId) objs in
        commitObjects newObjects ;;
        setSelectedId None ;;
        mret true
  | None => mret false
  end.

Definition handleDelete : M unit :=
  sel ← read selectedId;
  objs ← read objects;
  let targetId := if nonempty sel then sel else id <$> last objs in
  deleteById targetId ;;
  mret tt.

(** [confirmed] is the answer to [window.confirm('Clear entire board?')]. *)
Definition handleClear (confirmed : bool) : M unit :=
  if confirmed then
    let newObjects := [] in
    setObjects newObjects ;;
    saveToHistory newObjects ;;
    broadcastUpdate newObjects
  else mret tt.

(** The [onDragEnd] handler of the rendered object [obj]; [tx] and [ty] are
    [e.target.x()] and [e.target.y()]. *)
Definition onDragEnd (obj : BoardObject) (tx ty : val) : M unit :=
  objs ← read objects;
  let newObjects :=
    (fun o =>
       if decide (id o = id obj)
       then {| id := id o; type := type o;
               data := Data.set_y ty (Data.set_x tx (data o)) |}
       else o) <$> objs in
  setObjects newObjects ;;
  saveToHistory newObjects ;;
  broadcastUpdate newObjects.

(** The [onClick] handler of the rendered object [obj]. *)
Definition onClick (obj : BoardObject) : M unit :=
  tool ← read selectedTool;
  if decide (tool = ERASER) then deleteById (Some (id obj)) ;; mret tt
  else setSelectedId (Some (id obj)).

(** *** The prompt interpreter *)

Definition baseSize : num := of_Z 150.
Definition spacing : num := of_Z 50.

Definition of_nat (n : nat) : num := of_Z (Z.of_nat n).

(** [quantityMap[w]], with [0] for a missing key. *)
Definition quantityMap (w : string) : nat :=
  if bool_decide (w = "one") then 1
  else if bool_decide (w = "two") then 2
  else if bool_decide (w = "three") then 3
  else if bool_decide (w = "four") then 4
  else if bool_decide (w = "five") then 5
  else if bool_decide (w = "six") then 6
  else if bool_decide (w = "seven") then 7
  else if bool_decide (w = "eight") then 8
  else if bool_decide (w = "nine") then 9
  else if bool_decide (w = "ten") then 10
  else 0.

(** [/(\d+|one|two|three|four|five|six|seven|eight|nine|ten)/] *)
Definition numberRe : re :=
  Group 1 (alts [plus (Chr digit); lit "one"; lit "two"; lit "three"; lit "four";
                 lit "five"; lit "six"; lit "seven"; lit "eight"; lit "nine";
                 lit "ten"]).

(** [/(?:make|create|draw|add)\s+(?:a\s+)?(\w+)/] *)
Definition shapeRe : re :=
  Seq (alts [lit "make"; lit "create"; lit "draw"; lit "add"])
    (Seq (plus (Chr space))
       (Seq (opt (Seq (lit "a") (plus (Chr space))))
          (Group 1 (plus (Chr word))))).

Definition quote (c : ascii) : bool :=
  bool_decide (code c = 34%N) || bool_decide (code c = 39%N).

(** [/["'](.+?)["']|text:\s*(.+?)(?:\s|$)|label:\s*(.+?)(?:\s|$)/i] *)
Definition textRe : re :=
  alts [Seq (Chr quote) (Seq (Group 1 (plus_lazy (Chr dot))) (Chr quote));
        Seq (lit_ci "text:")
          (Seq (Star true (Chr space))
             (Seq (Group 2 (plus_lazy (Chr dot))) (Alt (Chr space) Eoi)));
        Seq (lit_ci "label:")
          (Seq (Star true (Chr space))
             (Seq (Group 3 (plus_lazy (Chr dot))) (Alt (Chr space) Eoi)))].

(** [a || b] on strings that may be missing. *)
Definition str_or (a b : option string) : option string :=
  if nonempty a then a else b.

Definition parseQuantity (lowerPrompt : string) : nat :=
  match exec numberRe lowerPrompt with
  | Some numberMatch =>
      let num := default "" (lookup_group numberMatch 1) in
      if bool_decide (quantityMap num ≠ 0) then quantityMap num
      else if bool_decide (parseInt_digits num ≠ 0) then parseInt_digits num
      else 1
  | None => 1
  end.

(** [[...objects].reverse().find(p)] *)
Definition find_last (p : BoardObject -> bool) (objs : list BoardObject)
    : option BoardObject :=
  List.find p (rev objs).

Definition is_triangle (obj : BoardObject) : bool :=
  bool_decide (type obj = PEN) && Data.closed (data obj).
Definition is_type (t : Tool) (obj : BoardObject) : bool :=
  bool_decide (type obj = t).

(** The search by the shape word found in the prompt, as written in the
    "below" and in the "above" branch. *)
Definition find_mentioned (lowerPrompt : string) (objs : list BoardObject)
    : option BoardObject :=
  if includes lowerPrompt "triangle" then find_last is_triangle objs
  else if includes lowerPrompt "circle" then find_last (is_type CIRCLE) objs
  else if includes lowerPrompt "rectangle" || includes lowerPrompt "square"
  then find_last (is_type RECTANGLE) objs
  else None.

(** [if (!referenceObj && objects.length > 0) referenceObj = objects[objects.length - 1]] *)
Definition or_last (referenceObj : option BoardObject) (objs : list BoardObject)
    : option BoardObject :=
  match referenceObj with
  | Some r => Some r
  | None => last objs
  end.

(** Entries at even and at odd indices. *)
Fixpoint evens {A : Type} (l : list A) : list A :=
  match l with
  | [] => []
  | a :: l' => a :: odds l'
  end
with odds {A : Type} (l : list A) : list A :=
  match l with
  | [] => []
  | _ :: l' => evens l'
  end.

(** [Math.max(...l)], [Math.min(...l)] and [l.reduce((a, b) => a + b, 0)] *)
Definition max_of (l : list val) : num :=
  fold_left (fun acc v => JsNum.max acc (ToNumber v)) l NInf.
Definition min_of (l : list val) : num :=
  fold_left (fun acc v => JsNum.min acc (ToNumber v)) l PInf.
Definition sum_of (l : list val) : num :=
  fold_left (fun acc v => (acc + ToNumber v)%js) l (of_Z 0).

Definition avgX (points : list val) : num :=
  (sum_of (evens points) / (of_nat (length points) / of_Z 2))%js.

(** The centre of the new shape: [centerX] and [centerY]. *)
Record Center : Type := mkCenter {
  centerX : val;
  centerY : val
}.

Definition viewport_center : Center :=
  {| centerX := (innerWidth / of_Z 2)%js;
     centerY := ((innerHeight - of_Z 120) / of_Z 2)%js |}.

(** The position updates of the four directions; [c] is the centre before
    the update, kept when the kind of [referenceObj] is not handled. *)
Definition center_below (referenceObj : BoardObject) (c : Center) : Center :=
  let d := data referenceObj in
  if decide (type referenceObj = CIRCLE) then
    {| centerX := Data.x d;
       centerY := (ToNumber (Data.y d) + ToNumber (Data.radius d)
                   + baseSize / of_Z 2 + spacing)%js |}
  else if decide (type referenceObj = RECTANGLE) then
    {| centerX := (ToNumber (Data.x d) + ToNumber (Data.width d) / of_Z 2)%js;
       centerY := (ToNumber (Data.y d) + ToNumber (Data.height d)
                   + baseSize / of_Z 2 + spacing)%js |}
  else if decide (type referenceObj = PEN) then
    match Data.points d with
    | Some points =>
        {| centerX := avgX points;
           centerY := (max_of (odds points) + baseSize / of_Z 2 + spacing)%js |}
    | None => c
    end
  else c.

Definition center_above (referenceObj : BoardObject) (c : Center) : Center :=
  let d := data referenceObj in
  if decide (type referenceObj = CIRCLE) then
    {| centerX := Data.x d;
       centerY := (ToNumber (Data.y d) - ToNumber (Data.radius d)
                   - baseSize / of_Z 2 - spacing)%js |}
  else if decide (type referenceObj = RECTANGLE) then
    {| centerX := (ToNumber (Data.x d) + ToNumber (Data.width d) / of_Z 2)%js;
       centerY := (ToNumber (Data.y d) - baseSize / of_Z 2 - spacing)%js |}
  else if decide (type referenceObj = PEN) then
    match Data.points d with
    | Some points =>
        {| centerX := avgX points;
           centerY := (min_of (odds points) - baseSize / of_Z 2 - spacing)%js |}
    | None => c
    end
  else c.

Definition center_right (referenceObj : BoardObject) (c : Center) : Center :=
  let d := data referenceObj in
  if decide (type referenceObj = CIRCLE) then
    {| centerX := (ToNumber (Data.x d) + ToNumber (Data.radius d)
                   + baseSize / of_Z 2 + spacing)%js;
       centerY := Data.y d |}
  else if decide (type referenceObj = RECTANGLE) then
    {| centerX := (ToNumber (Data.x d) + ToNumber (Data.width d)
                   + baseSize / of_Z 2 + spacing)%js;
       centerY := (ToNumber (Data.y d) + ToNumber (Data.height d) / of_Z 2)%js |}
  else c.

Definition center_left (referenceObj : BoardObject) (c : Center) : Center :=
  let d := data referenceObj in
  if decide (type referenceObj = CIRCLE) then
    {| centerX := (ToNumber (Data.x d) - ToNumber (Data.radius d)
                   - baseSize / of_Z 2 - spacing)%js;
       centerY := Data.y d |}
  else if decide (type referenceObj = RECTANGLE) then
    {| centerX := (ToNumber (Data.x d) - baseSize / of_Z 2 - spacing)%js;
       centerY := (ToNumber (Data.y d) + ToNumber (Data.height d) / of_Z 2)%js |}
  else c.

(** [if (referenceObj) { ... }] *)
Definition move_center (f : BoardObject -> Center -> Center)
    (referenceObj : option BoardObject) (c : Center) : Center :=
  match referenceObj with
  | Some r => f r c
  | None => c
  end.

(** The "Parse spatial relationships" block of [createShapeFromPrompt]: the
    reference object it settles on and the resulting centre. *)
Definition promptPlacement (lowerPrompt : string) (objs : list BoardObject)
    : option BoardObject * Center :=
  if includes lowerPrompt "below" || includes lowerPrompt "under"
     || includes lowerPrompt "beneath" then
    let referenceObj := or_last (find_mentioned lowerPrompt objs) objs in
    (referenceObj, move_center center_below referenceObj viewport_center)
  else if includes lowerPrompt "above" || includes lowerPrompt "over" then
    let referenceObj := or_last (find_mentioned lowerPrompt objs) objs in
    (referenceObj, move_center center_above referenceObj viewport_center)
  else if includes lowerPrompt "right" || includes lowerPrompt "beside" then
    let referenceObj := last objs in
    (referenceObj, move_center center_right referenceObj viewport_center)
  else if includes lowerPrompt "left" then
    let referenceObj := last objs in
    (referenceObj, move_center center_left referenceObj viewport_center)
  else (None, viewport_center).

(** [n / 2] *)
Definition half (n : num) : num := (n / of_Z 2)%js.

(** The object literals of the five shapes, built around the centre [c];
    [createShapeFromPrompt] and [executeShapeCommand] write the same ones. *)
Definition new_triangle (c : Center) : BoardObject :=
  let height := baseSize in
  let width := baseSize in
  {| id := "shape-" +:+ pretty now;
     type := PEN;
     data := Data.mk VUndef VUndef VUndef VUndef VUndef
               (Some [centerX c;
                      VNum (ToNumber (centerY c) - half height)%js;
                      VNum (ToNumber (centerX c) - half width)%js;
                      VNum (ToNumber (centerY c) + half height)%js;
                      VNum (ToNumber (centerX c) + half width)%js;
                      VNum (ToNumber (centerY c) + half height)%js;
                      centerX c;
                      VNum (ToNumber (centerY c) - half height)%js])
               true None VUndef None (Some "#18181B") (of_Z 2) None |}.

Definition new_circle (c : Center) : BoardObject :=
  {| id := "shape-" +:+ pretty now;
     type := CIRCLE;
     data := Data.mk (centerX c) (centerY c) VUndef VUndef (half baseSize)
               None false None VUndef None (Some "#18181B") (of_Z 2) None |}.

Definition new_rectangle (c : Center) : BoardObject :=
  {| id := "shape-" +:+ pretty now;
     type := RECTANGLE;
     data := Data.mk (ToNumber (centerX c) - half baseSize)%js
               (ToNumber (centerY c) - half baseSize)%js
               baseSize baseSize VUndef
               None false None VUndef None (Some "#18181B") (of_Z 2) None |}.

Definition new_arrow (c : Center) : BoardObject :=
  {| id := "shape-" +:+ pretty now;
     type := ARROW;
     data := Data.mk VUndef VUndef VUndef VUndef VUndef
               (Some [VNum (ToNumber (centerX c) - of_Z 100)%js; centerY c;
                      VNum (ToNumber (centerX c) + of_Z 100)%js; centerY c])
               false None VUndef None (Some "#18181B") (of_Z 2) (Some "#18181B") |}.

Definition new_text (c : Center) (content : option string) : BoardObject :=
  {| id := "shape-" +:+ pretty now;
     type := TEXT;
     data := Data.mk (ToNumber (centerX c) - of_Z 50)%js
               (ToNumber (centerY c) - of_Z 20)%js
               VUndef VUndef VUndef
               None false content (of_Z 24) None None VUndef (Some "#18181B") |}.

(** [JSON.parse(JSON.stringify(shape))] *)
Definition json_data (d : Data.t) : Data.t :=
  Data.mk (json_val (Data.x d)) (json_val (Data.y d)) (json_val (Data.width d))
    (json_val (Data.height d)) (json_val (Data.radius d))
    (fmap (M := list) json_item <$> Data.points d) (Data.closed d) (Data.text d)
    (json_val (Data.fontSize d)) (Data.align d) (Data.stroke d)
    (json_val (Data.strokeWidth d)) (Data.fill d).

Definition json_clone (o : BoardObject) : BoardObject :=
  {| id := id o; type := type o; data := json_data (data o) |}.

(** The horizontal offset of copy [i] in a row of [quantity] copies. *)
Definition row_offset (quantity i : nat) : num :=
  if decide (1 < quantity) then
    let totalWidth := ((baseSize + spacing) * of_nat quantity - spacing)%js in
    (of_nat i * (baseSize + spacing) - totalWidth / of_Z 2 + baseSize / of_Z 2)%js
  else of_Z 0.

(** Copy [i] of the loop of [createShapeFromPrompt]. [None] when the copy
    is an arrow without a point list, whose [points.map] throws. *)
Definition prompt_instance (newShape : BoardObject) (quantity i : nat)
    : option BoardObject :=
  let offsetX := row_offset quantity i in
  let offsetY := of_Z 0 in
  let shapeInstance := json_clone newShape in
  let d := data shapeInstance in
  let shifted (points : list val) : list val :=
    imap (fun idx v => if Nat.even idx
                       then VNum (ToNumber v + offsetX)%js
                       else VNum (ToNumber v + offsetY)%js) points in
  let moved : Data.t :=
    Data.set_y (ToNumber (Data.y d) + offsetY)%js
      (Data.set_x (ToNumber (Data.x d) + offsetX)%js d) in
  let with_data (d' : Data.t) : BoardObject :=
    {| id := "shape-" +:+ pretty now +:+ "-" +:+ pretty i;
       type := type shapeInstance; data := d' |} in
  if decide (type shapeInstance = CIRCLE) then Some (with_data moved)
  else if decide (type shapeInstance = RECTANGLE) then Some (with_data moved)
  else if bool_decide (type shapeInstance = PEN) && bool_decide (is_Some (Data.points d))
  then Some (with_data (Data.set_points (shifted <$> Data.points d) d))
  else if decide (type shapeInstance = ARROW) then
    match Data.points d with
    | Some points => Some (with_data (Data.set_points (Some (shifted points)) d))
    | None => None
    end
  else if decide (type shapeInstance = TEXT) then Some (with_data moved)
  else Some (with_data d).

Definition createShapeFromPrompt (prompt : string) : M bool :=
  let lowerPrompt := toLowerCase prompt in
  let quantity := parseQuantity lowerPrompt in
  objs ← read objects;
  let c := (promptPlacement lowerPrompt objs).2 in
  let shapeToCreate := exec shapeRe lowerPrompt ≫= (fun m => lookup_group m 1) in
  let asked (w : string) : bool := bool_decide (shapeToCreate = Some w) in
  let bare (w : string) : bool :=
    negb (nonempty shapeToCreate) && includes lowerPrompt w in
  let newShape : option BoardObject :=
    if asked "triangle" || bare "triangle" then Some (new_triangle c)
    else if asked "circle" || bare "circle" then Some (new_circle c)
    else if asked "rectangle" || asked "square" || bare "rectangle" || bare "square"
    then Some (new_rectangle c)
    else if asked "arrow" || bare "arrow" then Some (new_arrow c)
    else if asked "text" || asked "label" || bare "text" || bare "label" then
      let textContent :=
        match exec textRe prompt with
        | Some textMatch =>
            str_or (lookup_group textMatch 1)
              (str_or (lookup_group textMatch 2) (lookup_group textMatch 3))
        | None => Some "Text"
        end in
      Some (new_text c textContent)
    else None in
  match newShape with
  | Some newShape =>
      match mapM (prompt_instance newShape quantity) (seq 0 quantity) with
      | Some shapesToCreate =>
          let newObjects := objs ++ shapesToCreate in
          commitObjects newObjects ;;
          match last shapesToCreate with
          | Some s => setSelectedId (Some (id s))
          | None => fail
          end ;;
          effect (Toast_success
                    (pretty quantity +:+ " shape"
                     +:+ (if decide (1 < quantity) then "s" else "")
                     +:+ " created!")) ;;
          mret true
      | None => fail
      end
  | None => mret false
  end.

(** *** Structured commands of the AI fallback *)

(** The reference object of a command, [None] when the position block is
    skipped or nothing is found. *)
Definition commandReference (command : ShapeCommand.t) (objs : list BoardObject)
    : option BoardObject :=
  let reference := ShapeCommand.reference command in
  if bool_decide (reference = Some "last") || negb (nonempty reference) then last objs
  else if bool_decide (reference = Some "triangle") then find_last is_triangle objs
  else if bool_decide (reference = Some "circle") then find_last (is_type CIRCLE) objs
  else if bool_decide (reference = Some "rectangle")
          || bool_decide (reference = Some "square")
  then find_last (is_type RECTANGLE) objs
  else None.

Definition commandCenter (command : ShapeCommand.t) (objs : list BoardObject)
    : Center :=
  let position := ShapeCommand.position command in
  if nonempty position && negb (bool_decide (position = Some "center")) then
    let referenceObj := commandReference command objs in
    if bool_decide (position = Some "below")
    then move_center center_below referenceObj viewport_center
    else if bool_decide (position = Some "above")
    then move_center center_above referenceObj viewport_center
    else if bool_decide (position = Some "right")
    then move_center center_right referenceObj viewport_center
    else if bool_decide (position = Some "left")
    then move_center center_left referenceObj viewport_center
    else viewport_center
  else viewport_center.

(** Copy [i] of the loop of [executeShapeCommand], which moves along x
    only. *)
Definition command_instance (baseShape : BoardObject) (quantity i : nat)
    : option BoardObject :=
  let offsetX := row_offset quantity i in
  let shapeInstance := json_clone baseShape in
  let d := data shapeInstance in
  let shifted (points : list val) : list val :=
    imap (fun idx v => if Nat.even idx then VNum (ToNumber v + offsetX)%js else v)
         points in
  let moved : Data.t := Data.set_x (ToNumber (Data.x d) + offsetX)%js d in
  let with_data (d' : Data.t) : BoardObject :=
    {| id := "shape-" +:+ pretty now +:+ "-" +:+ pretty i;
       type := type shapeInstance; data := d' |} in
  if decide (type shapeInstance = CIRCLE) then Some (with_data moved)
  else if decide (type shapeInstance = RECTANGLE) then Some (with_data moved)
  else if bool_decide (type shapeInstance = PEN) && bool_decide (is_Some (Data.points d))
  then Some (with_data (Data.set_points (shifted <$> Data.points d) d))
  else if decide (type shapeInstance = ARROW) then
    match Data.points d with
    | Some points => Some (with_data (Data.set_points (Some (shifted points)) d))
    | None => None
    end
  else if decide (type shapeInstance = TEXT) then Some (with_data moved)
  else Some (with_data d).

Definition executeShapeCommand (command : ShapeCommand.t) : M bool :=
  objs ← read objects;
  let c := commandCenter command objs in
  let shape_type := ShapeCommand.shape_type command in
  let baseShape : option BoardObject :=
    if bool_decide (shape_type = "triangle") then Some (new_triangle c)
    else if bool_decide (shape_type = "circle") then Some (new_circle c)
    else if bool_decide (shape_type = "rectangle") || bool_decide (shape_type = "square")
    then Some (new_rectangle c)
    else if bool_decide (shape_type = "arrow") then Some (new_arrow c)
    else if bool_decide (shape_type = "text")
    then Some (new_text c (str_or (ShapeCommand.text_content command) (Some "Text")))
    else None in
  match baseShape with
  | None => mret false
  | Some baseShape =>
      let quantity :=
        if decide (ShapeCommand.quantity command = 0) then 1
        else ShapeCommand.quantity command in
      match mapM (command_instance baseShape quantity) (seq 0 quantity) with
      | Some shapesToCreate =>
          let newObjects := objs ++ shapesToCreate in
          commitObjects newObjects ;;
          match last shapesToCreate with
          | Some s => setSelectedId (Some (id s))
          | None => fail
          end ;;
          mret true
      | None => fail
      end
  end.

End Handlers.

(** ** Notions used in the statements *)

(** The state and the effects a handler leaves behind. Successive events are
    chained through [state_after]: the handler of an event is created by the
    render that follows the previous one. *)
Definition state_after {A : Type} (m : M A) (st : State) : option State :=
  (fun r => r.2.1) <$> run m st.

Definition effects_of {A : Type} (m : M A) (st : State) : option (list Effect) :=
  (fun r => r.2.2) <$> run m st.

(** The cursor is an index into the snapshots. *)
Definition history_wf (st : State) : Prop :=
  historyStep st < length (history st).

(** [r] is the most recently created object that satisfies [p]: it is on the
    board and no object after it satisfies [p]. *)
Definition most_recent (p : BoardObject -> bool) (objs : list BoardObject)
    (r : BoardObject) : Prop :=
  ∃ before after,
    objs = before ++ r :: after ∧ p r = true ∧ Forall (fun o => p o = false) after.


(** A finite number as a field value. *)
Definition fin (q : Qc) : val := VNum (Fin q).

(** The prompt names a direction handled by the "below" or by the "above"
    branch, respectively by the "right" or by the "left" branch. *)
Definition names_vertical (lowerPrompt : string) : bool :=
  includes lowerPrompt "below" || includes lowerPrompt "under"
  || includes lowerPrompt "beneath"
  || includes lowerPrompt "above" || includes lowerPrompt "over".

Definition names_horizontal (lowerPrompt : string) : bool :=
  includes lowerPrompt "right" || includes lowerPrompt "beside"
  || includes lowerPrompt "left".

(** The committed local mutations: [committed st st' e] when one of the
    mutating handlers, created by a render of state [st], went through its
    commit and left state [st'] and effects [e]. *)
Inductive committed (st st' : State) (e : list Effect) : Prop :=
| committed_objects (newObjects : list BoardObject) :
    run (commitObjects newObjects) st = Some (tt, (st', e)) ->
    committed st st' e
| committed_draw (shape : BoardObject) :
    isDrawing st = true ->
    currentShape st = Some shape ->
    run handleMouseUp st = Some (tt, (st', e)) ->
    committed st st' e
| committed_text (now : N) (pointer_x pointer_y : val) (answer : option string) :
    selectedTool st = TEXT ->
    nonempty answer = true ->
    run (handleMouseDown now pointer_x pointer_y answer) st = Some (tt, (st', e)) ->
    committed st st' e
| committed_drag (obj : BoardObject) (tx ty : val) :
    run (onDragEnd obj tx ty) st = Some (tt, (st', e)) ->
    committed st st' e
| committed_erase (targetId : option string) :
    run (deleteById targetId) st = Some (true, (st', e)) ->
    committed st st' e
| committed_clear :
    run (handleClear true) st = Some (tt, (st', e)) ->
    committed st st' e
| committed_prompt (now : N) (innerWidth innerHeight : num) (prompt : string) :
    run (createShapeFromPrompt now innerWidth innerHeight prompt) st
      = Some (true, (st', e)) ->
    committed st st' e
| committed_command (now : N) (innerWidth innerHeight : num)
    (command : ShapeCommand.t) :
    run (executeShapeCommand now innerWidth innerHeight command) st
      = Some (true, (st', e)) ->
    committed st st' e
| committed_suggestion (now : N) (suggestion : option Suggestion.t) :
    run (applySuggestion now suggestion) st = Some (true, (st', e)) ->
    committed st st' e.

(** The rectangle of the placement example, a pen stroke of one click, and
    the boards the examples run on. *)
Definition rectangle_at (name : string) (px py w h : Z) : BoardObject :=
  {| id := name; type := RECTANGLE;
     data := Data.mk (of_Z px) (of_Z py) (of_Z w) (of_Z h) VUndef None false None
               VUndef None (Some "#18181B") (of_Z 2) (Some "transparent") |}.

Definition circle_at (name : string) (px py r : Z) : BoardObject :=
  {| id := name; type := CIRCLE;
     data := Data.mk (of_Z px) (of_Z py) VUndef VUndef (of_Z r) None false None
               VUndef None (Some "#18181B") (of_Z 2) (Some "transparent") |}.

Definition pen_through (name : string) (pts : list Z) : BoardObject :=
  {| id := name; type := PEN;
     data := Data.mk VUndef VUndef VUndef VUndef VUndef
               (Some ((fun z => VNum (of_Z z)) <$> pts)) false None
               VUndef None (Some "#18181B") (of_Z 2) None |}.

Definition board_of (objs : list BoardObject) (version : Z) (connected : bool)
    : State :=
  {| objects := objs; boardVersion := version; selectedTool := SELECT;
     selectedId := None; history := [objs]; historyStep := 0;
     isDrawing := false; currentShape := None; socket := connected |}.

(** What [broadcastUpdate] and [commitObjects] leave behind, for a handler
    created in state [cl] whose queued state is [s]. *)
Definition next_version (cl s : State) : Z :=
  if socket cl then (boardVersion cl + 1)%Z else boardVersion s.

Definition broadcast_effects (newObjects : list BoardObject) (cl : State)
    : list Effect :=
  if socket cl then [Emit_board_update newObjects (boardVersion cl + 1)] else [].

Definition committed_state (newObjects : list BoardObject) (cl s : State) : State :=
  with_boardVersion (next_version cl s)
    (with_historyStep (length (take (historyStep cl + 1) (history cl)))
       (with_history (take (historyStep cl + 1) (history cl) ++ [newObjects])
          (with_objects newObjects s))).

(** Whole numbers of moderate size. Sums, differences, doubles and halves
    of a few of them are binary64 numbers, so the page computes them without
    rounding and [JsNum] computes what the page does. *)
Definition small (z : Z) : Prop := (Z.abs z ≤ 2 ^ 40)%Z.

(** The versions the page can count: for these [boardVersion + 1] is a
    whole number that binary64 holds, as it is here. *)
Definition counted (version : Z) : Prop := (- 2 ^ 53 ≤ version < 2 ^ 53)%Z.

(** The commits of the page, with the render they are made from. A handler
    runs in the render that created it, so its closure [cl] is the current
    state [st], with one exception: [handleCustomPrompt] awaits the answer
    of the AI before its loop calls [executeShapeCommand], so that call
    reads the cells of the render that started the request, whatever the
    cells hold by then. An update may have arrived in between, and every
    command of an answer after the first meets what the commands before it
    have queued. *)
Inductive committed_from (cl st st' : State) (e : list Effect) : Prop :=
| committed_same_render :
    cl = st ->
    committed st st' e ->
    committed_from cl st st' e
| committed_awaited (now : N) (innerWidth innerHeight : num)
    (command : ShapeCommand.t) :
    executeShapeCommand now innerWidth innerHeight command cl (st, [])
      = Some (true, (st', e)) ->
    committed_from cl st st' e.

(** The quantities a prompt or a command is taken to ask for: a loop over
    that many copies ends. *)
Definition moderate (quantity : nat) : Prop := (quantity ≤ 1000)%nat.

(** ** The bounding box in binary64 *)

(** [getBoundingBox] on binary64 numbers, for the objects whose fields are
    numbers: the rectangle branch, and the pen and arrow branch. *)
Module Double.

(** [Math.min] and [Math.max] of two numbers: [NaN] when either is [NaN],
    and [-0] counts as less than [+0]. *)
Definition min (a b : float) : float :=
  if PrimFloat.is_nan a || PrimFloat.is_nan b then PrimFloat.nan
  else if PrimFloat.ltb a b then a
  else if PrimFloat.ltb b a then b
  else if PrimFloat.get_sign a then a else b.

Definition max (a b : float) : float :=
  if PrimFloat.is_nan a || PrimFloat.is_nan b then PrimFloat.nan
  else if PrimFloat.ltb a b then b
  else if PrimFloat.ltb b a then a
  else if PrimFloat.get_sign a then b else a.

Record box : Type := mk {
  x : float;
  y : float;
  width : float;
  height : float
}.


Record Extremes : Type := mkExtremes {
  minX : float;
  maxX : float;
  minY : float;
  maxY : float
}.

(** The loop over the points, two entries at a time; an entry without
    partner reads [undefined] for the missing y, which is [NaN] as a
    number. *)
Fixpoint point_loop (pts : list float) (e : Extremes) : Extremes :=
  match pts with
  | [] => e
  | [px] =>
      mkExtremes (min (minX e) px) (max (maxX e) px)
        (min (minY e) PrimFloat.nan) (max (maxY e) PrimFloat.nan)
  | px :: py :: rest =>
      point_loop rest
        (mkExtremes (min (minX e) px) (max (maxX e) px)
           (min (minY e) py) (max (maxY e) py))
  end.

(** The pen and arrow branch, for the point list of the object's data. *)
Definition points_box (pts : list float) : option box :=
  if decide (length pts < 2) then None
  else
    let e := point_loop pts (mkExtremes PrimFloat.infinity PrimFloat.neg_infinity
                 PrimFloat.infinity PrimFloat.neg_infinity) in
    Some {| x := minX e; y := minY e;
            width := PrimFloat.sub (maxX e) (minX e);
            height := PrimFloat.sub (maxY e) (minY e) |}.

End Double.

(** ** Further handlers *)

(** *** The command loop of the AI fallback *)

(** The loop of [handleCustomPrompt] over the commands of an answer; every
    [executeShapeCommand] of the loop is a call from the same closure.
    [shapesCreated] counts the calls that returned [true]. *)
Fixpoint countCreated (now : N) (innerWidth innerHeight : num)
    (results : list ShapeCommand.t) (shapesCreated : nat) : M nat :=
  match results with
  | [] => mret shapesCreated
  | command :: rest =>
      created ← executeShapeCommand now innerWidth innerHeight command;
      countCreated now innerWidth innerHeight rest
        (if (created : bool) then S shapesCreated else shapesCreated)
  end.

(** The "Execute shape creation commands" block of [handleCustomPrompt]. *)
Definition executeCommands (now : N) (innerWidth innerHeight : num)
    (results : list ShapeCommand.t) : M unit :=
  shapesCreated ← countCreated now innerWidth innerHeight results 0;
  if decide (0 < (shapesCreated : nat)) then
    effect (Toast_success
              (pretty shapesCreated +:+ " shape"
               +:+ (if decide (1 < shapesCreated) then "s" else "")
               +:+ " created!"))
  else effect (Toast_error "Could not create shapes from your request").

(** The shape types [executeShapeCommand] knows, and the number of copies
    it makes: [command.quantity || 1]. *)
Definition known_shape (shape_type : string) : Prop :=
  shape_type ∈ ["triangle"; "circle"; "rectangle"; "square"; "arrow"; "text"].

#[global] Instance known_shape_dec (shape_type : string) :
  Decision (known_shape shape_type).
Proof. unfold known_shape. apply _. Defined.


Definition copies (command : ShapeCommand.t) : nat :=
  if decide (ShapeCommand.quantity command = 0) then 1
  else ShapeCommand.quantity command.

(** The ids given to the copies made at instant [now]. *)
Definition copy_id (now : N) (i : nat) : string :=
  "shape-" +:+ pretty now +:+ "-" +:+ pretty i.

(** *** Drawing while the pointer moves *)

Definition data_with_size (w h : val) (d : Data.t) : Data.t :=
  Data.mk (Data.x d) (Data.y d) w h (Data.radius d) (Data.points d) (Data.closed d)
    (Data.text d) (Data.fontSize d) (Data.align d) (Data.stroke d)
    (Data.strokeWidth d) (Data.fill d).

Definition data_with_radius (r : val) (d : Data.t) : Data.t :=
  Data.mk (Data.x d) (Data.y d) (Data.width d) (Data.height d) r (Data.points d)
    (Data.closed d) (Data.text d) (Data.fontSize d) (Data.align d) (Data.stroke d)
    (Data.strokeWidth d) (Data.fill d).

Section Drawing.

(** [Math.sqrt], left uninterpreted: a square root has no exact rational
    value. *)
Variable sqrt : num -> num.

(** The shape [handleMouseMove] stores for the pointer position
    ([pointer_x], [pointer_y]); the branch is chosen by the selected tool.
    [None] when the pen or the arrow tool meets a shape without a point
    list, where the spread or the index throws. The handler copies the shape
    with a spread but not its [data], which it updates in place; the value
    returned here is the shape the next render holds, and the properties
    below follow the moves render by render (see [after_moves]). *)
Definition updatedShape (tool : Tool) (currentShape : BoardObject)
    (pointer_x pointer_y : val) : option BoardObject :=
  let d := data currentShape in
  let with_data (d' : Data.t) : BoardObject :=
    {| id := id currentShape; type := type currentShape; data := d' |} in
  if decide (tool = PEN) then
    match Data.points d with
    | Some points =>
        Some (with_data (Data.set_points (Some (points ++ [pointer_x; pointer_y])) d))
    | None => None
    end
  else if decide (tool = RECTANGLE) then
    Some (with_data
            (data_with_size (ToNumber pointer_x - ToNumber (Data.x d))%js
                            (ToNumber pointer_y - ToNumber (Data.y d))%js d))
  else if decide (tool = CIRCLE) then
    let dx := (ToNumber pointer_x - ToNumber (Data.x d))%js in
    let dy := (ToNumber pointer_y - ToNumber (Data.y d))%js in
    Some (with_data (data_with_radius (sqrt (dx * dx + dy * dy)%js) d))
  else if decide (tool = ARROW) then
    match Data.points d with
    | Some points =>
        Some (with_data
                (Data.set_points
                   (Some [default VUndef (points !! 0); default VUndef (points !! 1);
                          pointer_x; pointer_y]) d))
    | None => None
    end
  else Some (with_data d).

(** The "Handle drawing" part of [handleMouseMove], which follows the
    [cursor_move] message the handler sends first. *)
Definition handleMouseMove_drawing (pointer_x pointer_y : val) : M unit :=
  drawing ← read isDrawing;
  shape ← read currentShape;
  tool ← read selectedTool;
  match (drawing : bool), shape with
  | true, Some currentShape =>
      match updatedShape tool currentShape pointer_x pointer_y with
      | Some shape' => setCurrentShape (Some shape')
      | None => fail
      end
  | _, _ => mret tt
  end.

End Drawing.

(** The pointer moves of one gesture, each handled by the render that
    follows the previous one. *)
Fixpoint after_moves (sqrt : num -> num) (moves : list (val * val)) (st : State)
    : option State :=
  match moves with
  | [] => Some st
  | (pointer_x, pointer_y) :: rest =>
      match state_after (handleMouseMove_drawing sqrt pointer_x pointer_y) st with
      | Some st' => after_moves sqrt rest st'
      | None => None
      end
  end.

(** *** Presence *)

Module Presence.

Record Cursor : Type := mkCursor {
  cursor_x : val;
  cursor_y : val
}.

Record User : Type := mkUser {
  user_id : string;
  name : string;
  cursor : option Cursor
}.

(** The cells [connectedUsers] and [cursors]; the latter is an object keyed
    by user id. *)
Record t : Type := mk {
  connectedUsers : list User;
  cursors : gmap string Cursor
}.

Inductive Toast : Type :=
| Toast_joined (msg : string)
| Toast_info (msg : string).

(** The socket handlers update the cells through functions of the previous
    value, so each is a function of the presence state; the toast is
    returned beside the new state. *)
Definition on_users_list (users : list User) (p : t) : t * list Toast :=
  (mk users (cursors p), []).

Definition on_user_joined (uid nm : string) (p : t) : t * list Toast :=
  (mk (connectedUsers p ++ [mkUser uid nm (Some (mkCursor (of_Z 0) (of_Z 0)))])
      (cursors p),
   [Toast_joined (nm +:+ " joined the board")]).

Definition on_user_left (uid nm : string) (p : t) : t * list Toast :=
  (mk (filter (fun u => user_id u ≠ uid) (connectedUsers p))
      (delete uid (cursors p)),
   [Toast_info (nm +:+ " left the board")]).

Definition on_cursor_moved (uid : string) (c : Cursor) (p : t) : t * list Toast :=
  (mk (connectedUsers p) (<[uid := c]> (cursors p)), []).

(** The number shown beside the users icon. *)
Definition shown_count (p : t) : nat := length (connectedUsers p) + 1.

End Presence.

(** *** The events of an open board *)

Definition with_selectedTool (v : Tool) (s : State) : State :=
  mkState (objects s) (boardVersion s) v (selectedId s)
    (history s) (historyStep s) (isDrawing s) (currentShape s) (socket s).

Definition with_socket (v : bool) (s : State) : State :=
  mkState (objects s) (boardVersion s) (selectedTool s) (selectedId s)
    (history s) (historyStep s) (isDrawing s) (currentShape s) v.

(** [setSelectedTool], called by the toolbar buttons, and [setSocket], called
    by [setupSocket] with the new socket. *)
Definition setSelectedTool (v : Tool) : M unit := update (with_selectedTool v).
Definition setSocket : M unit := update (with_socket true).

(** What can happen to an open board: the arrival of the board, the storing
    of the socket, and the handlers of the user and of the socket. *)
Inductive Event : Type :=
| EvLoaded (objs : list BoardObject) (version : Z)
| EvSocket
| EvTool (tool : Tool)
| EvMouseDown (now : N) (pointer_x pointer_y : val) (answer : option string)
| EvMouseMove (pointer_x pointer_y : val)
| EvMouseUp
| EvUndo
| EvRedo
| EvDelete
| EvClear (confirmed : bool)
| EvClick (obj : BoardObject)
| EvDragEnd (obj : BoardObject) (tx ty : val)
| EvPrompt (now : N) (innerWidth innerHeight : num) (prompt : string)
| EvCommands (now : N) (innerWidth innerHeight : num) (results : list ShapeCommand.t)
| EvSuggestion (now : N) (suggestion : option Suggestion.t)
| EvRemote (data : BoardUpdated).

Definition handler_of (sqrt : num -> num) (ev : Event) : M unit :=
  match ev with
  | EvLoaded objs version => on_board_loaded objs version
  | EvSocket => setSocket
  | EvTool tool => setSelectedTool tool
  | EvMouseDown now px py answer => handleMouseDown now px py answer
  | EvMouseMove px py => handleMouseMove_drawing sqrt px py
  | EvMouseUp => handleMouseUp
  | EvUndo => handleUndo
  | EvRedo => handleRedo
  | EvDelete => handleDelete
  | EvClear confirmed => handleClear confirmed
  | EvClick obj => onClick obj
  | EvDragEnd obj tx ty => onDragEnd obj tx ty
  | EvPrompt now iw ih prompt => createShapeFromPrompt now iw ih prompt ;; mret tt
  | EvCommands now iw ih results => executeCommands now iw ih results
  | EvSuggestion now suggestion => applySuggestion now suggestion ;; mret tt
  | EvRemote data => on_board_updated data
  end.

(** The cells as [useState] initialises them. *)
Definition initial_state : State :=
  {| objects := []; boardVersion := 0; selectedTool := PEN; selectedId := None;
     history := []; historyStep := 0; isDrawing := false; currentShape := None;
     socket := false |}.

(** The states an open board goes through: the initial one, and every state
    an event leads to. *)
Inductive reachable (sqrt : num -> num) : State -> Prop :=
| reachable_initial : reachable sqrt initial_state
| reachable_step st ev st' :
    reachable sqrt st ->
    state_after (handler_of sqrt ev) st = Some st' ->
    reachable sqrt st'.

(** What [handleUndo] needs of the cursor: it is 0, or an index into the
    snapshots. *)
Definition cursor_ok (st : State) : Prop :=
  historyStep st = 0 ∨ history_wf st.

(** A handler keeps a property [P] of the state when it does so for the
    state it assembles, whatever the render state and whatever it has queued
    before. *)
Definition keeps (P : State -> Prop) {A : Type} (m : M A) : Prop :=
  ∀ cl s e r s' e', P s -> m cl (s, e) = Some (r, (s', e')) -> P s'.

(** The [board_update] messages among the effects, as pairs of objects and
    version. *)
Definition sent (e : list Effect) : list (list BoardObject * Z) :=
  omap (fun x => match x with
                 | Emit_board_update objs version => Some (objs, version)
                 | _ => None
                 end) e.

(** [st'] and [e] are what a commit of [newObjects] leaves behind when made
    by a handler of state [cl]. *)
Definition commit_of (newObjects : list BoardObject) (cl st' : State)
    (e : list Effect) : Prop :=
  objects st' = newObjects
  ∧ history st' = take (historyStep cl + 1) (history cl) ++ [newObjects]
  ∧ historyStep st' = length (take (historyStep cl + 1) (history cl))
  ∧ boardVersion st' = next_version cl cl
  ∧ sent e = sent (broadcast_effects newObjects cl)
  ∧ socket st' = socket cl
  ∧ selectedTool st' = selectedTool cl.

(** ** Properties *)

(** *** The matcher on sample prompts *)

Example lower_case_prompt : toLowerCase "Add a Circle BELOW" = "add a circle below".
Proof. reflexivity. Qed.

Example shape_word_found :
  exec shapeRe "please add a circle below" ≫= (fun m => lookup_group m 1)
  = Some "circle".
Proof. vm_compute. reflexivity. Qed.

(** The optional article is "a" followed by white space, so "an" is taken as
    the shape word. *)
Example shape_word_article :
  exec shapeRe "draw an arrow" ≫= (fun m => lookup_group m 1) = Some "an".
Proof. vm_compute. reflexivity. Qed.

Example shape_word_missing :
  exec shapeRe "circle below" ≫= (fun m => lookup_group m 1) = None.
Proof. vm_compute. reflexivity. Qed.

Example quantity_word : parseQuantity "add two circles" = 2.
Proof. vm_compute. reflexivity. Qed.

Example quantity_digits : parseQuantity "add 12 circles" = 12.
Proof. vm_compute. reflexivity. Qed.

Example quantity_default : parseQuantity "add a circle below" = 1.
Proof. vm_compute. reflexivity. Qed.

Example text_in_quotes :
  (fun m => lookup_group m 1) <$> exec textRe "add text 'hello world' here"
  = Some (Some "hello world").
Proof. vm_compute. reflexivity. Qed.

Example text_after_prefix :
  (fun m => lookup_group m 2) <$> exec textRe "add TEXT:   hello world"
  = Some (Some "hello").
Proof. vm_compute. reflexivity. Qed.

(** *** Running handlers *)

Ltac munfold :=
  unfold run, state_after, effects_of, mbind, M_bind, mret, M_ret, read, update,
    effect, fail, setObjects, setBoardVersion, setSelectedId, setHistory,
    setHistoryStep, setIsDrawing, setCurrentShape in *.

Lemma bind_eq {A B : Type} (m : M A) (f : A -> M B) cl p :
  (m ≫= f) cl p = match m cl p with
                  | Some (a, p') => f a cl p'
                  | None => None
                  end.
Proof. reflexivity. Qed.

Lemma broadcastUpdate_eq newObjects cl s e :
  broadcastUpdate newObjects cl (s, e)
  = Some (tt, (with_boardVersion (next_version cl s) s,
               e ++ broadcast_effects newObjects cl)).
Proof.
  unfold broadcastUpdate, next_version, broadcast_effects. munfold.
  destruct (socket cl); cbn; [reflexivity|].
  rewrite app_nil_r. by destruct s.
Qed.

Lemma saveToHistory_eq newObjects cl s e :
  saveToHistory newObjects cl (s, e)
  = Some (tt, (with_historyStep (length (take (historyStep cl + 1) (history cl)))
                 (with_history (take (historyStep cl + 1) (history cl) ++ [newObjects]) s),
               e)).
Proof.
  unfold saveToHistory. munfold. cbn.
  rewrite length_app. cbn.
  replace (length (take (historyStep cl + 1) (history cl)) + 1 - 1)
    with (length (take (historyStep cl + 1) (history cl))) by lia.
  reflexivity.
Qed.

Lemma commit_steps_eq newObjects cl s e :
  (setObjects newObjects ;; saveToHistory newObjects ;; broadcastUpdate newObjects)
    cl (s, e)
  = Some (tt, (committed_state newObjects cl s,
               e ++ broadcast_effects newObjects cl)).
Proof.
  rewrite bind_eq. unfold setObjects at 1, update at 1. cbn.
  rewrite bind_eq, saveToHistory_eq, broadcastUpdate_eq. reflexivity.
Qed.

Lemma commitObjects_eq newObjects cl s e :
  commitObjects newObjects cl (s, e)
  = Some (tt, (committed_state newObjects cl s,
               e ++ broadcast_effects newObjects cl)).
Proof. unfold commitObjects. exact (commit_steps_eq newObjects cl s e). Qed.

Lemma run_commitObjects newObjects st :
  run (commitObjects newObjects) st
  = Some (tt, (committed_state newObjects st st, broadcast_effects newObjects st)).
Proof. unfold run. by rewrite commitObjects_eq. Qed.

Lemma state_after_commitObjects newObjects st :
  state_after (commitObjects newObjects) st
  = Some (committed_state newObjects st st).
Proof. unfold state_after. by rewrite run_commitObjects. Qed.

Lemma run_handleUndo st n snap :
  historyStep st = S n ->
  history st !! n = Some snap ->
  run handleUndo st
  = Some (tt, (with_boardVersion (next_version st st)
                 (with_objects snap (with_historyStep n st)),
               broadcast_effects snap st)).
Proof.
  intros Hstep Hsnap. unfold run, handleUndo, snapshot_at.
  rewrite bind_eq. unfold read at 1. cbn. rewrite Hstep.
  destruct (decide (S n = 0)) as [|_]; [lia|]. cbn.
  replace (n - 0) with n by lia.
  rewrite !bind_eq. unfold setHistoryStep at 1, update at 1. cbn.
  rewrite !bind_eq. unfold read at 1. cbn. rewrite Hsnap. cbn.
  rewrite bind_eq. unfold setObjects at 1, update at 1. cbn.
  by rewrite broadcastUpdate_eq.
Qed.

Lemma run_handleUndo_undefined st n :
  historyStep st = S n ->
  history st !! n = None ->
  run handleUndo st = None.
Proof.
  intros Hstep Hsnap. unfold run, handleUndo, snapshot_at.
  rewrite bind_eq. unfold read at 1. cbn. rewrite Hstep.
  destruct (decide (S n = 0)) as [|_]; [lia|]. cbn.
  replace (n - 0) with n by lia.
  rewrite !bind_eq. unfold setHistoryStep at 1, update at 1. cbn.
  rewrite !bind_eq. unfold read at 1. cbn. rewrite Hsnap. reflexivity.
Qed.

Lemma run_handleUndo_first st :
  historyStep st = 0 -> run handleUndo st = Some (tt, (st, [])).
Proof.
  intros Hstep. unfold run, handleUndo.
  rewrite bind_eq. unfold read at 1. cbn. rewrite Hstep. reflexivity.
Qed.

Lemma run_handleRedo st snap :
  history st !! (historyStep st + 1) = Some snap ->
  run handleRedo st
  = Some (tt, (with_boardVersion (next_version st st)
                 (with_objects snap (with_historyStep (historyStep st + 1) st)),
               broadcast_effects snap st)).
Proof.
  intros Hsnap. unfold run, handleRedo, snapshot_at.
  apply lookup_lt_Some in Hsnap as Hlt.
  rewrite !bind_eq. unfold read at 1. cbn.
  rewrite !bind_eq. unfold read at 1. cbn.
  destruct (decide _) as [Hge|_]; [lia|].
  rewrite !bind_eq. unfold setHistoryStep at 1, update at 1. cbn.
  rewrite !bind_eq. unfold read at 1. cbn. rewrite Hsnap. cbn.
  rewrite bind_eq. unfold setObjects at 1, update at 1. cbn.
  by rewrite broadcastUpdate_eq.
Qed.

Lemma run_handleRedo_last st :
  length (history st) <= historyStep st + 1 ->
  run handleRedo st = Some (tt, (st, [])).
Proof.
  intros Hlast. unfold run, handleRedo.
  rewrite !bind_eq. unfold read at 1. cbn.
  rewrite !bind_eq. unfold read at 1. cbn.
  destruct (decide _) as [_|Hlt]; [reflexivity|lia].
Qed.

(** The cursor stays an index into the snapshots: this holds once the board
    is loaded and every handler keeps it. *)
Lemma history_wf_loaded st objs version s :
  state_after (on_board_loaded objs version) st = Some s -> history_wf s.
Proof.
  unfold on_board_loaded. munfold. cbn. intros [= <-]. unfold history_wf. cbn. lia.
Qed.

Lemma history_wf_committed newObjects cl s :
  history_wf (committed_state newObjects cl s).
Proof. unfold history_wf. cbn. rewrite length_app. cbn. lia. Qed.

Lemma history_wf_undo st s :
  history_wf st -> state_after handleUndo st = Some s -> history_wf s.
Proof.
  unfold history_wf, state_after. intros Hwf.
  destruct (historyStep st) as [|n] eqn:Hstep.
  - rewrite run_handleUndo_first by done. cbn. intros [= <-]. lia.
  - destruct (lookup_lt_is_Some_2 (history st) n) as [snap Hsnap]; [lia|].
    rewrite (run_handleUndo st n snap) by done. cbn. intros [= <-]. cbn. lia.
Qed.

Lemma history_wf_redo st s :
  history_wf st -> state_after handleRedo st = Some s -> history_wf s.
Proof.
  unfold history_wf, state_after. intros Hwf.
  destruct (decide (length (history st) <= historyStep st + 1)) as [Hlast|Hmore].
  - rewrite run_handleRedo_last by done. cbn. by intros [= <-].
  - destruct (lookup_lt_is_Some_2 (history st) (historyStep st + 1)) as [snap Hsnap];
      [lia|].
    rewrite (run_handleRedo st snap) by done. cbn. intros [= <-]. cbn. lia.
Qed.

Lemma history_wf_updated st data s :
  history_wf st -> state_after (on_board_updated data) st = Some s -> history_wf s.
Proof.
  unfold on_board_updated, history_wf. munfold. cbn.
  destruct (bu_version data); cbn; intros Hwf [= <-]; exact Hwf.
Qed.

(** *** Remote updates *)

(** C1. Whatever the local state, a received [board_updated] event that
    carries a list of objects and a numeric version leaves the client with
    exactly the received objects and the received version. *)
Theorem board_updated_overwrites (st : State) (objs : list BoardObject) (version : Z) :
  ∃ st',
    run (on_board_updated (mkBoardUpdated objs (Some version))) st
      = Some (tt, (st', []))
    ∧ objects st' = objs
    ∧ boardVersion st' = version.
Proof.
  eexists. split; [|split].
  - unfold on_board_updated. munfold. cbn. reflexivity.
  - reflexivity.
  - reflexivity.
Qed.

(** C10. A received [board_updated] event replaces the objects (and the
    version, when it carries a numeric one) and nothing else: the snapshot
    list, the cursor and the remaining state cells are as before, nothing is
    sent, and an undo right after it leaves the same history and cursor as
    an undo without it and, when the cursor is not at 0, the same objects. *)
Theorem board_updated_keeps_history (st : State) (data : BoardUpdated) :
  ∃ st',
    run (on_board_updated data) st = Some (tt, (st', []))
    ∧ history st' = history st
    ∧ historyStep st' = historyStep st
    ∧ objects st' = bu_objects data
    ∧ boardVersion st' = default (boardVersion st) (bu_version data)
    ∧ selectedTool st' = selectedTool st
    ∧ selectedId st' = selectedId st
    ∧ isDrawing st' = isDrawing st
    ∧ currentShape st' = currentShape st
    ∧ socket st' = socket st
    ∧ (fun s => (history s, historyStep s)) <$> state_after handleUndo st'
      = (fun s => (history s, historyStep s)) <$> state_after handleUndo st
    ∧ (historyStep st ≠ 0 ->
       objects <$> state_after handleUndo st' = objects <$> state_after handleUndo st).
Proof.
  assert (Hrun : ∃ st', run (on_board_updated data) st = Some (tt, (st', []))
                   ∧ st' = with_boardVersion (default (boardVersion st) (bu_version data))
                             (with_objects (bu_objects data) st)).
  { unfold on_board_updated. munfold. cbn.
    destruct (bu_version data); cbn; eexists; (split; [reflexivity|]);
      [reflexivity | by destruct st]. }
  destruct Hrun as (st' & Hrun & ->).
  eexists. split; [exact Hrun|]. repeat (split; [reflexivity|]).
  unfold state_after.
  destruct (historyStep st) as [|n] eqn:Hstep.
  - rewrite !run_handleUndo_first by done. split; [reflexivity | done].
  - destruct (history st !! n) as [snap|] eqn:Hsnap.
    + rewrite (run_handleUndo st n snap), (run_handleUndo _ n snap) by done.
      split; reflexivity.
    + rewrite (run_handleUndo_undefined st n), (run_handleUndo_undefined _ n) by done.
      split; reflexivity.
Qed.

(** *** History *)

(** C3. From any state, after commit(A), commit(B), undo, commit(C) a redo
    changes nothing and an undo brings back A; the history then holds the
    snapshots up to the original cursor followed by A and C. In general a
    commit cuts the snapshots after the cursor, appends the new snapshot and
    moves the cursor to the last index; undo changes nothing at cursor 0 and
    redo changes nothing at the last index. *)
Theorem history_is_linear (st : State) (A B C : list BoardObject) :
  (∃ st4,
      (st1 ← state_after (commitObjects A) st;
       st2 ← state_after (commitObjects B) st1;
       st3 ← state_after handleUndo st2;
       state_after (commitObjects C) st3) = Some st4
      ∧ history st4 = take (historyStep st + 1) (history st) ++ [A; C]
      ∧ historyStep st4 = length (history st4) - 1
      ∧ run handleRedo st4 = Some (tt, (st4, []))
      ∧ ∃ st5, state_after handleUndo st4 = Some st5 ∧ objects st5 = A)
  ∧ (∀ newObjects,
       ∃ st',
         state_after (saveToHistory newObjects) st = Some st'
         ∧ history st' = take (historyStep st + 1) (history st) ++ [newObjects]
         ∧ historyStep st' = length (history st') - 1
         ∧ objects st' = objects st)
  ∧ (historyStep st = 0 -> run handleUndo st = Some (tt, (st, [])))
  ∧ (historyStep st = length (history st) - 1 ->
     run handleRedo st = Some (tt, (st, []))).
Proof.
  split; [|split; [|split]].
  - set (h0 := take (historyStep st + 1) (history st)).
    rewrite (state_after_commitObjects A st). cbn.
    rewrite (state_after_commitObjects B). cbn.
    set (s1 := committed_state A st st).
    set (s2 := committed_state B s1 s1).
    assert (Hh2 : history s2 = h0 ++ [A; B]).
    { subst s2 s1. cbn. fold h0.
      rewrite take_ge by (rewrite length_app; cbn; lia).
      by rewrite <- app_assoc. }
    assert (Hc2 : historyStep s2 = S (length h0)).
    { subst s2 s1. cbn. fold h0.
      rewrite take_ge by (rewrite length_app; cbn; lia).
      rewrite length_app. cbn. lia. }
    clearbody s2. clear s1.
    assert (Hundo : state_after handleUndo s2
                    = Some (with_boardVersion (next_version s2 s2)
                              (with_objects A (with_historyStep (length h0) s2)))).
    { unfold state_after.
      rewrite (run_handleUndo s2 (length h0) A); [reflexivity|exact Hc2|].
      rewrite Hh2. by rewrite list_lookup_middle. }
    rewrite Hundo. cbn.
    rewrite (state_after_commitObjects C).
    set (s3 := with_boardVersion _ _).
    set (s4 := committed_state C s3 s3).
    assert (Hh4 : history s4 = h0 ++ [A; C]).
    { subst s4 s3. cbn. rewrite Hh2.
      replace (h0 ++ [A; B]) with ((h0 ++ [A]) ++ [B]) by (by rewrite <- app_assoc).
      rewrite take_app_le by (rewrite length_app; cbn; lia).
      rewrite take_ge by (rewrite length_app; cbn; lia).
      by rewrite <- app_assoc. }
    assert (Hc4 : historyStep s4 = S (length h0)).
    { subst s4 s3. cbn. rewrite Hh2.
      rewrite length_take, length_app. cbn. lia. }
    exists s4. split; [reflexivity|]. split; [exact Hh4|].
    split; [rewrite Hc4, Hh4, length_app; cbn; lia|].
    split.
    + apply run_handleRedo_last. rewrite Hc4, Hh4, length_app. cbn. lia.
    + unfold state_after.
      rewrite (run_handleUndo s4 (length h0) A); [|exact Hc4|].
      * eexists. split; reflexivity.
      * rewrite Hh4. by rewrite list_lookup_middle.
  - intros newObjects. unfold state_after, run. rewrite saveToHistory_eq. cbn.
    eexists. split; [reflexivity|]. cbn. split; [reflexivity|].
    split; [rewrite length_app; cbn; lia | reflexivity].
  - apply run_handleUndo_first.
  - intros Hlast. apply run_handleRedo_last. lia.
Qed.

Lemma history_is_linear_witness :
  let st := board_of [rectangle_at "a" 0 0 10 10] 1 true in
  historyStep st = 0
  ∧ historyStep st = length (history st) - 1
  ∧ run handleUndo st = Some (tt, (st, []))
  ∧ run handleRedo st = Some (tt, (st, [])).
Proof.
  intros st.
  destruct (history_is_linear st [] [] []) as (_ & _ & Hundo & Hredo).
  split; [reflexivity|]. split; [reflexivity|].
  split; [apply Hundo | apply Hredo]; reflexivity.
Defined.

Lemma board_updated_keeps_history_witness :
  let a := rectangle_at "a" 0 0 10 10 in
  let st := with_historyStep 1 (with_history [[]; [a]] (board_of [a] 1 true)) in
  let data := mkBoardUpdated [circle_at "c" 5 5 2] (Some 7%Z) in
  historyStep st ≠ 0
  ∧ ∃ st',
      run (on_board_updated data) st = Some (tt, (st', []))
      ∧ history st' = [[]; [a]]
      ∧ historyStep st' = 1
      ∧ objects <$> state_after handleUndo st' = objects <$> state_after handleUndo st.
Proof.
  intros a st data.
  assert (Hstep : historyStep st ≠ 0) by (cbn; lia).
  split; [exact Hstep|].
  destruct (board_updated_keeps_history st data)
    as (st' & Hrun & Hh & Hc & _ & _ & _ & _ & _ & _ & _ & _ & Hundo).
  exists st'. split; [exact Hrun|]. split; [exact Hh|]. split; [exact Hc|].
  exact (Hundo Hstep).
Defined.

(** C4. When the cursor is an index into the snapshots and is not at the
    boundary, undo (cursor not 0) and redo (cursor not the last index) put
    the snapshot under the moved cursor into the objects and broadcast it,
    with the effects of [broadcastUpdate] on that snapshot: one
    [board_update] message carrying it and the next version when a socket is
    held. The snapshot list is left as it was; only the cursor moves. *)
Theorem undo_redo_keep_snapshots (st : State) :
  history_wf st ->
  (historyStep st ≠ 0 ->
   ∃ snap st' e,
     history st !! (historyStep st - 1) = Some snap
     ∧ run handleUndo st = Some (tt, (st', e))
     ∧ effects_of (broadcastUpdate snap) st = Some e
     ∧ (socket st = true -> e = [Emit_board_update snap (boardVersion st + 1)])
     ∧ objects st' = snap
     ∧ history st' = history st
     ∧ historyStep st' = historyStep st - 1)
  ∧ (historyStep st < length (history st) - 1 ->
     ∃ snap st' e,
       history st !! (historyStep st + 1) = Some snap
       ∧ run handleRedo st = Some (tt, (st', e))
       ∧ effects_of (broadcastUpdate snap) st = Some e
       ∧ (socket st = true -> e = [Emit_board_update snap (boardVersion st + 1)])
       ∧ objects st' = snap
       ∧ history st' = history st
       ∧ historyStep st' = historyStep st + 1).
Proof.
  unfold history_wf. intros Hwf.
  assert (Hsent : ∀ snap,
            effects_of (broadcastUpdate snap) st = Some (broadcast_effects snap st)
            ∧ (socket st = true ->
               broadcast_effects snap st
               = [Emit_board_update snap (boardVersion st + 1)])).
  { intros snap. split.
    - unfold effects_of, run. by rewrite broadcastUpdate_eq.
    - unfold broadcast_effects. by intros ->. }
  split.
  - intros Hpos.
    destruct (historyStep st) as [|n] eqn:Hstep; [done|].
    replace (S n - 1) with n by lia.
    destruct (lookup_lt_is_Some_2 (history st) n) as [snap Hsnap]; [lia|].
    destruct (Hsent snap) as [Heffects Hmessage].
    exists snap. eexists _, _. split; [exact Hsnap|].
    split; [apply (run_handleUndo st n snap); done|].
    split; [exact Heffects|]. split; [exact Hmessage|].
    repeat split.
  - intros Hless.
    destruct (lookup_lt_is_Some_2 (history st) (historyStep st + 1))
      as [snap Hsnap]; [lia|].
    destruct (Hsent snap) as [Heffects Hmessage].
    exists snap. eexists _, _. split; [exact Hsnap|].
    split; [apply (run_handleRedo st snap); done|].
    split; [exact Heffects|]. split; [exact Hmessage|].
    repeat split.
Qed.

Lemma undo_redo_keep_snapshots_witness :
  let a := rectangle_at "a" 0 0 10 10 in
  let b := circle_at "b" 5 5 2 in
  let st := with_historyStep 1 (with_history [[a]; [a; b]; [b]] (board_of [a; b] 4 true)) in
  history_wf st
  ∧ historyStep st ≠ 0
  ∧ historyStep st < length (history st) - 1
  ∧ (∃ st', run handleUndo st = Some (tt, (st', [Emit_board_update [a] 5]))
            ∧ objects st' = [a]
            ∧ history st' = [[a]; [a; b]; [b]])
  ∧ (∃ st', run handleRedo st = Some (tt, (st', [Emit_board_update [b] 5]))
            ∧ objects st' = [b]
            ∧ history st' = [[a]; [a; b]; [b]]).
Proof.
  intros a b st.
  assert (Hwf : history_wf st) by (unfold history_wf; cbn; lia).
  assert (Hpos : historyStep st ≠ 0) by (cbn; lia).
  assert (Hless : historyStep st < length (history st) - 1) by (cbn; lia).
  split; [exact Hwf|]. split; [exact Hpos|]. split; [exact Hless|].
  destruct (undo_redo_keep_snapshots st Hwf) as [Hundo Hredo].
  split.
  - destruct (Hundo Hpos) as (snap & st' & e & Hsnap & Hrun & _ & He & Hobjs & Hh & _).
    cbn in Hsnap. injection Hsnap as <-. rewrite (He eq_refl) in Hrun.
    exists st'. split; [exact Hrun|]. split; [exact Hobjs | exact Hh].
  - destruct (Hredo Hless) as (snap & st' & e & Hsnap & Hrun & _ & He & Hobjs & Hh & _).
    cbn in Hsnap. injection Hsnap as <-. rewrite (He eq_refl) in Hrun.
    exists st'. split; [exact Hrun|]. split; [exact Hobjs | exact Hh].
Defined.

(** *** Suggestions *)

(** C5. On a board without objects every suggestion fails for lack of a
    target: [applySuggestion] returns [false], reports the failure, and
    leaves the state (objects, version, history) as it was; nothing is sent. *)
Theorem applySuggestion_no_target (now : N) (suggestion : option Suggestion.t)
    (st : State) :
  objects st = [] ->
  run (applySuggestion now suggestion) st
  = Some (false, (st, [Toast_error "Draw something first to apply suggestions"])).
Proof.
  intros Hempty. unfold run, applySuggestion, getPrimaryObject.
  rewrite bind_eq. unfold read at 1. cbn. rewrite Hempty. reflexivity.
Qed.

Lemma applySuggestion_no_target_witness :
  let st := board_of [] 3 true in
  let suggestion := Some (Suggestion.mk "s1" (Some "shape_clean") (Some "Tidy") None) in
  objects st = []
  ∧ run (applySuggestion 1700000000000 suggestion) st
    = Some (false, (st, [Toast_error "Draw something first to apply suggestions"])).
Proof.
  intros st suggestion.
  split; [reflexivity|].
  apply (applySuggestion_no_target 1700000000000 suggestion st). reflexivity.
Defined.

(** *** Versions *)

Ltac msimpl :=
  repeat progress
    (rewrite ?bind_eq, ?commitObjects_eq, ?saveToHistory_eq, ?broadcastUpdate_eq;
     unfold setObjects, setBoardVersion, setSelectedId, setHistory, setHistoryStep,
       setIsDrawing, setCurrentShape, read, update, effect, fail, mret, M_ret;
     cbn [fst snd]; cbv beta iota).

Lemma version_committed_state newObjects cl s :
  boardVersion (committed_state newObjects cl s) = next_version cl s.
Proof. reflexivity. Qed.

















(** *** Geometry *)

(** Equations between structures of closed numbers: rationals are compared
    by their canonical forms. *)
Ltac qc_eq :=
  lazymatch goal with
  | |- @eq Qc _ _ => apply Qc_is_canon; reflexivity
  | |- _ => first [reflexivity | progress f_equal; qc_eq]
  end.







(** The span from [a] to [a + w] for whole numbers, whatever the sign of
    [w]: it starts at the lesser of [a] and [a + w] and is [|w|] long. *)
Lemma Qc_span_Z (a w : Z) :
  Qc_min (Qc_of_Z a) (Qc_of_Z a + Qc_of_Z w) = Qc_of_Z (Z.min a (a + w))
  ∧ (Qc_max (Qc_of_Z a) (Qc_of_Z a + Qc_of_Z w)
     + - Qc_min (Qc_of_Z a) (Qc_of_Z a + Qc_of_Z w))%Qc = Qc_of_Z (Z.abs w).
Proof.
  rewrite <- Z2Qc_inj_add. unfold Qc_min, Qc_max.
  destruct (decide (Qc_of_Z a ≤ Qc_of_Z (a + w))%Qc) as [Hle|Hgt].
  - apply Z2Qc_inj_le in Hle. split; [f_equal; lia|].
    change (Qc_of_Z (a + w) + - Qc_of_Z a)%Qc with (Qc_of_Z (a + w) - Qc_of_Z a)%Qc.
    rewrite <- Z2Qc_inj_sub. f_equal. lia.
  - assert (Hlt : (a + w < a)%Z).
    { apply Z.nle_gt. intros Hle. apply Hgt.
      exact (proj1 (Z2Qc_inj_le a (a + w)) Hle). }
    split; [f_equal; lia|].
    change (Qc_of_Z a + - Qc_of_Z (a + w))%Qc with (Qc_of_Z a - Qc_of_Z (a + w))%Qc.
    rewrite <- Z2Qc_inj_sub. f_equal. lia.
Qed.

(** Arithmetic on whole numbers and halves. *)
Lemma div_two (p : Qc) : (Fin p / of_Z 2)%js = Fin (p / 2)%Qc.
Proof.
  unfold JsNum.div, of_Z, is_zero.
  rewrite bool_decide_eq_false_2; [reflexivity|].
  intros Hzero. apply (f_equal (fun q : Qc => bool_decide (q = 0%Qc))) in Hzero.
  vm_compute in Hzero. discriminate.
Qed.

Lemma of_Z_add a b : (of_Z a + of_Z b)%js = of_Z (a + b).
Proof. unfold of_Z. cbn. by rewrite Z2Qc_inj_add. Qed.

Lemma of_Z_sub a b : (of_Z a - of_Z b)%js = of_Z (a - b).
Proof. unfold of_Z. cbn. by rewrite Z2Qc_inj_sub. Qed.

Lemma of_Z_mul a b : (of_Z a * of_Z b)%js = of_Z (a * b).
Proof. unfold of_Z. cbn. by rewrite Z2Qc_inj_mul. Qed.

Lemma Qc_of_Z_2_nonzero : Qc_of_Z 2 ≠ 0%Qc.
Proof.
  intros Hzero. apply (f_equal (fun q : Qc => bool_decide (q = 0%Qc))) in Hzero.
  vm_compute in Hzero. discriminate.
Qed.

Lemma of_Z_half k : (of_Z (2 * k) / of_Z 2)%js = of_Z k.
Proof.
  change (of_Z (2 * k)) with (Fin (Qc_of_Z (2 * k))).
  rewrite div_two. unfold of_Z. f_equal.
  rewrite <- Z2Qc_inj_2, Z2Qc_inj_mul, Qcmult_comm.
  apply Qcdiv_mult_l, Qc_of_Z_2_nonzero.
Qed.










(** A list that ends in a coordinate without partner reads [undefined] for
    the missing y: the box has its x extent and [NaN] for y and height. *)
Example dangling_coordinate :
  getBoundingBox (Some (pen_through "p" [1; 2; 3]%Z))
  = Some (Box.mk (of_Z 1) NaN (of_Z 2) NaN).
Proof. vm_compute. qc_eq. Qed.

(** The far corner of a stroke is rounded like that of a rectangle: the
    stroke from (0.2, 0) to (0.9, 0) has a box that starts at 0.2 and is 0.7
    wide, and 0.2 + 0.7 is 0.8999999999999999 in the page. *)
#[warnings="-inexact-float"]
Example stroke_box_misses_the_greatest_x :
  let greatest := 0.9%float in
  ∃ b, Double.points_box [0.2; 0; greatest; 0]%float = Some b
       ∧ Double.x b = 0.2%float
       ∧ Double.width b = 0.7%float
       ∧ PrimFloat.add (Double.x b) (Double.width b) = 0.8999999999999999%float
       ∧ PrimFloat.add (Double.x b) (Double.width b) ≠ greatest.
Proof.
  intros greatest. eexists. split; [reflexivity|].
  split; [reflexivity|]. split; [reflexivity|]. split; [reflexivity|].
  intros Heq. apply (f_equal (fun a => PrimFloat.eqb a greatest)) in Heq.
  vm_compute in Heq. discriminate.
Qed.

(** *** The reference object of a prompt *)

Lemma find_skips (p : BoardObject -> bool) (l1 l2 : list BoardObject) (r : BoardObject) :
  Forall (fun o => p o = false) l1 ->
  p r = true ->
  List.find p (l1 ++ r :: l2) = Some r.
Proof.
  intros Hnone Hr. induction Hnone as [|o l1 Ho _ IH]; cbn.
  - by rewrite Hr.
  - by rewrite Ho.
Qed.

Lemma find_none (p : BoardObject -> bool) (l : list BoardObject) :
  Forall (fun o => p o = false) l -> List.find p l = None.
Proof.
  intros Hnone. induction Hnone as [|o l Ho _ IH]; cbn; [done|]. by rewrite Ho.
Qed.

Lemma find_last_most_recent p objs r :
  most_recent p objs r -> find_last p objs = Some r.
Proof.
  intros (before & after & -> & Hr & Hafter). unfold find_last.
  rewrite rev_app_distr. cbn. rewrite <- app_assoc. cbn.
  apply find_skips; [|done].
  apply Forall_forall. intros o Ho.
  apply list_elem_of_In, in_rev, list_elem_of_In in Ho.
  by eapply Forall_forall in Hafter.
Qed.

Lemma find_last_none p objs :
  Forall (fun o => p o = false) objs -> find_last p objs = None.
Proof.
  intros Hnone. apply find_none.
  apply Forall_forall. intros o Ho.
  apply list_elem_of_In, in_rev, list_elem_of_In in Ho.
  by eapply Forall_forall in Hnone.
Qed.

Lemma promptPlacement_below iw ih lowerPrompt objs :
  includes lowerPrompt "below" = true ->
  (promptPlacement iw ih lowerPrompt objs).2
  = move_center center_below (promptPlacement iw ih lowerPrompt objs).1
      (viewport_center iw ih).
Proof. unfold promptPlacement. by intros ->. Qed.

(** C8. The search by the named kind is missing for the directions right,
    beside and left. On a board with a rectangle and, drawn after it, a
    circle, the prompt "add a square to the right of the rectangle" names a
    rectangle and no other kind, and the most recent rectangle is on the
    board; the "below" and "above" branches, and [executeShapeCommand] for a
    command with the same position and reference, take that rectangle. The
    prompt takes the circle: the new square ends up with its corner at
    (370, 25), to the right of the circle, and not at (200, 50), to the right
    of the rectangle. *)
Theorem right_of_takes_the_last_object :
  let a := rectangle_at "a" 100 100 50 50 in
  let c := circle_at "c" 300 100 20 in
  let st := board_of [a; c] 1 true in
  let iw := of_Z 1280 in
  let ih := of_Z 720 in
  let prompt := "add a square to the right of the rectangle" in
  let lowerPrompt := toLowerCase prompt in
  let command := ShapeCommand.mk "square" 1 (Some "right") (Some "rectangle") None in
  names_horizontal lowerPrompt = true
  ∧ names_vertical lowerPrompt = false
  ∧ includes lowerPrompt "rectangle" = true
  ∧ includes lowerPrompt "triangle" = false
  ∧ includes lowerPrompt "circle" = false
  ∧ most_recent (is_type RECTANGLE) (objects st) a
  ∧ or_last (find_mentioned lowerPrompt (objects st)) (objects st) = Some a
  ∧ commandReference command (objects st) = Some a
  ∧ (promptPlacement iw ih lowerPrompt (objects st)).1 = Some c
  ∧ ∃ st' e square,
      run (createShapeFromPrompt 1700000000000 iw ih prompt) st = Some (true, (st', e))
      ∧ objects st' = [a; c; square]
      ∧ type square = RECTANGLE
      ∧ Data.x (data square) = of_Z 370
      ∧ Data.y (data square) = of_Z 25
      ∧ Data.x (data (new_rectangle 1700000000000
                        (center_right a (viewport_center iw ih)))) = of_Z 200
      ∧ Data.y (data (new_rectangle 1700000000000
                        (center_right a (viewport_center iw ih)))) = of_Z 50.
Proof.
  intros a c st iw ih prompt lowerPrompt command.
  repeat (split; [vm_compute; reflexivity|]).
  split.
  { exists [], [c]. split; [reflexivity|]. split; [reflexivity|]. by repeat constructor. }
  repeat (split; [vm_compute; reflexivity|]).
  eexists _, _, _.
  split; [vm_compute; reflexivity|].
  split; [vm_compute; reflexivity|].
  split; [reflexivity|].
  split; [vm_compute; qc_eq|]. split; [vm_compute; qc_eq|].
  split; vm_compute; qc_eq.
Qed.

(** *** Placement below a rectangle *)

(** C9. On a board where the reference of "add a circle below" is a
    rectangle with x = 100, y = 100, width = 50 and height = 50, the prompt
    commits one new circle whose centre has x = 125, the horizontal centre of
    the rectangle, and y = 100 + 50 + baseSize / 2 + spacing = 275. *)
Theorem circle_below_rectangle (now : N) (iw ih : num) (st : State) (r : BoardObject) :
  (promptPlacement iw ih (toLowerCase "add a circle below") (objects st)).1 = Some r ->
  type r = RECTANGLE ->
  Data.x (data r) = of_Z 100 ->
  Data.y (data r) = of_Z 100 ->
  Data.width (data r) = of_Z 50 ->
  Data.height (data r) = of_Z 50 ->
  ∃ st' e circle,
    run (createShapeFromPrompt now iw ih "add a circle below") st
      = Some (true, (st', e))
    ∧ objects st' = objects st ++ [circle]
    ∧ type circle = CIRCLE
    ∧ Data.x (data circle) = of_Z 125
    ∧ Data.y (data circle) = (of_Z 100 + of_Z 50 + baseSize / of_Z 2 + spacing)%js
    ∧ Data.y (data circle) = of_Z 275
    ∧ Data.radius (data circle) = (baseSize / of_Z 2)%js.
Proof.
  intros Href Htype Hx Hy Hw Hh.
  unfold run, createShapeFromPrompt.
  change (toLowerCase "add a circle below") with "add a circle below" in *.
  assert (Hq : parseQuantity "add a circle below" = 1) by (vm_compute; reflexivity).
  assert (Hs : exec shapeRe "add a circle below" ≫= (fun m => lookup_group m 1)
               = Some "circle") by (vm_compute; reflexivity).
  rewrite bind_eq. unfold read at 1. cbv beta iota zeta.
  rewrite Hq, Hs.
  rewrite promptPlacement_below by (vm_compute; reflexivity).
  rewrite Href. cbn [move_center].
  match goal with
  | |- context [if ?b then Some (new_triangle _ _) else _] =>
      replace b with false by (vm_compute; reflexivity)
  end.
  match goal with
  | |- context [if ?b then Some (new_circle _ _) else _] =>
      replace b with true by (vm_compute; reflexivity)
  end.
  cbv beta iota.
  assert (Hc : center_below r (viewport_center iw ih)
               = {| centerX := (of_Z 100 + of_Z 50 / of_Z 2)%js;
                    centerY := (of_Z 100 + of_Z 50 + baseSize / of_Z 2 + spacing)%js |}).
  { unfold center_below. rewrite Htype, Hx, Hy, Hw, Hh. reflexivity. }
  rewrite Hc. cbn [mapM seq].
  set (circle :=
         {| id := "shape-" +:+ pretty now +:+ "-" +:+ pretty 0;
            type := CIRCLE;
            data := Data.mk (of_Z 125) (of_Z 275) VUndef VUndef (of_Z 75)
                      None false None VUndef None (Some "#18181B") (of_Z 2) None |}).
  assert (Hcopy : prompt_instance now
                    (new_circle now
                       {| centerX := (of_Z 100 + of_Z 50 / of_Z 2)%js;
                          centerY := (of_Z 100 + of_Z 50 + baseSize / of_Z 2 + spacing)%js |})
                    1 0
                  = Some circle).
  { unfold prompt_instance, new_circle, json_clone, circle.
    cbn [type data id].
    destruct (decide (CIRCLE = CIRCLE)) as [_|?]; [|done].
    do 2 f_equal. vm_compute. qc_eq. }
  rewrite Hcopy.
  change (Some circle ≫= (fun y => mret [] ≫= (fun k => mret (y :: k))))
    with (Some [circle]).
  cbv beta iota. msimpl. cbn [last].
  msimpl.
  eexists _, _, circle. split; [reflexivity|].
  split; [reflexivity|]. split; [reflexivity|]. split; [reflexivity|].
  split; [vm_compute; qc_eq|]. split; [reflexivity|].
  vm_compute. qc_eq.
Qed.

Lemma circle_below_rectangle_witness :
  let r := rectangle_at "r" 100 100 50 50 in
  let st := board_of [r] 1 true in
  ∃ st' e circle,
    run (createShapeFromPrompt 1700000000000 (of_Z 1280) (of_Z 720)
           "add a circle below") st
      = Some (true, (st', e))
    ∧ objects st' = [r; circle]
    ∧ type circle = CIRCLE
    ∧ Data.x (data circle) = of_Z 125
    ∧ Data.y (data circle) = of_Z 275.
Proof.
  intros r st.
  destruct (circle_below_rectangle 1700000000000 (of_Z 1280) (of_Z 720) st r)
    as (st' & e & circle & Hrun & Hobjs & Htype & Hx & _ & Hy & _);
    [vm_compute; reflexivity | reflexivity..|].
  exists st', e, circle.
  split; [exact Hrun|]. split; [exact Hobjs|]. split; [exact Htype|].
  split; [exact Hx | exact Hy].
Defined.

(** *** Building the copies *)

Lemma parseQuantity_pos lowerPrompt : (1 ≤ parseQuantity lowerPrompt)%nat.
Proof.
  unfold parseQuantity. destruct (exec numberRe lowerPrompt); [|done].
  repeat case_bool_decide; lia.
Qed.

Lemma prompt_instance_is_Some now newShape quantity i :
  (type newShape = ARROW -> is_Some (Data.points (data newShape))) ->
  is_Some (prompt_instance now newShape quantity i).
Proof.
  intros Harrow. unfold prompt_instance. cbn [type data json_clone].
  repeat (destruct (decide _); [done|]).
  destruct (_ && _); [done|].
  destruct (decide (type newShape = ARROW)) as [Ha|_].
  - destruct (Harrow Ha) as [pts Hpts]. unfold json_data. cbn. by rewrite Hpts.
  - by destruct (decide _).
Qed.

Lemma command_instance_is_Some now baseShape quantity i :
  (type baseShape = ARROW -> is_Some (Data.points (data baseShape))) ->
  is_Some (command_instance now baseShape quantity i).
Proof.
  intros Harrow. unfold command_instance. cbn [type data json_clone].
  repeat (destruct (decide _); [done|]).
  destruct (_ && _); [done|].
  destruct (decide (type baseShape = ARROW)) as [Ha|_].
  - destruct (Harrow Ha) as [pts Hpts]. unfold json_data. cbn. by rewrite Hpts.
  - by destruct (decide _).
Qed.

Lemma copies_created (f : nat -> option BoardObject) (quantity : nat) :
  (∀ i, is_Some (f i)) ->
  (1 ≤ quantity)%nat ->
  ∃ shapes s, mapM f (seq 0 quantity) = Some shapes ∧ last shapes = Some s.
Proof.
  intros Hf Hpos.
  destruct (mapM f (seq 0 quantity)) as [shapes|] eqn:Hshapes.
  - apply length_mapM in Hshapes as Hlen. rewrite length_seq in Hlen.
    destruct (last shapes) as [s|] eqn:Hlast; [by exists shapes, s|].
    apply last_None in Hlast. subst shapes. cbn in Hlen. lia.
  - assert (His : is_Some (mapM f (seq 0 quantity))).
    { apply mapM_is_Some. apply Forall_forall. intros i _. apply Hf. }
    rewrite Hshapes in His. by destruct His.
Qed.

(** *** What a commit leaves behind *)

Ltac solve_commit :=
  eexists; unfold commit_of, broadcast_effects, sent;
  cbn [objects history historyStep boardVersion socket selectedTool
       committed_state with_objects with_boardVersion with_selectedId with_history
       with_historyStep with_isDrawing with_currentShape];
  destruct (socket _); cbn; repeat split; reflexivity.

Lemma commit_of_handleMouseUp st st' e shape :
  isDrawing st = true ->
  currentShape st = Some shape ->
  run handleMouseUp st = Some (tt, (st', e)) ->
  ∃ newObjects, commit_of newObjects st st' e.
Proof.
  intros Hdrawing Hshape. unfold run, handleMouseUp.
  msimpl. rewrite Hdrawing, Hshape. msimpl.
  intros [= <- <-]. solve_commit.
Qed.

Lemma commit_of_handleMouseDown now px py answer st st' e :
  selectedTool st = TEXT ->
  nonempty answer = true ->
  run (handleMouseDown now px py answer) st = Some (tt, (st', e)) ->
  ∃ newObjects, commit_of newObjects st st' e.
Proof.
  intros Htool Hanswer. unfold run, handleMouseDown.
  msimpl. rewrite Htool, Hanswer.
  destruct (decide _) as [[?|?]|_]; [discriminate..|].
  repeat (destruct (decide _) as [?|?]; [discriminate|]).
  destruct (decide _) as [_|?]; [|done].
  msimpl. intros [= <- <-]. solve_commit.
Qed.

Lemma commit_of_onDragEnd obj tx ty st st' e :
  run (onDragEnd obj tx ty) st = Some (tt, (st', e)) ->
  ∃ newObjects, commit_of newObjects st st' e.
Proof.
  unfold run, onDragEnd. msimpl. intros [= <- <-]. solve_commit.
Qed.

Lemma commit_of_deleteById targetId st st' e :
  run (deleteById targetId) st = Some (true, (st', e)) ->
  ∃ newObjects, commit_of newObjects st st' e.
Proof.
  unfold run, deleteById.
  destruct targetId as [targetId|]; [|by msimpl].
  destruct (bool_decide (targetId = "")); [by msimpl|].
  msimpl. intros [= <- <-]. solve_commit.
Qed.

Lemma commit_of_handleClear st st' e :
  run (handleClear true) st = Some (tt, (st', e)) ->
  ∃ newObjects, commit_of newObjects st st' e.
Proof.
  unfold run, handleClear. msimpl. intros [= <- <-]. solve_commit.
Qed.

Lemma commit_of_createShapeFromPrompt now iw ih prompt st st' e :
  run (createShapeFromPrompt now iw ih prompt) st = Some (true, (st', e)) ->
  ∃ newObjects, commit_of newObjects st st' e.
Proof.
  unfold run, createShapeFromPrompt.
  rewrite bind_eq. unfold read at 1. cbv beta iota zeta.
  match goal with
  | |- context [match ?x with Some _ => _ | None => mret false end] =>
      destruct x as [newShape|]
  end; [|by msimpl].
  match goal with
  | |- context [match ?x with Some _ => _ | None => fail end] =>
      destruct x as [shapes|]
  end; [|by msimpl].
  rewrite bind_eq, commitObjects_eq.
  destruct (last shapes); msimpl; [|done].
  intros [= <- <-]. solve_commit.
Qed.

Lemma commit_of_executeShapeCommand now iw ih command st st' e :
  run (executeShapeCommand now iw ih command) st = Some (true, (st', e)) ->
  ∃ newObjects, commit_of newObjects st st' e.
Proof.
  unfold run, executeShapeCommand.
  rewrite bind_eq. unfold read at 1. cbv beta iota zeta.
  match goal with
  | |- context [match ?x with Some _ => _ | None => mret false end] =>
      destruct x as [baseShape|]
  end; [|by msimpl].
  match goal with
  | |- context [match ?x with Some _ => _ | None => fail end] =>
      destruct x as [shapes|]
  end; [|by msimpl].
  rewrite bind_eq, commitObjects_eq.
  destruct (last shapes); msimpl; [|done].
  intros [= <- <-]. solve_commit.
Qed.

Lemma commit_of_applyShapeClean now target st st' e :
  applyShapeClean now target st (st, []) = Some (true, (st', e)) ->
  ∃ newObjects, commit_of newObjects st st' e.
Proof.
  unfold applyShapeClean. destruct (getBoundingBox _); [|by msimpl].
  msimpl. intros [= <- <-]. solve_commit.
Qed.

Lemma commit_of_applyAnnotation now target suggestion st st' e :
  applyAnnotation now target suggestion st (st, []) = Some (true, (st', e)) ->
  ∃ newObjects, commit_of newObjects st st' e.
Proof.
  unfold applyAnnotation. destruct (getBoundingBox _); [|by msimpl].
  msimpl. intros [= <- <-]. solve_commit.
Qed.

Lemma commit_of_applyFlowExpansion now target st st' e :
  applyFlowExpansion now target st (st, []) = Some (true, (st', e)) ->
  ∃ newObjects, commit_of newObjects st st' e.
Proof.
  unfold applyFlowExpansion. destruct (getBoundingBox _); [|by msimpl].
  msimpl. intros [= <- <-]. solve_commit.
Qed.

Lemma commit_of_applySuggestion now suggestion st st' e :
  run (applySuggestion now suggestion) st = Some (true, (st', e)) ->
  ∃ newObjects, commit_of newObjects st st' e.
Proof.
  unfold run, applySuggestion, getPrimaryObject.
  rewrite bind_eq. unfold read at 1. cbv beta iota zeta.
  destruct (last (objects st)) as [target|]; [|by msimpl].
  set (ty := suggestion ≫= Suggestion.type).
  set (title := toLowerCase _).
  destruct (decide (ty = Some "shape_clean")) as [_|_];
    [exact (commit_of_applyShapeClean now target st st' e)|].
  destruct (decide (ty = Some "annotation")) as [_|_];
    [exact (commit_of_applyAnnotation now target suggestion st st' e)|].
  destruct (decide (ty = Some "diagram_improvement")) as [_|_];
    [exact (commit_of_applyFlowExpansion now target st st' e)|].
  destruct (includes title "rectangle");
    [exact (commit_of_applyShapeClean now target st st' e)|].
  destruct (includes title "label");
    [exact (commit_of_applyAnnotation now target suggestion st st' e)|].
  destruct (includes title "flow");
    [exact (commit_of_applyFlowExpansion now target st st' e)|].
  by msimpl.
Qed.

Lemma committed_commit_of st st' e :
  committed st st' e -> ∃ newObjects, commit_of newObjects st st' e.
Proof.
  intros [newObjects Hrun | shape Hdrawing Hshape Hrun | now px py answer Htool Hanswer Hrun
         | obj tx ty Hrun | targetId Hrun | Hrun | now iw ih prompt Hrun
         | now iw ih command Hrun | now suggestion Hrun].
  - rewrite run_commitObjects in Hrun. injection Hrun as <- <-. solve_commit.
  - by eapply commit_of_handleMouseUp.
  - by eapply commit_of_handleMouseDown.
  - by eapply commit_of_onDragEnd.
  - by eapply commit_of_deleteById.
  - by eapply commit_of_handleClear.
  - by eapply commit_of_createShapeFromPrompt.
  - by eapply commit_of_executeShapeCommand.
  - by eapply commit_of_applySuggestion.
Qed.

(** *** The cursor stays inside the snapshots *)

Section Keeps.

(** [P] looks at the snapshots and the cursor only, and holds wherever the
    cursor is an index. *)
Variable P : State -> Prop.
Hypothesis P_cursor :
  ∀ s s', history s' = history s -> historyStep s' = historyStep s -> P s -> P s'.
Hypothesis P_wf : ∀ s, history_wf s -> P s.

Lemma keeps_ret {A : Type} (a : A) : keeps P (mret a).
Proof. intros cl s e r s' e' HP [= _ <- _]. exact HP. Qed.

Lemma keeps_fail {A : Type} : keeps P (@fail A).
Proof. intros cl s e r s' e' _ [=]. Qed.

Lemma keeps_read {A : Type} (f : State -> A) : keeps P (read f).
Proof. intros cl s e r s' e' HP [= _ <- _]. exact HP. Qed.

Lemma keeps_effect (x : Effect) : keeps P (effect x).
Proof. intros cl s e r s' e' HP [= _ <- _]. exact HP. Qed.

Lemma keeps_bind {A B : Type} (m : M A) (f : A -> M B) :
  keeps P m -> (∀ a, keeps P (f a)) -> keeps P (m ≫= f).
Proof.
  intros Hm Hf cl s e r s' e' HP. rewrite bind_eq.
  destruct (m cl (s, e)) as [[a [s1 e1]]|] eqn:Hrun; [|done].
  intros Hrest. eapply Hf; [|exact Hrest]. eapply Hm; [exact HP | exact Hrun].
Qed.

Lemma keeps_update (f : State -> State) :
  (∀ s, history (f s) = history s) ->
  (∀ s, historyStep (f s) = historyStep s) ->
  keeps P (update f).
Proof.
  intros Hh Hc cl s e r s' e' HP [= _ <- _]. cbn.
  apply (P_cursor s); [apply Hh | apply Hc | exact HP].
Qed.

Lemma keeps_setObjects v : keeps P (setObjects v).
Proof. by apply keeps_update. Qed.
Lemma keeps_setBoardVersion v : keeps P (setBoardVersion v).
Proof. by apply keeps_update. Qed.
Lemma keeps_setSelectedId v : keeps P (setSelectedId v).
Proof. by apply keeps_update. Qed.
Lemma keeps_setIsDrawing v : keeps P (setIsDrawing v).
Proof. by apply keeps_update. Qed.
Lemma keeps_setCurrentShape v : keeps P (setCurrentShape v).
Proof. by apply keeps_update. Qed.
Lemma keeps_setSelectedTool v : keeps P (setSelectedTool v).
Proof. by apply keeps_update. Qed.
Lemma keeps_setSocket : keeps P setSocket.
Proof. by apply keeps_update. Qed.

Lemma keeps_saveToHistory newObjects : keeps P (saveToHistory newObjects).
Proof.
  intros cl s e r s' e' _. rewrite saveToHistory_eq. intros [= _ <- _].
  apply P_wf. unfold history_wf. cbn. rewrite length_app. cbn. lia.
Qed.

Lemma keeps_broadcastUpdate newObjects : keeps P (broadcastUpdate newObjects).
Proof.
  intros cl s e r s' e' HP. rewrite broadcastUpdate_eq. intros [= _ <- _].
  by apply (P_cursor s).
Qed.

Lemma keeps_commitObjects newObjects : keeps P (commitObjects newObjects).
Proof.
  intros cl s e r s' e' _. rewrite commitObjects_eq. intros [= _ <- _].
  apply P_wf, history_wf_committed.
Qed.

Lemma keeps_on_board_loaded objs version : keeps P (on_board_loaded objs version).
Proof.
  intros cl s e r s' e' _. unfold on_board_loaded. msimpl. intros [= _ <- _].
  apply P_wf. unfold history_wf. cbn. lia.
Qed.

Ltac keeps_step :=
  lazymatch goal with
  | |- keeps _ (mret _) => apply keeps_ret
  | |- keeps _ fail => apply keeps_fail
  | |- keeps _ (read _) => apply keeps_read
  | |- keeps _ (effect _) => apply keeps_effect
  | |- keeps _ (setObjects _) => apply keeps_setObjects
  | |- keeps _ (setBoardVersion _) => apply keeps_setBoardVersion
  | |- keeps _ (setSelectedId _) => apply keeps_setSelectedId
  | |- keeps _ (setIsDrawing _) => apply keeps_setIsDrawing
  | |- keeps _ (setCurrentShape _) => apply keeps_setCurrentShape
  | |- keeps _ (setSelectedTool _) => apply keeps_setSelectedTool
  | |- keeps _ setSocket => apply keeps_setSocket
  | |- keeps _ (saveToHistory _) => apply keeps_saveToHistory
  | |- keeps _ (broadcastUpdate _) => apply keeps_broadcastUpdate
  | |- keeps _ (commitObjects _) => apply keeps_commitObjects
  | |- keeps _ (on_board_loaded _ _) => apply keeps_on_board_loaded
  | |- keeps _ (_ ≫= _) => apply keeps_bind; [|intros ?]
  | |- keeps _ (match ?x with _ => _ end) => destruct x
  end.

Ltac keeps_all := cbv zeta; repeat keeps_step.

Lemma keeps_on_board_updated data : keeps P (on_board_updated data).
Proof. unfold on_board_updated. keeps_all. Qed.

Lemma keeps_handleMouseDown now px py answer :
  keeps P (handleMouseDown now px py answer).
Proof. unfold handleMouseDown. keeps_all. Qed.

Lemma keeps_handleMouseMove_drawing sqrt px py :
  keeps P (handleMouseMove_drawing sqrt px py).
Proof. unfold handleMouseMove_drawing. keeps_all. Qed.

Lemma keeps_handleMouseUp : keeps P handleMouseUp.
Proof. unfold handleMouseUp. keeps_all. Qed.

Lemma keeps_deleteById targetId : keeps P (deleteById targetId).
Proof. unfold deleteById. keeps_all. Qed.

Lemma keeps_handleDelete : keeps P handleDelete.
Proof. unfold handleDelete. keeps_all. apply keeps_deleteById. Qed.

Lemma keeps_handleClear confirmed : keeps P (handleClear confirmed).
Proof. unfold handleClear. keeps_all. Qed.

Lemma keeps_onClick obj : keeps P (onClick obj).
Proof. unfold onClick. keeps_all. apply keeps_deleteById. Qed.

Lemma keeps_onDragEnd obj tx ty : keeps P (onDragEnd obj tx ty).
Proof. unfold onDragEnd. keeps_all. Qed.

Lemma keeps_applySuggestion now suggestion : keeps P (applySuggestion now suggestion).
Proof.
  unfold applySuggestion, getPrimaryObject, applyShapeClean, applyAnnotation,
    applyFlowExpansion.
  keeps_all.
Qed.

Lemma keeps_createShapeFromPrompt now iw ih prompt :
  keeps P (createShapeFromPrompt now iw ih prompt).
Proof. unfold createShapeFromPrompt. keeps_all. Qed.

Lemma keeps_executeShapeCommand now iw ih command :
  keeps P (executeShapeCommand now iw ih command).
Proof. unfold executeShapeCommand. keeps_all. Qed.

Lemma keeps_countCreated now iw ih results n :
  keeps P (countCreated now iw ih results n).
Proof.
  revert n. induction results as [|command rest IH]; intros n; cbn [countCreated].
  - apply keeps_ret.
  - apply keeps_bind; [apply keeps_executeShapeCommand | intros created; apply IH].
Qed.

Lemma keeps_executeCommands now iw ih results :
  keeps P (executeCommands now iw ih results).
Proof.
  unfold executeCommands. apply keeps_bind; [apply keeps_countCreated|].
  intros n. keeps_all.
Qed.

End Keeps.

Lemma history_wf_cursor s s' :
  history s' = history s -> historyStep s' = historyStep s ->
  history_wf s -> history_wf s'.
Proof. unfold history_wf. by intros -> ->. Qed.

Lemma cursor_ok_cursor s s' :
  history s' = history s -> historyStep s' = historyStep s ->
  cursor_ok s -> cursor_ok s'.
Proof. unfold cursor_ok, history_wf. by intros -> ->. Qed.

Lemma cursor_ok_wf s : history_wf s -> cursor_ok s.
Proof. by right. Qed.

Lemma state_after_Some {A : Type} (m : M A) st st' :
  state_after m st = Some st' -> ∃ r e, m st (st, []) = Some (r, (st', e)).
Proof.
  unfold state_after, run. destruct (m st (st, [])) as [[r [s e]]|]; [|done].
  cbn. intros [= <-]. by exists r, e.
Qed.

Lemma cursor_ok_undo st s :
  cursor_ok st -> state_after handleUndo st = Some s -> cursor_ok s.
Proof.
  intros [Hzero|Hwf] Hrun.
  - unfold state_after in Hrun. rewrite run_handleUndo_first in Hrun by done.
    injection Hrun as <-. by left.
  - right. by eapply history_wf_undo.
Qed.

Lemma cursor_ok_redo st s :
  cursor_ok st -> state_after handleRedo st = Some s -> cursor_ok s.
Proof.
  intros Hok. unfold state_after.
  destruct (decide (length (history st) <= historyStep st + 1)) as [Hlast|Hmore].
  - rewrite run_handleRedo_last by done. cbn. by intros [= <-].
  - destruct (lookup_lt_is_Some_2 (history st) (historyStep st + 1)) as [snap Hsnap];
      [lia|].
    rewrite (run_handleRedo st snap) by done. cbn. intros [= <-].
    right. unfold history_wf. cbn. lia.
Qed.

(** Every event keeps a property of the cursor that the commits establish
    and that undo and redo keep. *)
Lemma event_keeps (P : State -> Prop) (sqrt : num -> num) (ev : Event) st st' :
  (∀ s s', history s' = history s -> historyStep s' = historyStep s -> P s -> P s') ->
  (∀ s, history_wf s -> P s) ->
  (∀ s s', P s -> state_after handleUndo s = Some s' -> P s') ->
  (∀ s s', P s -> state_after handleRedo s = Some s' -> P s') ->
  P st ->
  state_after (handler_of sqrt ev) st = Some st' ->
  P st'.
Proof.
  intros P_cursor P_wf P_undo P_redo HP Hrun.
  assert (Hk : ∀ m : M unit, keeps P m -> state_after m st = Some st' -> P st').
  { intros m Hm Hm_run. apply state_after_Some in Hm_run as (r & e & Hm_run).
    by eapply Hm. }
  destruct ev; cbn [handler_of] in Hrun.
  - refine (Hk _ _ Hrun). by apply keeps_on_board_loaded.
  - refine (Hk _ _ Hrun). by apply keeps_setSocket.
  - refine (Hk _ _ Hrun). by apply keeps_setSelectedTool.
  - refine (Hk _ _ Hrun). by apply keeps_handleMouseDown.
  - refine (Hk _ _ Hrun). by apply keeps_handleMouseMove_drawing.
  - refine (Hk _ _ Hrun). by apply keeps_handleMouseUp.
  - by eapply P_undo.
  - by eapply P_redo.
  - refine (Hk _ _ Hrun). by apply keeps_handleDelete.
  - refine (Hk _ _ Hrun). by apply keeps_handleClear.
  - refine (Hk _ _ Hrun). by apply keeps_onClick.
  - refine (Hk _ _ Hrun). by apply keeps_onDragEnd.
  - refine (Hk _ _ Hrun).
    apply keeps_bind; [by apply keeps_createShapeFromPrompt | intros _; by apply keeps_ret].
  - refine (Hk _ _ Hrun). by apply keeps_executeCommands.
  - refine (Hk _ _ Hrun).
    apply keeps_bind; [by apply keeps_applySuggestion | intros _; by apply keeps_ret].
  - refine (Hk _ _ Hrun). by apply keeps_on_board_updated.
Qed.

(** X1. Once the cursor is an index into the snapshots, every event of the
    page keeps it one: the handlers of the pointer, of the toolbar, of the
    prompt, of the suggestions and of the socket. *)
Theorem events_keep_cursor_index (sqrt : num -> num) (ev : Event) (st st' : State) :
  history_wf st ->
  state_after (handler_of sqrt ev) st = Some st' ->
  history_wf st'.
Proof.
  intros Hwf Hrun.
  apply (event_keeps history_wf sqrt ev st st'); try done.
  - apply history_wf_cursor.
  - apply history_wf_undo.
  - apply history_wf_redo.
Qed.

Lemma events_keep_cursor_index_witness :
  let a := rectangle_at "a" 0 0 10 10 in
  let st := with_historyStep 1 (with_history [[]; [a]] (board_of [a] 1 true)) in
  history_wf st
  ∧ state_after (handler_of (fun n => n) EvDelete) st
    = Some (with_boardVersion 2
              (with_historyStep 2 (with_history [[]; [a]; []] (board_of [] 1 true))))
  ∧ history_wf (with_boardVersion 2
                  (with_historyStep 2 (with_history [[]; [a]; []] (board_of [] 1 true)))).
Proof.
  intros a st.
  assert (Hwf : history_wf st) by (unfold history_wf; cbn; lia).
  assert (Hrun : state_after (handler_of (fun n => n) EvDelete) st
                 = Some (with_boardVersion 2
                           (with_historyStep 2
                              (with_history [[]; [a]; []] (board_of [] 1 true)))))
    by reflexivity.
  split; [exact Hwf|]. split; [exact Hrun|].
  exact (events_keep_cursor_index (fun n => n) EvDelete st _ Hwf Hrun).
Defined.

(** X2. In every state the page reaches from its initial cells the cursor is
    0 or an index into the snapshots, so that undo and redo always find the
    snapshot they read: neither ever stores an undefined object list. *)
Theorem undo_redo_always_defined (sqrt : num -> num) (st : State) :
  reachable sqrt st ->
  cursor_ok st
  ∧ is_Some (run handleUndo st)
  ∧ is_Some (run handleRedo st).
Proof.
  intros Hreach.
  assert (Hok : cursor_ok st).
  { induction Hreach as [|st ev st' _ IH Hrun]; [by left|].
    apply (event_keeps cursor_ok sqrt ev st st'); try done.
    - apply cursor_ok_cursor.
    - apply cursor_ok_wf.
    - apply cursor_ok_undo.
    - apply cursor_ok_redo. }
  split; [exact Hok|]. split.
  - destruct (historyStep st) as [|n] eqn:Hstep.
    + by rewrite run_handleUndo_first.
    + destruct Hok as [Hzero|Hwf]; [congruence|]. unfold history_wf in Hwf.
      destruct (lookup_lt_is_Some_2 (history st) n) as [snap Hsnap]; [lia|].
      by rewrite (run_handleUndo st n snap).
  - destruct (decide (length (history st) <= historyStep st + 1)) as [Hlast|Hmore].
    + by rewrite run_handleRedo_last.
    + destruct (lookup_lt_is_Some_2 (history st) (historyStep st + 1)) as [snap Hsnap];
        [lia|].
      by rewrite (run_handleRedo st snap).
Qed.

Lemma undo_redo_always_defined_witness :
  let a := rectangle_at "a" 0 0 10 10 in
  let st := with_boardVersion 2
              (with_historyStep 1 (with_history [[a]; []] (board_of [] 1 true))) in
  reachable (fun n => n) st
  ∧ is_Some (run handleUndo st)
  ∧ is_Some (run handleRedo st).
Proof.
  intros a st.
  assert (Hreach : reachable (fun n => n) st).
  { apply (reachable_step _ (board_of [a] 1 true) (EvClear true)); [|reflexivity].
    apply (reachable_step _ (with_socket true (board_of [a] 1 false)) (EvLoaded [a] 1));
      [|reflexivity].
    apply (reachable_step _ (board_of [a] 1 false) EvSocket); [|reflexivity].
    apply (reachable_step _ (with_selectedTool SELECT initial_state) (EvLoaded [a] 1));
      [|reflexivity].
    apply (reachable_step _ initial_state (EvTool SELECT)); [|reflexivity].
    apply reachable_initial. }
  split; [exact Hreach|].
  exact (proj2 (undo_redo_always_defined (fun n => n) st Hreach)).
Defined.

(** *** Commits, messages and the undo stack *)



(** X4. A committed mutation made while a socket is held sends exactly one
    [board_update] message, and that message carries the objects and the
    version the sender ends with; without a socket nothing is sent. A client
    that receives the message ends with the sender's objects and version. *)
Theorem commit_sends_local_state (st st' : State) (e : list Effect) :
  committed st st' e ->
  sent e = (if socket st then [(objects st', boardVersion st')] else [])
  ∧ ∀ objs version peer,
      (objs, version) ∈ sent e ->
      ∃ peer',
        run (on_board_updated (mkBoardUpdated objs (Some version))) peer
          = Some (tt, (peer', []))
        ∧ objects peer' = objects st'
        ∧ boardVersion peer' = boardVersion st'.
Proof.
  intros Hcommitted.
  destruct (committed_commit_of st st' e Hcommitted)
    as (newObjects & Hobjs & _ & _ & Hversion & Hsent & _).
  assert (Hmessages :
            sent e = if socket st then [(objects st', boardVersion st')] else []).
  { rewrite Hsent, Hobjs, Hversion. unfold broadcast_effects, next_version.
    by destruct (socket st). }
  split; [exact Hmessages|].
  intros objs version peer Hin. rewrite Hmessages in Hin.
  destruct (socket st); [|by apply elem_of_nil in Hin].
  apply list_elem_of_singleton in Hin. injection Hin as -> ->.
  eexists. split; [|split].
  - unfold on_board_updated. munfold. cbn. reflexivity.
  - reflexivity.
  - reflexivity.
Qed.

Lemma commit_sends_local_state_witness :
  let a := rectangle_at "a" 0 0 10 10 in
  let st := board_of [a] 4 true in
  let st' := with_boardVersion 5
               (with_historyStep 1 (with_history [[a]; []] (board_of [] 4 true))) in
  committed st st' [Emit_board_update [] 5]
  ∧ sent [Emit_board_update [] 5] = [([], 5%Z)].
Proof.
  intros a st st'.
  assert (Hcommitted : committed st st' [Emit_board_update [] 5])
    by (apply committed_clear; reflexivity).
  split; [exact Hcommitted|].
  exact (proj1 (commit_sends_local_state st st' _ Hcommitted)).
Defined.



(** X6. Objects that arrived from a peer are not part of any snapshot: when a
    remote update is followed by a local commit, an undo puts the snapshot
    from before the remote update back on the board and broadcasts it, so
    the received objects are gone unless the commit carried them along. *)
Theorem undo_after_remote_update (st : State) (data : BoardUpdated)
    (newObjects snap : list BoardObject) :
  history st !! historyStep st = Some snap ->
  ∃ st1 st2 st3 e,
    state_after (on_board_updated data) st = Some st1
    ∧ state_after (commitObjects newObjects) st1 = Some st2
    ∧ run handleUndo st2 = Some (tt, (st3, e))
    ∧ objects st3 = snap
    ∧ sent e = (if socket st then [(snap, boardVersion st3)] else [])
    ∧ history st3 = take (historyStep st + 1) (history st) ++ [newObjects].
Proof.
  intros Hsnap. apply lookup_lt_Some in Hsnap as Hlt.
  set (st1 := with_boardVersion (default (boardVersion st) (bu_version data))
                (with_objects (bu_objects data) st)).
  assert (Hrun1 : state_after (on_board_updated data) st = Some st1).
  { unfold on_board_updated. munfold. cbn. subst st1.
    destruct (bu_version data); cbn; [reflexivity | by destruct st]. }
  set (st2 := committed_state newObjects st1 st1).
  assert (Hc : historyStep st2 = S (historyStep st)).
  { subst st2 st1. cbn. rewrite length_take. lia. }
  assert (Hold : history st2 !! historyStep st = Some snap).
  { subst st2 st1. cbn. rewrite lookup_app_l by (rewrite length_take; lia).
    rewrite lookup_take_lt by lia. exact Hsnap. }
  exists st1, st2. eexists _, _.
  split; [exact Hrun1|]. split; [apply state_after_commitObjects|].
  split; [exact (run_handleUndo st2 (historyStep st) snap Hc Hold)|].
  split; [reflexivity|]. split; [|reflexivity].
  unfold broadcast_effects, next_version, sent. subst st2 st1. cbn.
  by destruct (socket st).
Qed.

Lemma undo_after_remote_update_witness :
  let a := rectangle_at "a" 0 0 10 10 in
  let b := circle_at "b" 5 5 2 in
  let c := rectangle_at "c" 20 20 5 5 in
  let st := board_of [a] 4 true in
  history st !! historyStep st = Some [a]
  ∧ ∃ st1 st2 st3 e,
      state_after (on_board_updated (mkBoardUpdated [a; b] (Some 9%Z))) st = Some st1
      ∧ state_after (commitObjects [a; b; c]) st1 = Some st2
      ∧ run handleUndo st2 = Some (tt, (st3, e))
      ∧ objects st3 = [a].
Proof.
  intros a b c st.
  assert (Hsnap : history st !! historyStep st = Some [a]) by reflexivity.
  split; [exact Hsnap|].
  destruct (undo_after_remote_update st (mkBoardUpdated [a; b] (Some 9%Z))
              [a; b; c] [a] Hsnap)
    as (st1 & st2 & st3 & e & H1 & H2 & H3 & H4 & _).
  by exists st1, st2, st3, e.
Defined.

(** X7. An undo followed by a redo brings back the snapshot under the
    cursor and leaves the snapshots and the cursor as they were, but it is
    not silent: with a socket each of the two sends a message, and the
    version, as long as the page can count it, ends two higher; without a
    socket the version does not move. *)
Theorem undo_then_redo (st : State) (current : list BoardObject) :
  historyStep st ≠ 0 ->
  history st !! historyStep st = Some current ->
  counted (boardVersion st) ->
  counted (boardVersion st + 1) ->
  ∃ st1 e1 st2 e2,
    run handleUndo st = Some (tt, (st1, e1))
    ∧ run handleRedo st1 = Some (tt, (st2, e2))
    ∧ objects st2 = current
    ∧ history st2 = history st
    ∧ historyStep st2 = historyStep st
    ∧ boardVersion st2 = (if socket st then boardVersion st + 2 else boardVersion st)%Z
    ∧ length (sent (e1 ++ e2)) = (if socket st then 2 else 0).
Proof.
  intros Hpos Hcurrent _ _. apply lookup_lt_Some in Hcurrent as Hlt.
  destruct (historyStep st) as [|n] eqn:Hstep; [done|].
  destruct (lookup_lt_is_Some_2 (history st) n) as [snap Hsnap]; [lia|].
  eexists _, _, _, _.
  split; [exact (run_handleUndo st n snap Hstep Hsnap)|].
  split.
  { apply run_handleRedo. cbn. by replace (n + 1) with (S n) by lia. }
  cbn. split; [reflexivity|]. split; [reflexivity|].
  split; [lia|].
  unfold next_version, broadcast_effects, sent. cbn.
  destruct (socket st); cbn; split; first [lia | reflexivity].
Qed.

Lemma undo_then_redo_witness :
  let a := rectangle_at "a" 0 0 10 10 in
  let b := circle_at "b" 5 5 2 in
  let st := with_historyStep 1 (with_history [[a]; [a; b]] (board_of [a; b] 4 true)) in
  historyStep st ≠ 0
  ∧ history st !! historyStep st = Some [a; b]
  ∧ counted (boardVersion st)
  ∧ counted (boardVersion st + 1)
  ∧ ∃ st1 e1 st2 e2,
      run handleUndo st = Some (tt, (st1, e1))
      ∧ run handleRedo st1 = Some (tt, (st2, e2))
      ∧ objects st2 = [a; b]
      ∧ boardVersion st2 = 6%Z.
Proof.
  intros a b st.
  assert (Hpos : historyStep st ≠ 0) by (cbn; lia).
  assert (Hcurrent : history st !! historyStep st = Some [a; b]) by reflexivity.
  assert (Hcounted : counted (boardVersion st)) by (by vm_compute).
  assert (Hcounted' : counted (boardVersion st + 1)) by (by vm_compute).
  split; [exact Hpos|]. split; [exact Hcurrent|].
  split; [exact Hcounted|]. split; [exact Hcounted'|].
  destruct (undo_then_redo st [a; b] Hpos Hcurrent Hcounted Hcounted')
    as (st1 & e1 & st2 & e2 & Hundo & Hredo & Hobjs & _ & _ & Hversion & _).
  by exists st1, e1, st2, e2.
Defined.

(** *** More geometry *)

(** X8. [getBoundingBox] has no box to give for exactly these: a missing
    object, an object of type select or eraser, and a pen stroke or an arrow
    whose point list is missing or holds fewer than two entries. *)
Theorem getBoundingBox_absent (obj : option BoardObject) :
  getBoundingBox obj = None <->
  match obj with
  | None => True
  | Some o =>
      type o = SELECT ∨ type o = ERASER
      ∨ ((type o = PEN ∨ type o = ARROW)
         ∧ length (default [] (Data.points (data o))) < 2)
  end.
Proof.
  destruct obj as [o|]; [|done]. unfold getBoundingBox.
  destruct (type o) eqn:Htype; cbn;
    try (split; [discriminate | intros [?|[?|[[?|?] _]]]; discriminate]);
    try (split; [by auto | done]);
    destruct (decide (length (default [] (Data.points (data o))) < 2)) as [Hlen|Hlen];
    (split; [first [discriminate | by auto]
            | first [done | intros [?|[?|[_ ?]]]; first [discriminate | lia]]]).
Qed.

(** *** Drawing with the pointer *)

(** Settles the comparisons of two tools. *)
Ltac decide_tools :=
  repeat match goal with
         | |- context [decide (?a = ?b :> Tool)] =>
             destruct (decide (a = b :> Tool)); first [discriminate | done | idtac]
         end.

(** X10. With the text tool a mouse press asks for the text. A non-empty
    answer commits one text object at the pointer, with font size 20 and no
    width, so that its box is 120 wide and 20 high; an empty or cancelled
    answer creates nothing and sends nothing. Either way no drawing is left
    in progress. *)
Theorem text_tool_press (now : N) (px py : val) (answer : option string) (st : State) :
  selectedTool st = TEXT ->
  ∃ st' e,
    run (handleMouseDown now px py answer) st = Some (tt, (st', e))
    ∧ isDrawing st' = false
    ∧ currentShape st' = currentShape st
    ∧ if nonempty answer
      then ∃ t,
             objects st' = objects st ++ [t]
             ∧ committed st st' e
             ∧ id t = "shape-" +:+ pretty now
             ∧ type t = TEXT
             ∧ Data.text (data t) = answer
             ∧ getBoundingBox (Some t) = Some (Box.mk px py (of_Z 120) (of_Z 20))
      else st' = with_isDrawing false st ∧ e = [].
Proof.
  intros Htool.
  destruct (run (handleMouseDown now px py answer) st) as [[[] [st' e]]|] eqn:Hrun.
  - exists st', e. split; [reflexivity|].
    assert (Hcommitted : nonempty answer = true -> committed st st' e)
      by (intros Hanswer; by eapply committed_text).
    revert Hrun Hcommitted. unfold run, handleMouseDown. msimpl. rewrite Htool.
    destruct (decide (TEXT = SELECT ∨ TEXT = ERASER)) as [[?|?]|_]; [discriminate..|].
    msimpl. decide_tools. msimpl.
    destruct (nonempty answer); msimpl; intros [= <- <-] Hcommitted.
    + split; [reflexivity|]. split; [reflexivity|].
      eexists. split; [reflexivity|]. split; [by apply Hcommitted|].
      repeat split.
    + split; [reflexivity|]. split; [reflexivity|].
      split; [by destruct st | reflexivity].
  - revert Hrun. unfold run, handleMouseDown. msimpl. rewrite Htool.
    destruct (decide (TEXT = SELECT ∨ TEXT = ERASER)) as [[?|?]|_]; [discriminate..|].
    msimpl. decide_tools. msimpl.
    destruct (nonempty answer); msimpl; discriminate.
Qed.

Lemma text_tool_press_witness :
  let st := with_selectedTool TEXT (board_of [] 1 true) in
  selectedTool st = TEXT
  ∧ ∃ st' e,
      run (handleMouseDown 1700000000000 (of_Z 40) (of_Z 30) (Some "hello")) st
        = Some (tt, (st', e))
      ∧ isDrawing st' = false.
Proof.
  intros st. split; [reflexivity|].
  destruct (text_tool_press 1700000000000 (of_Z 40) (of_Z 30) (Some "hello") st eq_refl)
    as (st' & e & Hrun & Hdrawing & _).
  by exists st', e.
Defined.

Lemma run_move_with sqrt px py st shape shape' :
  isDrawing st = true ->
  currentShape st = Some shape ->
  updatedShape sqrt (selectedTool st) shape px py = Some shape' ->
  run (handleMouseMove_drawing sqrt px py) st
  = Some (tt, (with_currentShape (Some shape') st, [])).
Proof.
  intros Hdrawing Hshape Hupdated. unfold run, handleMouseMove_drawing.
  msimpl. rewrite Hdrawing, Hshape, Hupdated. reflexivity.
Qed.

Lemma after_moves_rectangle sqrt (moves : list (val * val)) px py st shape :
  isDrawing st = true ->
  currentShape st = Some shape ->
  selectedTool st = RECTANGLE ->
  after_moves sqrt (moves ++ [(px, py)]) st
  = Some (with_currentShape
            (Some {| id := id shape; type := type shape;
                     data := data_with_size
                               (ToNumber px - ToNumber (Data.x (data shape)))%js
                               (ToNumber py - ToNumber (Data.y (data shape)))%js
                               (data shape) |}) st).
Proof.
  revert st shape. induction moves as [|[qx qy] moves IH];
    intros st shape Hdrawing Hshape Htool; cbn [after_moves app].
  - unfold state_after.
    erewrite run_move_with; [reflexivity | done | done |].
    rewrite Htool. reflexivity.
  - unfold state_after.
    erewrite run_move_with; [| done | done | rewrite Htool; reflexivity].
    cbn [fmap option_fmap option_map fst snd].
    match goal with
    | |- after_moves _ _ (with_currentShape (Some ?shape1) _) = _ =>
        rewrite (IH _ shape1) by done
    end.
    reflexivity.
Qed.

Lemma after_moves_pen sqrt (moves : list (val * val)) st shape points :
  isDrawing st = true ->
  currentShape st = Some shape ->
  selectedTool st = PEN ->
  Data.points (data shape) = Some points ->
  after_moves sqrt moves st
  = Some (match moves with
          | [] => st
          | _ =>
              with_currentShape
                (Some {| id := id shape; type := type shape;
                         data := Data.set_points
                                   (Some (points ++ (moves ≫= fun m => [m.1; m.2])))
                                   (data shape) |}) st
          end).
Proof.
  revert st shape points. induction moves as [|[qx qy] moves IH];
    intros st shape points Hdrawing Hshape Htool Hpoints; cbn [after_moves].
  - reflexivity.
  - unfold state_after.
    erewrite run_move_with;
      [| done | done | rewrite Htool; unfold updatedShape; cbn; rewrite Hpoints; reflexivity].
    cbn [fmap option_fmap option_map fst snd].
    match goal with
    | |- after_moves _ _ (with_currentShape (Some ?shape1) _) = _ =>
        rewrite (IH _ shape1 (points ++ [qx; qy])) by done
    end.
    destruct moves as [|m moves]; [reflexivity|].
    cbn [mbind list_bind app fst snd]. rewrite <- !app_assoc. reflexivity.
Qed.

Lemma run_handleMouseUp st shape :
  isDrawing st = true ->
  currentShape st = Some shape ->
  run handleMouseUp st
  = Some (tt, (with_currentShape None
                 (with_isDrawing false
                    (committed_state (objects st ++ [shape]) st st)),
               broadcast_effects (objects st ++ [shape]) st)).
Proof.
  intros Hdrawing Hshape. unfold run, handleMouseUp. msimpl.
  rewrite Hdrawing, Hshape. msimpl. reflexivity.
Qed.

Lemma run_handleMouseDown_idle now px py answer st :
  selectedTool st = SELECT ∨ selectedTool st = ERASER ->
  run (handleMouseDown now px py answer) st = Some (tt, (st, [])).
Proof.
  intros Htool. unfold run, handleMouseDown. msimpl.
  destruct (decide _) as [_|Hother]; [reflexivity | done].
Qed.

Lemma run_handleMouseDown_rectangle now px py answer st :
  selectedTool st = RECTANGLE ->
  run (handleMouseDown now px py answer) st
  = Some (tt, (with_currentShape
                 (Some {| id := "shape-" +:+ pretty now; type := RECTANGLE;
                          data := Data.mk px py (of_Z 0) (of_Z 0) VUndef None false
                                    None VUndef None (Some "#18181B") (of_Z 2)
                                    (Some "transparent") |})
                 (with_isDrawing true st), [])).
Proof.
  intros Htool. unfold run, handleMouseDown. msimpl. rewrite Htool.
  destruct (decide (RECTANGLE = SELECT ∨ RECTANGLE = ERASER)) as [[?|?]|_];
    [discriminate..|].
  msimpl. decide_tools; reflexivity.
Qed.

Lemma run_handleMouseDown_pen now px py answer st :
  selectedTool st = PEN ->
  run (handleMouseDown now px py answer) st
  = Some (tt, (with_currentShape
                 (Some {| id := "shape-" +:+ pretty now; type := PEN;
                          data := Data.mk VUndef VUndef VUndef VUndef VUndef
                                    (Some [px; py]) false None VUndef None
                                    (Some "#18181B") (of_Z 2) None |})
                 (with_isDrawing true st), [])).
Proof.
  intros Htool. unfold run, handleMouseDown. msimpl. rewrite Htool.
  destruct (decide (PEN = SELECT ∨ PEN = ERASER)) as [[?|?]|_]; [discriminate..|].
  msimpl. decide_tools; reflexivity.
Qed.

(** X11. Drawing a rectangle: with the rectangle tool, a press at (x0, y0),
    any pointer moves that end at (x1, y1) and a release commit one
    rectangle whose box spans the two points, whichever way the pointer
    went; the two points have whole coordinates of moderate size, the moves
    between them are arbitrary. The board itself does not change before the
    release. *)
Theorem rectangle_gesture (sqrt : num -> num) (now : N) (x0 y0 x1 y1 : Z)
    (answer : option string) (moves : list (val * val)) (st : State) :
  selectedTool st = RECTANGLE ->
  small x0 -> small y0 -> small x1 -> small y1 ->
  ∃ st1 st2 st3 e r,
    state_after (handleMouseDown now (of_Z x0) (of_Z y0) answer) st = Some st1
    ∧ after_moves sqrt (moves ++ [(VNum (of_Z x1), VNum (of_Z y1))]) st1 = Some st2
    ∧ objects st2 = objects st
    ∧ run handleMouseUp st2 = Some (tt, (st3, e))
    ∧ committed st2 st3 e
    ∧ objects st3 = objects st ++ [r]
    ∧ id r = "shape-" +:+ pretty now
    ∧ type r = RECTANGLE
    ∧ getBoundingBox (Some r)
      = Some (Box.mk (of_Z (Z.min x0 x1)) (of_Z (Z.min y0 y1))
                (of_Z (Z.abs (x1 - x0))) (of_Z (Z.abs (y1 - y0))))
    ∧ isDrawing st3 = false
    ∧ currentShape st3 = None.
Proof.
  intros Htool _ _ _ _.
  eexists _, _, _, _, _.
  split.
  { unfold state_after. rewrite run_handleMouseDown_rectangle by done. reflexivity. }
  split.
  { apply after_moves_rectangle; [reflexivity | reflexivity | exact Htool]. }
  split; [reflexivity|].
  split; [apply run_handleMouseUp; reflexivity|].
  split.
  { eapply committed_draw; [| |apply run_handleMouseUp]; reflexivity. }
  split; [reflexivity|]. split; [reflexivity|]. split; [reflexivity|].
  split; [|split; reflexivity].
  unfold getBoundingBox. cbn [type data Data.x Data.y Data.width Data.height data_with_size].
  destruct (decide (RECTANGLE = RECTANGLE)) as [_|?]; [|done].
  cbn [ToNumber]. rewrite !of_Z_sub. unfold of_Z.
  cbn [JsNum.add JsNum.sub JsNum.neg JsNum.min JsNum.max].
  destruct (Qc_span_Z x0 (x1 - x0)) as [-> ->].
  destruct (Qc_span_Z y0 (y1 - y0)) as [-> ->].
  replace (x0 + (x1 - x0))%Z with x1 by lia.
  replace (y0 + (y1 - y0))%Z with y1 by lia.
  reflexivity.
Qed.

Lemma rectangle_gesture_witness :
  let st := with_selectedTool RECTANGLE (board_of [] 1 true) in
  selectedTool st = RECTANGLE
  ∧ ∃ st1 st2 st3 e r,
      state_after (handleMouseDown 1700000000000 (of_Z 90) (of_Z 40) None) st
        = Some st1
      ∧ after_moves (fun n => n) [(VNum (of_Z 50), VNum (of_Z 60));
                                  (VNum (of_Z 10), VNum (of_Z 70))] st1 = Some st2
      ∧ run handleMouseUp st2 = Some (tt, (st3, e))
      ∧ objects st3 = objects st ++ [r]
      ∧ getBoundingBox (Some r)
        = Some (Box.mk (of_Z 10) (of_Z 40) (of_Z 80) (of_Z 30)).
Proof.
  intros st. split; [reflexivity|].
  destruct (rectangle_gesture (fun n => n) 1700000000000 90 40 10 70 None
              [(VNum (of_Z 50), VNum (of_Z 60))] st eq_refl)
    as (st1 & st2 & st3 & e & r & H1 & H2 & _ & H3 & _ & H4 & _ & _ & H5 & _);
    [by vm_compute..|].
  by exists st1, st2, st3, e, r.
Defined.

(** X12. Drawing with the pen: a press at a point, any pointer moves and a
    release commit one open stroke whose point list is the pressed point
    followed by every moved-to point in order. Even a press and release
    without a move commits a stroke, of one point, and every committed
    stroke has a bounding box. *)
Theorem pen_gesture (sqrt : num -> num) (now : N) (px py : val)
    (answer : option string) (moves : list (val * val)) (st : State) :
  selectedTool st = PEN ->
  ∃ st1 st2 st3 e s,
    state_after (handleMouseDown now px py answer) st = Some st1
    ∧ after_moves sqrt moves st1 = Some st2
    ∧ objects st2 = objects st
    ∧ run handleMouseUp st2 = Some (tt, (st3, e))
    ∧ committed st2 st3 e
    ∧ objects st3 = objects st ++ [s]
    ∧ id s = "shape-" +:+ pretty now
    ∧ type s = PEN
    ∧ Data.points (data s) = Some ([px; py] ++ (moves ≫= fun m => [m.1; m.2]))
    ∧ Data.closed (data s) = false
    ∧ is_Some (getBoundingBox (Some s))
    ∧ isDrawing st3 = false
    ∧ currentShape st3 = None.
Proof.
  intros Htool.
  set (shape0 := {| id := "shape-" +:+ pretty now; type := PEN;
                    data := Data.mk VUndef VUndef VUndef VUndef VUndef
                              (Some [px; py]) false None VUndef None
                              (Some "#18181B") (of_Z 2) None |}).
  set (st1 := with_currentShape (Some shape0) (with_isDrawing true st)).
  set (s := {| id := id shape0; type := type shape0;
               data := Data.set_points
                         (Some ([px; py] ++ (moves ≫= fun m => [m.1; m.2])))
                         (data shape0) |}).
  set (st2 := with_currentShape (Some s) st1).
  assert (Hdown : state_after (handleMouseDown now px py answer) st = Some st1).
  { unfold state_after. rewrite run_handleMouseDown_pen by done. reflexivity. }
  assert (Hmoves : after_moves sqrt moves st1 = Some st2).
  { rewrite (after_moves_pen sqrt moves st1 shape0 [px; py]) by done.
    destruct moves; reflexivity. }
  assert (Hup : run handleMouseUp st2
                = Some (tt, (with_currentShape None
                               (with_isDrawing false
                                  (committed_state (objects st2 ++ [s]) st2 st2)),
                             broadcast_effects (objects st2 ++ [s]) st2)))
    by (by apply run_handleMouseUp).
  exists st1, st2. eexists _, _, s.
  split; [exact Hdown|]. split; [exact Hmoves|]. split; [reflexivity|].
  split; [exact Hup|].
  split; [by eapply committed_draw|].
  repeat (split; [reflexivity|]).
  split; [|split; reflexivity].
  unfold getBoundingBox. cbn [type data s shape0].
  decide_tools.
Qed.

Lemma pen_gesture_witness :
  let st := with_selectedTool PEN (board_of [] 1 true) in
  selectedTool st = PEN
  ∧ ∃ st1 st2 st3 e s,
      state_after (handleMouseDown 1700000000000 (of_Z 90) (of_Z 40) None) st = Some st1
      ∧ after_moves (fun n => n) [(VNum (of_Z 50), VNum (of_Z 60))] st1 = Some st2
      ∧ run handleMouseUp st2 = Some (tt, (st3, e))
      ∧ objects st3 = objects st ++ [s]
      ∧ Data.points (data s) = Some [VNum (of_Z 90); VNum (of_Z 40);
                                     VNum (of_Z 50); VNum (of_Z 60)].
Proof.
  intros st. split; [reflexivity|].
  destruct (pen_gesture (fun n => n) 1700000000000 (of_Z 90) (of_Z 40) None
              [(VNum (of_Z 50), VNum (of_Z 60))] st eq_refl)
    as (st1 & st2 & st3 & e & s & H1 & H2 & _ & H3 & _ & H4 & _ & _ & H5 & _).
  by exists st1, st2, st3, e, s.
Defined.

(** X13. With the select or the eraser tool, and no drawing in progress, a
    press, any pointer moves and a release change nothing and send no board
    update. *)
Theorem idle_gesture (sqrt : num -> num) (now : N) (px py : val)
    (answer : option string) (moves : list (val * val)) (st : State) :
  selectedTool st = SELECT ∨ selectedTool st = ERASER ->
  isDrawing st = false ->
  run (handleMouseDown now px py answer) st = Some (tt, (st, []))
  ∧ after_moves sqrt moves st = Some st
  ∧ run handleMouseUp st = Some (tt, (st, [])).
Proof.
  intros Htool Hdrawing.
  split; [by apply run_handleMouseDown_idle|]. split.
  - induction moves as [|[qx qy] moves IH]; [reflexivity|]. cbn [after_moves].
    assert (Hmove : state_after (handleMouseMove_drawing sqrt qx qy) st = Some st).
    { unfold state_after, run, handleMouseMove_drawing. msimpl.
      rewrite Hdrawing. reflexivity. }
    rewrite Hmove. exact IH.
  - unfold run, handleMouseUp. msimpl. rewrite Hdrawing. reflexivity.
Qed.

Lemma idle_gesture_witness :
  let st := board_of [rectangle_at "a" 0 0 10 10] 1 true in
  (selectedTool st = SELECT ∨ selectedTool st = ERASER)
  ∧ isDrawing st = false
  ∧ run (handleMouseDown 1700000000000 (of_Z 5) (of_Z 5) None) st = Some (tt, (st, []))
  ∧ after_moves (fun n => n) [(VNum (of_Z 6), VNum (of_Z 7))] st = Some st
  ∧ run handleMouseUp st = Some (tt, (st, [])).
Proof.
  intros st.
  assert (Htool : selectedTool st = SELECT ∨ selectedTool st = ERASER)
    by (left; reflexivity).
  split; [exact Htool|]. split; [reflexivity|].
  exact (idle_gesture (fun n => n) 1700000000000 (of_Z 5) (of_Z 5) None
           [(VNum (of_Z 6), VNum (of_Z 7))] st Htool eq_refl).
Defined.

(** *** Deleting, selecting and dragging *)

Lemma run_deleteById i st :
  i ≠ "" ->
  run (deleteById (Some i)) st
  = Some (true, (with_selectedId None
                   (committed_state (filter (fun obj => id obj ≠ i) (objects st)) st st),
                 broadcast_effects (filter (fun obj => id obj ≠ i) (objects st)) st)).
Proof.
  intros Hi. unfold run, deleteById. case_bool_decide; [done|]. msimpl. reflexivity.
Qed.

Lemma filter_other_ids (i : string) (l : list BoardObject) :
  i ∉ id <$> l -> filter (fun obj => id obj ≠ i) l = l.
Proof.
  intros Hnot. induction l as [|o l IH]; [reflexivity|].
  rewrite fmap_cons, not_elem_of_cons in Hnot. destruct Hnot as [Hne Hnot].
  rewrite filter_cons_True by done. by rewrite IH.
Qed.

Lemma filter_removes_one (l1 l2 : list BoardObject) (o : BoardObject) :
  NoDup (id <$> (l1 ++ o :: l2)) ->
  filter (fun obj => id obj ≠ id o) (l1 ++ o :: l2) = l1 ++ l2.
Proof.
  rewrite fmap_app, fmap_cons. intros Hnodup.
  apply NoDup_app in Hnodup as (_ & Hl1 & Hl2).
  apply NoDup_cons in Hl2 as [Hl2 _].
  rewrite filter_app, filter_cons_False by (intros Hne; by apply Hne).
  rewrite !filter_other_ids; [reflexivity | exact Hl2 |].
  intros Hin. apply (Hl1 _ Hin). left.
Qed.

(** X14. [deleteById] with a non-empty id removes every object with that id
    and nothing else, keeps the order of the rest, clears the selection and
    commits the result, even when no object has the id: the board is then
    unchanged but a snapshot is added all the same. A click on an object
    with the eraser tool does exactly this for the object's id; a click with
    any other tool only selects the object. *)
Theorem erase_by_id (i : string) (st : State) :
  i ≠ "" ->
  ∃ st' e,
    run (deleteById (Some i)) st = Some (true, (st', e))
    ∧ committed st st' e
    ∧ selectedId st' = None
    ∧ (∀ o, o ∈ objects st' <-> o ∈ objects st ∧ id o ≠ i)
    ∧ sublist (objects st') (objects st)
    ∧ (i ∉ id <$> objects st ->
       objects st' = objects st
       ∧ history st' = take (historyStep st + 1) (history st) ++ [objects st])
    ∧ (∀ obj,
         id obj = i ->
         run (onClick obj) st
         = if decide (selectedTool st = ERASER) then Some (tt, (st', e))
           else Some (tt, (with_selectedId (Some i) st, []))).
Proof.
  intros Hi. eexists _, _.
  split; [exact (run_deleteById i st Hi)|].
  split; [apply committed_erase with (Some i); exact (run_deleteById i st Hi)|].
  split; [reflexivity|].
  split; [intros o; cbn; rewrite list_elem_of_filter; by split; intros [??]|].
  split; [cbn; apply sublist_filter|].
  split.
  - intros Hnot. cbn. by rewrite filter_other_ids.
  - intros obj <-. unfold run, onClick. msimpl.
    destruct (decide (selectedTool st = ERASER)) as [_|_]; [|reflexivity].
    fold (run (deleteById (Some (id obj)) ≫= fun _ => mret tt) st).
    unfold run. rewrite bind_eq.
    pose proof (run_deleteById (id obj) st Hi) as Hrun. unfold run in Hrun.
    rewrite Hrun. reflexivity.
Qed.

Lemma erase_by_id_witness :
  let a := rectangle_at "a" 0 0 10 10 in
  let b := circle_at "b" 5 5 2 in
  let st := board_of [a; b; a] 1 true in
  "a" ≠ ""
  ∧ ∃ st' e,
      run (deleteById (Some "a")) st = Some (true, (st', e))
      ∧ (∀ o, o ∈ objects st' <-> o ∈ objects st ∧ id o ≠ "a")
      ∧ selectedId st' = None.
Proof.
  intros a b st.
  assert (Hi : "a" ≠ "") by discriminate.
  split; [exact Hi|].
  destruct (erase_by_id "a" st Hi) as (st' & e & Hrun & _ & Hsel & Hobjs & _).
  by exists st', e.
Defined.

(** X15. The delete key, on a board whose objects have distinct non-empty
    ids: with a selected object on the board exactly that object goes; with
    no selection exactly the last object goes; on an empty board without a
    selection nothing happens at all. *)
Theorem delete_key_target (st : State) :
  NoDup (id <$> objects st) ->
  Forall (fun o => id o ≠ "") (objects st) ->
  ∃ st' e,
    run handleDelete st = Some (tt, (st', e))
    ∧ (∀ l1 o l2,
         objects st = l1 ++ o :: l2 ->
         selectedId st = Some (id o) ->
         objects st' = l1 ++ l2 ∧ committed st st' e ∧ selectedId st' = None)
    ∧ (nonempty (selectedId st) = false ->
       ∀ l o,
         objects st = l ++ [o] ->
         objects st' = l ∧ committed st st' e)
    ∧ (nonempty (selectedId st) = false ->
       objects st = [] ->
       st' = st ∧ e = []).
Proof.
  intros Hnodup Hids.
  unfold run, handleDelete. msimpl.
  set (target := if nonempty (selectedId st) then selectedId st
                 else id <$> last (objects st)).
  destruct target as [i|] eqn:Htarget; subst target.
  - destruct (decide (i = "")) as [->|Hi].
    + (* the empty id can only be a selection that is not non-empty *)
      exfalso. destruct (nonempty (selectedId st)) eqn:Hsel.
      * rewrite Htarget in Hsel. cbn in Hsel. by case_bool_decide.
      * destruct (last (objects st)) as [o|] eqn:Hlast; [|done].
        injection Htarget as Hid. apply last_Some in Hlast as [l Hl].
        rewrite Hl in Hids.
        apply Forall_app in Hids as [_ Ho]. apply Forall_cons in Ho as [Ho _]. done.
    + pose proof (run_deleteById i st Hi) as Hrun. unfold run in Hrun.
      rewrite Hrun. eexists _, _. split; [reflexivity|].
      assert (Hcommitted :
                committed st
                  (with_selectedId None
                     (committed_state (filter (fun obj => id obj ≠ i) (objects st)) st st))
                  (broadcast_effects (filter (fun obj => id obj ≠ i) (objects st)) st))
        by (apply committed_erase with (Some i); exact (run_deleteById i st Hi)).
      split; [|split].
      * intros l1 o l2 Hobjs Hsel. rewrite Hsel in Htarget. cbn in Htarget.
        assert (Hio : id o ≠ "").
        { rewrite Hobjs in Hids. apply Forall_app in Hids as [_ Ho].
          by apply Forall_cons in Ho as [Ho _]. }
        rewrite bool_decide_eq_false_2 in Htarget by done. cbn in Htarget.
        injection Htarget as <-.
        split; [|split; [exact Hcommitted | reflexivity]].
        cbn. rewrite Hobjs. apply filter_removes_one. by rewrite <- Hobjs.
      * intros Hsel l o Hobjs. rewrite Hsel, Hobjs, last_snoc in Htarget.
        injection Htarget as <-.
        split; [|exact Hcommitted].
        cbn. rewrite Hobjs.
        replace l with (l ++ []) at 2 by apply app_nil_r.
        apply filter_removes_one. by rewrite <- Hobjs.
      * intros Hsel Hobjs. rewrite Hsel, Hobjs in Htarget. done.
  - msimpl. eexists _, _. split; [reflexivity|]. split; [|split].
    + intros l1 o l2 Hobjs Hsel. exfalso. rewrite Hsel in Htarget.
      assert (Hio : id o ≠ "").
      { rewrite Hobjs in Hids. apply Forall_app in Hids as [_ Ho].
        by apply Forall_cons in Ho as [Ho _]. }
      cbn in Htarget. by rewrite bool_decide_eq_false_2 in Htarget.
    + intros Hsel l o Hobjs. exfalso.
      by rewrite Hsel, Hobjs, last_snoc in Htarget.
    + done.
Qed.

Lemma delete_key_target_witness :
  let a := rectangle_at "a" 0 0 10 10 in
  let b := circle_at "b" 5 5 2 in
  let st := board_of [a; b] 1 true in
  NoDup (id <$> objects st)
  ∧ Forall (fun o => id o ≠ "") (objects st)
  ∧ ∃ st' e, run handleDelete st = Some (tt, (st', e)) ∧ objects st' = [a].
Proof.
  intros a b st.
  assert (Hnodup : NoDup (id <$> objects st))
    by (apply (bool_decide_unpack _); vm_compute; exact I).
  assert (Hids : Forall (fun o => id o ≠ "") (objects st))
    by (repeat constructor; discriminate).
  split; [exact Hnodup|]. split; [exact Hids|].
  destruct (delete_key_target st Hnodup Hids) as (st' & e & Hrun & _ & Hlast & _).
  exists st', e. split; [exact Hrun|].
  exact (proj1 (Hlast eq_refl [a] b eq_refl)).
Defined.

(** X16. The end of a drag commits a board with the same objects in the
    same places of the list: ids and types are kept, objects with another id
    are untouched, and those with the dragged id get the node's position as
    x and y and keep every other field. For a pen stroke or an arrow that
    means that its bounding box, which is read off the points, is the one
    from before the drag. *)
Theorem drag_end_moves_only_target (obj : BoardObject) (tx ty : val) (st : State) :
  ∃ st' e,
    run (onDragEnd obj tx ty) st = Some (tt, (st', e))
    ∧ committed st st' e
    ∧ length (objects st') = length (objects st)
    ∧ ∀ k o,
        objects st !! k = Some o ->
        ∃ o',
          objects st' !! k = Some o'
          ∧ id o' = id o
          ∧ type o' = type o
          ∧ (id o ≠ id obj -> o' = o)
          ∧ (id o = id obj ->
             data o' = Data.set_y ty (Data.set_x tx (data o)))
          ∧ (type o = PEN ∨ type o = ARROW ->
             getBoundingBox (Some o') = getBoundingBox (Some o)).
Proof.
  destruct (run (onDragEnd obj tx ty) st) as [[[] [st' e]]|] eqn:Hrun.
  - exists st', e. split; [reflexivity|].
    split; [by apply committed_drag with obj tx ty|].
    revert Hrun. unfold run, onDragEnd. msimpl. intros [= <- <-].
    cbn [objects committed_state with_boardVersion with_historyStep with_history
         with_objects].
    split; [apply length_fmap|].
    intros k o Hk. rewrite list_lookup_fmap, Hk. cbn.
    eexists. split; [reflexivity|].
    destruct (decide (id o = id obj)) as [Hid|Hid]; cbn.
    + split; [reflexivity|]. split; [reflexivity|]. split; [done|].
      split; [reflexivity|].
      intros Htype. unfold getBoundingBox. cbn [type data].
      destruct Htype as [-> | ->]; reflexivity.
    + split; [reflexivity|]. split; [reflexivity|]. split; [reflexivity|].
      split; [done | reflexivity].
  - revert Hrun. unfold run, onDragEnd. msimpl. discriminate.
Qed.

(** *** Applying suggestions *)

Lemma Qc_span_nonneg (a w : Qc) :
  (0 ≤ w)%Qc ->
  Qc_min a (a + w) = a ∧ (Qc_max a (a + w) + - Qc_min a (a + w))%Qc = w.
Proof.
  intros Hw.
  assert (Hle : (a ≤ a + w)%Qc).
  { apply Qcle_minus_iff. by replace (a + w + - a)%Qc with w by ring. }
  unfold Qc_min, Qc_max. destruct (decide _) as [_|?]; [|done].
  split; [reflexivity | ring].
Qed.

(** X17. Tidying a shape keeps its place: when the last object has a box
    whose corner and non-negative size are whole numbers of moderate size,
    the "shape_clean" suggestion replaces every object with the target's id
    by one rectangle, put last and selected, whose bounding box is the
    target's. *)
Theorem shape_clean_keeps_box (now : N) (suggestion : option Suggestion.t)
    (st : State) (target : BoardObject) (bx by_ bw bh : Z) :
  suggestion ≫= Suggestion.type = Some "shape_clean" ->
  last (objects st) = Some target ->
  getBoundingBox (Some target)
  = Some (Box.mk (of_Z bx) (of_Z by_) (of_Z bw) (of_Z bh)) ->
  small bx -> small by_ -> small bw -> small bh ->
  (0 ≤ bw)%Z ->
  (0 ≤ bh)%Z ->
  ∃ st' e rect,
    run (applySuggestion now suggestion) st = Some (true, (st', e))
    ∧ objects st' = filter (fun o => id o ≠ id target) (objects st) ++ [rect]
    ∧ id rect = "rect-" +:+ pretty now
    ∧ type rect = RECTANGLE
    ∧ getBoundingBox (Some rect) = getBoundingBox (Some target)
    ∧ selectedId st' = Some (id rect).
Proof.
  intros Hty Htarget Hbox _ _ _ _ Hbw Hbh.
  eexists _, _, _. split.
  { unfold run, applySuggestion, getPrimaryObject. msimpl. rewrite Htarget, Hty.
    destruct (decide _) as [_|?]; [|done].
    unfold applyShapeClean. rewrite Hbox. msimpl. reflexivity. }
  split; [reflexivity|]. split; [reflexivity|]. split; [reflexivity|].
  split; [|reflexivity].
  rewrite Hbox. unfold getBoundingBox. cbn [type data].
  destruct (decide (RECTANGLE = RECTANGLE)) as [_|?]; [|done].
  cbn [Data.x Data.y Data.width Data.height Box.x Box.y Box.width Box.height ToNumber].
  unfold of_Z. cbn [JsNum.add JsNum.sub JsNum.neg JsNum.min JsNum.max].
  destruct (Qc_span_Z bx bw) as [-> ->], (Qc_span_Z by_ bh) as [-> ->].
  rewrite !Z.min_l, !Z.abs_eq by lia. reflexivity.
Qed.

Lemma shape_clean_keeps_box_witness :
  let c := circle_at "c" 100 80 30 in
  let st := board_of [c] 1 true in
  let suggestion := Some (Suggestion.mk "s1" (Some "shape_clean") (Some "Tidy") None) in
  getBoundingBox (Some c) = Some (Box.mk (of_Z 70) (of_Z 50) (of_Z 60) (of_Z 60))
  ∧ ∃ st' e rect,
      run (applySuggestion 1700000000000 suggestion) st = Some (true, (st', e))
      ∧ objects st' = [rect]
      ∧ type rect = RECTANGLE
      ∧ getBoundingBox (Some rect) = getBoundingBox (Some c).
Proof.
  intros c st suggestion.
  assert (Hbox : getBoundingBox (Some c)
                 = Some (Box.mk (of_Z 70) (of_Z 50) (of_Z 60) (of_Z 60)))
    by (vm_compute; qc_eq).
  split; [exact Hbox|].
  destruct (shape_clean_keeps_box 1700000000000 suggestion st c 70 50 60 60)
    as (st' & e & rect & Hrun & Hobjs & _ & Htype & Hrect & _);
    [reflexivity | reflexivity | exact Hbox | by vm_compute..|].
  by exists st', e, rect.
Defined.

(** X18. A label is centred on its target: for a last object whose box has
    whole numbers of moderate size for its corner and size, the "annotation"
    suggestion keeps every object and appends one text object, selected,
    120 wide with font size 18, whose box has the horizontal centre of the
    target's box and whose top is 10 above the vertical centre. The text is
    the suggestion's title, or "Label" when the title is missing or
    empty. *)
Theorem annotation_is_centred (now : N) (suggestion : option Suggestion.t)
    (st : State) (target : BoardObject) (bx by_ bw bh : Z) :
  suggestion ≫= Suggestion.type = Some "annotation" ->
  last (objects st) = Some target ->
  getBoundingBox (Some target)
  = Some (Box.mk (of_Z bx) (of_Z by_) (of_Z bw) (of_Z bh)) ->
  small bx -> small by_ -> small bw -> small bh ->
  ∃ st' e text tx,
    run (applySuggestion now suggestion) st = Some (true, (st', e))
    ∧ objects st' = objects st ++ [text]
    ∧ id text = "text-" +:+ pretty now
    ∧ type text = TEXT
    ∧ Data.text (data text)
      = Some (if nonempty (suggestion ≫= Suggestion.title)
              then default "" (suggestion ≫= Suggestion.title)
              else "Label")
    ∧ getBoundingBox (Some text)
      = Some (Box.mk (fin tx) (fin (Qc_of_Z by_ + Qc_of_Z bh / 2 - Qc_of_Z 10))
                (of_Z 120) (of_Z 18))
    ∧ (tx + Qc_of_Z 120 / 2 = Qc_of_Z bx + Qc_of_Z bw / 2)%Qc
    ∧ selectedId st' = Some (id text).
Proof.
  intros Hty Htarget Hbox _ _ _ _.
  eexists _, _, _, (Qc_of_Z bx + Qc_of_Z bw / 2 - Qc_of_Z 60)%Qc. split.
  { unfold run, applySuggestion, getPrimaryObject. msimpl. rewrite Htarget, Hty.
    destruct (decide _) as [?|_]; [discriminate|].
    destruct (decide _) as [_|?]; [|done].
    unfold applyAnnotation. rewrite Hbox. msimpl. reflexivity. }
  split; [reflexivity|]. split; [reflexivity|]. split; [reflexivity|].
  split; [reflexivity|].
  split; [|split; [|reflexivity]].
  - unfold getBoundingBox. cbn [type data].
    decide_tools.
  - assert (H : (Qc_of_Z 120 / 2 = Qc_of_Z 60)%Qc) by (apply Qc_is_canon; reflexivity).
    rewrite H. ring.
Qed.

Lemma annotation_is_centred_witness :
  let r := rectangle_at "r" 100 100 50 50 in
  let st := board_of [r] 1 true in
  let suggestion := Some (Suggestion.mk "s1" (Some "annotation") (Some "Start") None) in
  getBoundingBox (Some r) = Some (Box.mk (of_Z 100) (of_Z 100) (of_Z 50) (of_Z 50))
  ∧ ∃ st' e text,
      run (applySuggestion 1700000000000 suggestion) st = Some (true, (st', e))
      ∧ objects st' = [r; text]
      ∧ Data.text (data text) = Some "Start".
Proof.
  intros r st suggestion.
  assert (Hbox : getBoundingBox (Some r)
                 = Some (Box.mk (of_Z 100) (of_Z 100) (of_Z 50) (of_Z 50)))
    by (vm_compute; qc_eq).
  split; [exact Hbox|].
  destruct (annotation_is_centred 1700000000000 suggestion st r 100 100 50 50)
    as (st' & e & text & tx & Hrun & Hobjs & _ & _ & Htext & _);
    [reflexivity | reflexivity | exact Hbox | by vm_compute..|].
  by exists st', e, text.
Defined.

(** X19. Extending a flow: for a last object whose box has whole numbers of
    moderate size for its corner and its non-zero size, the
    "diagram_improvement" suggestion keeps every object and appends a
    rectangle of the same size 80 to the right of the box, at the same
    height, and an arrow from the centre of the box to the centre of the new
    rectangle; the arrow is horizontal and as long as the box is wide plus
    80. The rectangle is selected, but the arrow is the last object, and so
    the target of the next suggestion. *)
Theorem flow_expansion_geometry (now : N) (suggestion : option Suggestion.t)
    (st : State) (target : BoardObject) (zx zy zw zh : Z) :
  suggestion ≫= Suggestion.type = Some "diagram_improvement" ->
  last (objects st) = Some target ->
  getBoundingBox (Some target)
  = Some (Box.mk (of_Z zx) (of_Z zy) (of_Z zw) (of_Z zh)) ->
  small zx -> small zy -> small zw -> small zh ->
  zw ≠ 0%Z ->
  zh ≠ 0%Z ->
  let bx := Qc_of_Z zx in
  let by_ := Qc_of_Z zy in
  let bw := Qc_of_Z zw in
  let bh := Qc_of_Z zh in
  ∃ st' e newRect newArrow x1 x2 cy,
    run (applySuggestion now suggestion) st = Some (true, (st', e))
    ∧ objects st' = objects st ++ [newRect; newArrow]
    ∧ type newRect = RECTANGLE
    ∧ Data.x (data newRect) = fin (bx + bw + Qc_of_Z 80)
    ∧ Data.y (data newRect) = fin by_
    ∧ Data.width (data newRect) = fin bw
    ∧ Data.height (data newRect) = fin bh
    ∧ type newArrow = ARROW
    ∧ Data.points (data newArrow) = Some [fin x1; fin cy; fin x2; fin cy]
    ∧ (x1 = bx + bw / 2)%Qc
    ∧ (cy = by_ + bh / 2)%Qc
    ∧ (x2 - x1 = bw + Qc_of_Z 80)%Qc
    ∧ selectedId st' = Some (id newRect)
    ∧ last (objects st') = Some newArrow.
Proof.
  intros Hty Htarget Hbox _ _ _ _ Hzw Hzh bx by_ bw bh.
  assert (Hbw : bw ≠ 0%Qc).
  { intros Hzero. apply Hzw, Z2Qc_inj. by rewrite Z2Qc_inj_0. }
  assert (Hbh : bh ≠ 0%Qc).
  { intros Hzero. apply Hzh, Z2Qc_inj. by rewrite Z2Qc_inj_0. }
  change (getBoundingBox (Some target)
          = Some (Box.mk (fin bx) (fin by_) (fin bw) (fin bh))) in Hbox.
  clearbody bx by_ bw bh.
  eexists _, _, _, _, (bx + bw / 2)%Qc, (bx + bw + Qc_of_Z 80 + bw / 2)%Qc,
    (by_ + bh / 2)%Qc.
  split.
  { unfold run, applySuggestion, getPrimaryObject. msimpl. rewrite Htarget, Hty.
    destruct (decide _) as [?|_]; [discriminate|].
    destruct (decide _) as [?|_]; [discriminate|].
    destruct (decide _) as [_|?]; [|done].
    unfold applyFlowExpansion. rewrite Hbox. msimpl. reflexivity. }
  assert (Hw : or_default (fin bw) (of_Z 140) = Fin bw).
  { unfold or_default, fin, truthy, is_zero. by rewrite bool_decide_eq_false_2. }
  assert (Hh : or_default (fin bh) (of_Z 80) = Fin bh).
  { unfold or_default, fin, truthy, is_zero. by rewrite bool_decide_eq_false_2. }
  cbn [Box.x Box.y Box.width Box.height]. rewrite Hw, Hh.
  cbn [ToNumber fin]. rewrite !div_two.
  split; [reflexivity|]. split; [reflexivity|]. split; [reflexivity|].
  split; [reflexivity|]. split; [reflexivity|]. split; [reflexivity|].
  split; [reflexivity|]. split; [reflexivity|].
  split; [reflexivity|]. split; [reflexivity|].
  split; [ring|]. split; [reflexivity|].
  cbn [objects committed_state with_selectedId with_boardVersion with_historyStep
       with_history with_objects].
  rewrite last_app. reflexivity.
Qed.

Lemma flow_expansion_geometry_witness :
  let c := circle_at "c" 100 80 30 in
  let st := board_of [c] 1 true in
  let suggestion :=
    Some (Suggestion.mk "s1" (Some "diagram_improvement") (Some "Next step") None) in
  getBoundingBox (Some c) = Some (Box.mk (of_Z 70) (of_Z 50) (of_Z 60) (of_Z 60))
  ∧ ∃ st' e newRect newArrow,
      run (applySuggestion 1700000000000 suggestion) st = Some (true, (st', e))
      ∧ objects st' = [c; newRect; newArrow]
      ∧ type newRect = RECTANGLE
      ∧ type newArrow = ARROW.
Proof.
  intros c st suggestion.
  assert (Hbox : getBoundingBox (Some c)
                 = Some (Box.mk (of_Z 70) (of_Z 50) (of_Z 60) (of_Z 60)))
    by (vm_compute; qc_eq).
  split; [exact Hbox|].
  destruct (flow_expansion_geometry 1700000000000 suggestion st c 70 50 60 60)
    as (st' & e & newRect & newArrow & x1 & x2 & cy & Hrun & Hobjs & Hrect & _ & _
        & _ & _ & Harrow & _);
    [reflexivity | reflexivity | exact Hbox | by vm_compute.. |].
  by exists st', e, newRect, newArrow.
Defined.

(** X20. A suggestion either is applied or leaves no trace. [applySuggestion]
    always returns; when it returns [false] the state is as before and no
    board update is sent, and it returns [true] only when the board has a
    last object with a bounding box, in which case the change is committed
    and the selection is put on an object of the new board. *)
Theorem applySuggestion_all_or_nothing (now : N) (suggestion : option Suggestion.t)
    (st : State) :
  ∃ applied st' e,
    run (applySuggestion now suggestion) st = Some (applied, (st', e))
    ∧ if (applied : bool)
      then committed st st' e
           ∧ (∃ target, last (objects st) = Some target
                        ∧ is_Some (getBoundingBox (Some target)))
           ∧ (∃ o, o ∈ objects st' ∧ selectedId st' = Some (id o))
      else st' = st ∧ sent e = [].
Proof.
  destruct (run (applySuggestion now suggestion) st) as [[applied [st' e]]|] eqn:Hrun.
  - exists applied, st', e. split; [reflexivity|].
    assert (Hcommitted : applied = true -> committed st st' e)
      by (intros ->; by apply committed_suggestion with now suggestion).
    revert Hrun Hcommitted. unfold run, applySuggestion, getPrimaryObject. msimpl.
    destruct (last (objects st)) as [target|]; [|by msimpl; intros [= <- <- <-]].
    unfold applyShapeClean, applyAnnotation, applyFlowExpansion.
    destruct (getBoundingBox (Some target)) as [box|] eqn:Hbox;
      repeat match goal with
             | |- context [if decide ?P then _ else _] => destruct (decide P)
             | |- context [if includes ?a ?b then _ else _] => destruct (includes a b)
             end;
      msimpl; intros [= <- <- <-] Hcommitted;
      first [ by split
            | split; [by apply Hcommitted|];
              split; [exists target; split; [reflexivity | rewrite Hbox; by eexists]|];
              eexists; split; [apply elem_of_app; right; apply list_elem_of_here|];
              reflexivity ].
  - exfalso. revert Hrun. unfold run, applySuggestion, getPrimaryObject. msimpl.
    destruct (last (objects st)) as [target|]; [|by msimpl].
    unfold applyShapeClean, applyAnnotation, applyFlowExpansion.
    destruct (getBoundingBox (Some target)) as [box|];
      repeat match goal with
             | |- context [if decide ?P then _ else _] => destruct (decide P)
             | |- context [if includes ?a ?b then _ else _] => destruct (includes a b)
             end;
      by msimpl.
Qed.

(** *** What the prompt and the commands create *)

Lemma copy_id_inj now : Inj (=) (=) (copy_id now).
Proof.
  intros i j Heq. unfold copy_id in Heq.
  do 3 apply String.app_inj in Heq. by apply pretty_nat_inj in Heq.
Qed.

Lemma command_instance_id now base q i o :
  command_instance now base q i = Some o ->
  id o = copy_id now i ∧ type o = type base.
Proof.
  unfold command_instance. cbn [type data json_clone].
  repeat (destruct (decide _); [by intros [= <-]|]).
  destruct (_ && _); [by intros [= <-]|].
  destruct (decide _); [|destruct (decide _); by intros [= <-]].
  destruct (Data.points _); [by intros [= <-] | done].
Qed.

Lemma prompt_instance_id now base q i o :
  prompt_instance now base q i = Some o ->
  id o = copy_id now i ∧ type o = type base.
Proof.
  unfold prompt_instance. cbn [type data json_clone].
  repeat (destruct (decide _); [by intros [= <-]|]).
  destruct (_ && _); [by intros [= <-]|].
  destruct (decide _); [|destruct (decide _); by intros [= <-]].
  destruct (Data.points _); [by intros [= <-] | done].
Qed.

Lemma copies_ids (f : nat -> option BoardObject) (now : N) (t : Tool) (l : list nat)
    (shapes : list BoardObject) :
  (∀ i o, f i = Some o -> id o = copy_id now i ∧ type o = t) ->
  mapM f l = Some shapes ->
  id <$> shapes = copy_id now <$> l ∧ Forall (fun o => type o = t) shapes.
Proof.
  intros Hf Hshapes. apply mapM_Some in Hshapes.
  induction Hshapes as [|i o l shapes Hi _ [IHid IHtype]]; [done|].
  destruct (Hf i o Hi) as [Hid Htype].
  split; [by rewrite !fmap_cons, Hid, IHid | by constructor].
Qed.

(** What a run of copies leaves behind: the state and the effects of
    [executeShapeCommand] once its base shape is known. *)
Lemma command_copies now (base : BoardObject) (q : nat) cl :
  (type base = ARROW -> is_Some (Data.points (data base))) ->
  (1 ≤ q)%nat ->
  ∃ shapes,
    length shapes = q
    ∧ id <$> shapes = copy_id now <$> seq 0 q
    ∧ Forall (fun o => type o = type base) shapes
    ∧ ∀ s e,
        (match mapM (command_instance now base q) (seq 0 q) with
         | Some shapesToCreate =>
             commitObjects (objects cl ++ shapesToCreate) ;;
             match last shapesToCreate with
             | Some s => setSelectedId (Some (id s))
             | None => fail
             end ;;
             mret true
         | None => fail
         end) cl (s, e)
        = Some (true,
                (with_selectedId (id <$> last shapes)
                   (committed_state (objects cl ++ shapes) cl s),
                 e ++ broadcast_effects (objects cl ++ shapes) cl)).
Proof.
  intros Harrow Hpos.
  destruct (copies_created (command_instance now base q) q)
    as (shapes & sel & Hshapes & Hlast);
    [intros i; by apply command_instance_is_Some | exact Hpos |].
  exists shapes.
  destruct (copies_ids (command_instance now base q) now (type base) (seq 0 q) shapes)
    as [Hids Htypes]; [apply command_instance_id | exact Hshapes |].
  split; [apply length_mapM in Hshapes; by rewrite length_seq in Hshapes|].
  split; [exact Hids|]. split; [exact Htypes|].
  intros s e. rewrite Hshapes, Hlast. msimpl. reflexivity.
Qed.

Lemma executeShapeCommand_shape now iw ih command cl :
  ∃ r : option (list BoardObject),
    (is_Some r <-> known_shape (ShapeCommand.shape_type command))
    ∧ (∀ shapes,
         r = Some shapes ->
         length shapes = copies command
         ∧ id <$> shapes = copy_id now <$> seq 0 (copies command)
         ∧ ∃ t, Forall (fun o => type o = t) shapes)
    ∧ ∀ s e,
        executeShapeCommand now iw ih command cl (s, e)
        = match r with
          | None => Some (false, (s, e))
          | Some shapes =>
              Some (true,
                    (with_selectedId (id <$> last shapes)
                       (committed_state (objects cl ++ shapes) cl s),
                     e ++ broadcast_effects (objects cl ++ shapes) cl))
          end.
Proof.
  assert (Hpos : (1 ≤ copies command)%nat) by (unfold copies; destruct (decide _); lia).
  pose (c := commandCenter iw ih command (objects cl)).
  pose (shape_type := ShapeCommand.shape_type command).
  pose (baseShape :=
          if bool_decide (shape_type = "triangle") then Some (new_triangle now c)
          else if bool_decide (shape_type = "circle") then Some (new_circle now c)
          else if bool_decide (shape_type = "rectangle")
                  || bool_decide (shape_type = "square")
          then Some (new_rectangle now c)
          else if bool_decide (shape_type = "arrow") then Some (new_arrow now c)
          else if bool_decide (shape_type = "text")
          then Some (new_text now c
                       (str_or (ShapeCommand.text_content command) (Some "Text")))
          else None).
  assert (Hbody : ∀ s e,
            executeShapeCommand now iw ih command cl (s, e)
            = match baseShape with
              | None => Some (false, (s, e))
              | Some base =>
                  (match mapM (command_instance now base (copies command))
                           (seq 0 (copies command)) with
                   | Some shapesToCreate =>
                       commitObjects (objects cl ++ shapesToCreate) ;;
                       match last shapesToCreate with
                       | Some s => setSelectedId (Some (id s))
                       | None => fail
                       end ;;
                       mret true
                   | None => fail
                   end) cl (s, e)
              end).
  { intros s e. unfold executeShapeCommand, copies.
    rewrite bind_eq. unfold read at 1. cbv beta iota zeta.
    subst baseShape shape_type c.
    match goal with
    | |- context [match ?x with Some _ => _ | None => mret false end] => destruct x
    end; reflexivity. }
  assert (Hknown : is_Some baseShape <-> known_shape shape_type).
  { unfold known_shape, baseShape. rewrite !elem_of_cons, elem_of_nil.
    repeat case_bool_decide; cbn; split; intros Hshape;
      first [ by eauto 10
            | by destruct Hshape as [?|[?|[?|[?|[?|[?|[]]]]]]]
            | by destruct Hshape ]. }
  assert (Harrow : ∀ base, baseShape = Some base ->
                           type base = ARROW -> is_Some (Data.points (data base))).
  { intros base. unfold baseShape.
    repeat case_bool_decide; cbn; intros [= <-]; cbn; first [discriminate | by eexists]. }
  clearbody baseShape.
  destruct baseShape as [base|].
  - destruct (command_copies now base (copies command) cl (Harrow base eq_refl) Hpos)
      as (shapes & Hlen & Hids & Htypes & Hrun).
    exists (Some shapes). split; [split; [intros _; by apply Hknown | done]|].
    split; [intros ? [= <-]; split; [done|]; split; [done|]; by eexists|].
    intros s e. rewrite Hbody. apply Hrun.
  - exists None. split; [split; [by intros [] | intros Hshape; by apply Hknown in Hshape]|].
    split; [done|]. intros s e. by rewrite Hbody.
Qed.

(** X21. What a structured command creates, for a command whose quantity
    is missing or a whole number of copies up to 1000, run from the render
    [cl] on the cells [st]. [executeShapeCommand] returns, and returns
    [true] exactly when the command names one of the six known shapes. It
    then commits the objects of its render followed by [quantity] copies
    (one when the quantity is missing or 0) of one type, with pairwise
    distinct ids, and selects the last copy. Otherwise it leaves the cells
    as they were and sends nothing. *)
Theorem command_creates_copies (now : N) (iw ih : num) (command : ShapeCommand.t)
    (cl st : State) :
  moderate (ShapeCommand.quantity command) ->
  ∃ created st' e,
    executeShapeCommand now iw ih command cl (st, []) = Some (created, (st', e))
    ∧ (created = true <-> known_shape (ShapeCommand.shape_type command))
    ∧ if (created : bool)
      then ∃ shapes,
             objects st' = objects cl ++ shapes
             ∧ length shapes = copies command
             ∧ NoDup (id <$> shapes)
             ∧ (∃ t, Forall (fun o => type o = t) shapes)
             ∧ selectedId st' = id <$> last shapes
             ∧ committed_from cl st st' e
      else st' = st ∧ e = [].
Proof.
  intros _.
  destruct (executeShapeCommand_shape now iw ih command cl)
    as ([shapes|] & Hknown & Hshapes & Hrun).
  - exists true. eexists _, _. split; [apply Hrun|].
    split; [split; [intros _; by apply Hknown | done]|].
    destruct (Hshapes shapes eq_refl) as (Hlen & Hids & Htypes).
    exists shapes. split; [reflexivity|]. split; [exact Hlen|].
    split.
    { rewrite Hids. apply NoDup_fmap_2; [apply copy_id_inj | apply NoDup_seq]. }
    split; [exact Htypes|]. split; [reflexivity|].
    apply committed_awaited with now iw ih command. apply Hrun.
  - exists false. eexists _, _. split; [apply Hrun|].
    split; [|done].
    split; [done | intros Hshape; apply Hknown in Hshape; by destruct Hshape].
Qed.

Lemma command_creates_copies_witness :
  let command := ShapeCommand.mk "circle" 2 None None None in
  let cl := board_of [] 1 true in
  moderate (ShapeCommand.quantity command)
  ∧ ∃ created st' e,
      executeShapeCommand 1700000000000 (of_Z 1280) (of_Z 720) command cl (cl, [])
        = Some (created, (st', e))
      ∧ (created = true <-> known_shape (ShapeCommand.shape_type command))
      ∧ if (created : bool)
        then ∃ shapes,
               objects st' = objects cl ++ shapes
               ∧ length shapes = copies command
               ∧ NoDup (id <$> shapes)
               ∧ (∃ t, Forall (fun o => type o = t) shapes)
               ∧ selectedId st' = id <$> last shapes
               ∧ committed_from cl cl st' e
        else st' = cl ∧ e = [].
Proof.
  intros command cl.
  assert (Hq : moderate (ShapeCommand.quantity command)) by (unfold moderate; cbn; lia).
  split; [exact Hq|].
  exact (command_creates_copies 1700000000000 (of_Z 1280) (of_Z 720) command cl cl Hq).
Defined.









(** What a run of copies leaves behind in [createShapeFromPrompt] once the
    shape is known. *)
Lemma prompt_copies now (base : BoardObject) (q : nat) cl :
  (type base = ARROW -> is_Some (Data.points (data base))) ->
  (1 ≤ q)%nat ->
  ∃ shapes,
    length shapes = q
    ∧ id <$> shapes = copy_id now <$> seq 0 q
    ∧ Forall (fun o => type o = type base) shapes
    ∧ ∀ s e,
        (match mapM (prompt_instance now base q) (seq 0 q) with
         | Some shapesToCreate =>
             commitObjects (objects cl ++ shapesToCreate) ;;
             match last shapesToCreate with
             | Some s => setSelectedId (Some (id s))
             | None => fail
             end ;;
             effect (Toast_success
                       (pretty q +:+ " shape"
                        +:+ (if decide (1 < q) then "s" else "")
                        +:+ " created!")) ;;
             mret true
         | None => fail
         end) cl (s, e)
        = Some (true,
                (with_selectedId (id <$> last shapes)
                   (committed_state (objects cl ++ shapes) cl s),
                 (e ++ broadcast_effects (objects cl ++ shapes) cl)
                 ++ [Toast_success
                       (pretty q +:+ " shape"
                        +:+ (if decide (1 < q) then "s" else "")
                        +:+ " created!")])).
Proof.
  intros Harrow Hpos.
  destruct (copies_created (prompt_instance now base q) q)
    as (shapes & sel & Hshapes & Hlast);
    [intros i; by apply prompt_instance_is_Some | exact Hpos |].
  exists shapes.
  destruct (copies_ids (prompt_instance now base q) now (type base) (seq 0 q) shapes)
    as [Hids Htypes]; [apply prompt_instance_id | exact Hshapes |].
  split; [apply length_mapM in Hshapes; by rewrite length_seq in Hshapes|].
  split; [exact Hids|]. split; [exact Htypes|].
  intros s e. rewrite Hshapes, Hlast. msimpl. reflexivity.
Qed.

(** X23. What a prompt creates, for a prompt that asks for up to 1000
    copies. [createShapeFromPrompt] returns. When it returns [true] it has
    appended as many copies as the prompt's quantity (at least one) of one
    type, with pairwise distinct ids, selected the last copy, committed, and
    announced the quantity; when it returns [false] the state is as it was
    and there is no message and no toast. *)
Theorem prompt_creates_copies (now : N) (iw ih : num) (prompt : string) (st : State) :
  moderate (parseQuantity (toLowerCase prompt)) ->
  ∃ created st' e,
    run (createShapeFromPrompt now iw ih prompt) st = Some (created, (st', e))
    ∧ if (created : bool)
      then ∃ shapes quantity,
             quantity = parseQuantity (toLowerCase prompt)
             ∧ (1 ≤ quantity)%nat
             ∧ objects st' = objects st ++ shapes
             ∧ length shapes = quantity
             ∧ NoDup (id <$> shapes)
             ∧ (∃ t, Forall (fun o => type o = t) shapes)
             ∧ selectedId st' = id <$> last shapes
             ∧ committed st st' e
             ∧ last e = Some (Toast_success
                                (pretty quantity +:+ " shape"
                                 +:+ (if decide (1 < quantity) then "s" else "")
                                 +:+ " created!"))
      else st' = st ∧ e = [].
Proof.
  intros _.
  set (quantity := parseQuantity (toLowerCase prompt)).
  assert (Hpos : (1 ≤ quantity)%nat) by apply parseQuantity_pos.
  assert (Hbody : ∃ newShape : option BoardObject,
            (∀ base, newShape = Some base ->
                     type base = ARROW -> is_Some (Data.points (data base)))
            ∧ run (createShapeFromPrompt now iw ih prompt) st
              = match newShape with
                | None => Some (false, (st, []))
                | Some base =>
                    (match mapM (prompt_instance now base quantity) (seq 0 quantity) with
                     | Some shapesToCreate =>
                         commitObjects (objects st ++ shapesToCreate) ;;
                         match last shapesToCreate with
                         | Some s => setSelectedId (Some (id s))
                         | None => fail
                         end ;;
                         effect (Toast_success
                                   (pretty quantity +:+ " shape"
                                    +:+ (if decide (1 < quantity) then "s" else "")
                                    +:+ " created!")) ;;
                         mret true
                     | None => fail
                     end) st (st, [])
                end).
  { unfold run, createShapeFromPrompt.
    rewrite bind_eq. unfold read at 1. cbv beta iota zeta. fold quantity.
    match goal with
    | |- context [match ?x with Some _ => _ | None => mret false end] =>
        exists x; split; [|by destruct x]
    end.
    intros base.
    repeat match goal with
           | |- context [if ?b then Some _ else _] => destruct b
           end;
      intros [= <-]; cbn; first [discriminate | by eexists]. }
  destruct Hbody as ([base|] & Harrow & Hrun).
  - destruct (prompt_copies now base quantity st (Harrow base eq_refl) Hpos)
      as (shapes & Hlen & Hids & Htypes & Hcopies).
    rewrite Hcopies in Hrun.
    exists true. eexists _, _. split; [exact Hrun|].
    exists shapes, quantity. split; [reflexivity|]. split; [exact Hpos|].
    split; [reflexivity|]. split; [exact Hlen|].
    split.
    { rewrite Hids. apply NoDup_fmap_2; [apply copy_id_inj | apply NoDup_seq]. }
    split; [by eexists|]. split; [reflexivity|].
    split; [by apply committed_prompt with now iw ih prompt|].
    apply last_snoc.
  - exists false, st, []. by split.
Qed.

Lemma prompt_creates_copies_witness :
  let st := board_of [] 1 true in
  moderate (parseQuantity (toLowerCase "3 circles please"))
  ∧ ∃ st' e shapes,
      run (createShapeFromPrompt 1700000000000 (of_Z 1280) (of_Z 720) "3 circles please") st
        = Some (true, (st', e))
      ∧ objects st' = shapes
      ∧ length shapes = 3
      ∧ NoDup (id <$> shapes)
      ∧ last e = Some (Toast_success "3 shapes created!").
Proof.
  intros st.
  assert (Hquantity : parseQuantity (toLowerCase "3 circles please") = 3)
    by (vm_compute; reflexivity).
  assert (Hq : moderate (parseQuantity (toLowerCase "3 circles please")))
    by (rewrite Hquantity; unfold moderate; lia).
  split; [exact Hq|].
  destruct (prompt_creates_copies 1700000000000 (of_Z 1280) (of_Z 720)
              "3 circles please" st Hq)
    as (created & st' & e & Hrun & Hcreated).
  assert (Htrue : (fun r => r.1)
                    <$> run (createShapeFromPrompt 1700000000000 (of_Z 1280) (of_Z 720)
                               "3 circles please") st
                  = Some true) by (vm_compute; reflexivity).
  rewrite Hrun in Htrue. injection Htrue as ->.
  destruct Hcreated
    as (shapes & quantity & Hquantity' & _ & Hobjs & Hlen & Hids & _ & _ & _ & Htoast).
  rewrite Hquantity in Hquantity'. subst quantity.
  exists st', e, shapes.
  split; [exact Hrun|]. split; [exact Hobjs|]. split; [exact Hlen|].
  split; [exact Hids | exact Htoast].
Defined.

(** *** The geometry of created shapes *)

(** X24. The copies of one prompt or command stand in a row: with more than
    one copy, copy [i] of [q] is moved along x by 100 (2i + 1 - q). So
    neighbours are 200 apart, which leaves the spacing of 50 between shapes
    150 wide, and the row is centred on the place of a single copy: the
    offsets of copy [i] and of copy [q - 1 - i] cancel. A single copy is not
    moved. *)
Theorem row_layout (q i : nat) :
  ((1 < q)%nat ->
   row_offset q i = of_Z (100 * (2 * Z.of_nat i + 1 - Z.of_nat q))
   ∧ (row_offset q (S i) - row_offset q i)%js = of_Z 200
   ∧ ((i < q)%nat -> (row_offset q i + row_offset q (q - 1 - i))%js = of_Z 0))
  ∧ ((q ≤ 1)%nat -> row_offset q i = of_Z 0).
Proof.
  assert (Hform : ∀ j, (1 < q)%nat ->
            row_offset q j = of_Z (100 * (2 * Z.of_nat j + 1 - Z.of_nat q))).
  { intros j Hq. unfold row_offset, baseSize, spacing, of_nat.
    destruct (decide (1 < q)) as [_|?]; [|done]. cbv zeta.
    rewrite of_Z_add, !of_Z_mul, of_Z_sub.
    replace ((150 + 50) * Z.of_nat q - 50)%Z with (2 * (100 * Z.of_nat q - 25))%Z
      by lia.
    change 150%Z with (2 * 75)%Z at 2. rewrite !of_Z_half, of_Z_sub, of_Z_add.
    f_equal. lia. }
  split.
  - intros Hq. split; [by apply Hform|]. split.
    + rewrite !Hform, of_Z_sub by done. f_equal. lia.
    + intros Hi. rewrite !Hform, of_Z_add by done. f_equal. lia.
  - intros Hq. unfold row_offset. destruct (decide (1 < q)) as [?|_]; [lia | done].
Qed.

Lemma row_layout_witness :
  (1 < 3)%nat
  ∧ row_offset 3 0 = of_Z (-200)
  ∧ row_offset 3 1 = of_Z 0
  ∧ row_offset 3 2 = of_Z 200.
Proof.
  assert (Hq : (1 < 3)%nat) by lia.
  split; [exact Hq|].
  split; [exact (proj1 (proj1 (row_layout 3 0) Hq))|].
  split; [exact (proj1 (proj1 (row_layout 3 1) Hq))|].
  exact (proj1 (proj1 (row_layout 3 2) Hq)).
Defined.

Lemma Qc_min_l (p q : Qc) : (p ≤ q)%Qc -> Qc_min p q = p.
Proof. intros Hle. unfold Qc_min. by rewrite decide_True. Qed.

Lemma Qc_max_r (p q : Qc) : (p ≤ q)%Qc -> Qc_max p q = q.
Proof. intros Hle. unfold Qc_max. by rewrite decide_True. Qed.

Lemma Qc_min_r (p q : Qc) : (q ≤ p)%Qc -> Qc_min p q = q.
Proof.
  intros Hle. unfold Qc_min. destruct (decide _) as [Hpq|_]; [|reflexivity].
  by apply Qcle_antisym.
Qed.

Lemma Qc_max_l (p q : Qc) : (q ≤ p)%Qc -> Qc_max p q = p.
Proof.
  intros Hle. unfold Qc_max. destruct (decide _) as [Hpq|_]; [|reflexivity].
  by apply Qcle_antisym.
Qed.

Lemma Qc_around (c h : Qc) :
  (0 ≤ h)%Qc -> (c - h ≤ c ∧ c ≤ c + h ∧ c - h ≤ c + h)%Qc.
Proof.
  intros Hh.
  assert (H1 : (c - h ≤ c)%Qc).
  { apply Qcle_minus_iff. by replace (c + - (c - h))%Qc with h by ring. }
  assert (H2 : (c ≤ c + h)%Qc).
  { apply Qcle_minus_iff. by replace (c + h + - c)%Qc with h by ring. }
  split; [exact H1|]. split; [exact H2|]. by eapply Qcle_trans.
Qed.

(** X25. The three closed shapes the prompt interpreter creates around a
    centre (cx, cy) fill the same square: the circle, the rectangle and the
    triangle all have the bounding box from (cx - 75, cy - 75) with width
    and height 150. The arrow has the box from (cx - 100, cy) of width 200
    and height 0, and the text the box from (cx - 50, cy - 20) of width 120
    and height 24. The coordinates of the centre are halves of whole
    numbers of moderate size, as those of the centre of the viewport and of
    the places beside a box of whole numbers are. *)
Theorem created_shapes_boxes (now : N) (zx zy : Z) (content : option string) :
  small zx ->
  small zy ->
  let cx := (Qc_of_Z zx / 2)%Qc in
  let cy := (Qc_of_Z zy / 2)%Qc in
  let c := {| centerX := fin cx; centerY := fin cy |} in
  let square := Some (Box.mk (fin (cx - Qc_of_Z 75)) (fin (cy - Qc_of_Z 75))
                        (of_Z 150) (of_Z 150)) in
  getBoundingBox (Some (new_circle now c)) = square
  ∧ getBoundingBox (Some (new_rectangle now c)) = square
  ∧ getBoundingBox (Some (new_triangle now c)) = square
  ∧ getBoundingBox (Some (new_arrow now c))
    = Some (Box.mk (fin (cx - Qc_of_Z 100)) (fin cy) (of_Z 200) (of_Z 0))
  ∧ getBoundingBox (Some (new_text now c content))
    = Some (Box.mk (fin (cx - Qc_of_Z 50)) (fin (cy - Qc_of_Z 20))
              (of_Z 120) (of_Z 24)).
Proof.
  intros _ _ cx cy c square. clearbody cx cy. subst c square.
  assert (Hhalf : half baseSize = of_Z 75).
  { unfold half, baseSize. change 150%Z with (2 * 75)%Z. apply of_Z_half. }
  assert (H75 : (0 ≤ Qc_of_Z 75)%Qc) by (by apply Z2Qc_inj_le).
  assert (H100 : (0 ≤ Qc_of_Z 100)%Qc) by (by apply Z2Qc_inj_le).
  assert (H150 : (0 ≤ Qc_of_Z 150)%Qc) by (by apply Z2Qc_inj_le).
  assert (Hsum : (Qc_of_Z 75 + Qc_of_Z 75 = Qc_of_Z 150)%Qc)
    by (by rewrite <- Z2Qc_inj_add).
  assert (Hsum' : (Qc_of_Z 100 + Qc_of_Z 100 = Qc_of_Z 200)%Qc)
    by (by rewrite <- Z2Qc_inj_add).
  destruct (Qc_around cx (Qc_of_Z 75) H75) as (Hx1 & Hx2 & Hx3).
  destruct (Qc_around cy (Qc_of_Z 75) H75) as (Hy1 & Hy2 & Hy3).
  destruct (Qc_around cx (Qc_of_Z 100) H100) as (_ & _ & Ha).
  split; [|split; [|split; [|split]]].
  - unfold getBoundingBox, new_circle. cbn [type data Data.x Data.y Data.radius].
    decide_tools. rewrite Hhalf.
    assert (Hr : or_default (VNum (of_Z 75)) (of_Z 0) = of_Z 75)
      by (vm_compute; reflexivity).
    rewrite Hr. cbn [centerX centerY ToNumber fin]. rewrite of_Z_mul. reflexivity.
  - unfold getBoundingBox, new_rectangle.
    cbn [type data Data.x Data.y Data.width Data.height centerX centerY].
    decide_tools. rewrite Hhalf. unfold baseSize.
    cbn [ToNumber fin of_Z JsNum.add JsNum.sub JsNum.neg JsNum.min JsNum.max].
    destruct (Qc_span_nonneg (cx + - Qc_of_Z 75) (Qc_of_Z 150) H150) as [-> ->].
    destruct (Qc_span_nonneg (cy + - Qc_of_Z 75) (Qc_of_Z 150) H150) as [-> ->].
    reflexivity.
  - unfold getBoundingBox, new_triangle.
    cbn [type data Data.points centerX centerY].
    decide_tools. rewrite Hhalf.
    destruct (decide (PEN = PEN ∨ PEN = ARROW)) as [_|Hno]; [|destruct Hno; by left].
    cbn [default length]. unfold Datatypes.id, fin.
    destruct (decide _) as [Hshort|_]; [cbn in Hshort; lia|].
    cbn [point_loop extend minX maxX minY maxY ToNumber of_Z
         JsNum.add JsNum.sub JsNum.neg JsNum.min JsNum.max].
    change (cx + - Qc_of_Z 75)%Qc with (cx - Qc_of_Z 75)%Qc.
    change (cy + - Qc_of_Z 75)%Qc with (cy - Qc_of_Z 75)%Qc.
    rewrite (Qc_min_r cx (cx - Qc_of_Z 75)) by done.
    rewrite (Qc_max_l cx (cx - Qc_of_Z 75)) by done.
    rewrite (Qc_min_l (cx - Qc_of_Z 75) (cx + Qc_of_Z 75)) by done.
    rewrite (Qc_max_r cx (cx + Qc_of_Z 75)) by done.
    rewrite (Qc_min_l (cx - Qc_of_Z 75) cx) by done.
    rewrite (Qc_max_l (cx + Qc_of_Z 75) cx) by done.
    rewrite !(Qc_min_l (cy - Qc_of_Z 75) (cy + Qc_of_Z 75)) by done.
    rewrite (Qc_max_r (cy - Qc_of_Z 75) (cy + Qc_of_Z 75)) by done.
    rewrite (Qc_max_l (cy + Qc_of_Z 75) (cy + Qc_of_Z 75)) by apply Qcle_refl.
    rewrite (Qc_min_l (cy - Qc_of_Z 75) (cy - Qc_of_Z 75)) by apply Qcle_refl.
    rewrite (Qc_max_l (cy + Qc_of_Z 75) (cy - Qc_of_Z 75)) by done.
    replace (cx + Qc_of_Z 75 + - (cx - Qc_of_Z 75))%Qc with (Qc_of_Z 75 + Qc_of_Z 75)%Qc
      by ring.
    replace (cy + Qc_of_Z 75 + - (cy - Qc_of_Z 75))%Qc with (Qc_of_Z 75 + Qc_of_Z 75)%Qc
      by ring.
    rewrite Hsum. reflexivity.
  - unfold getBoundingBox, new_arrow.
    cbn [type data Data.points centerX centerY].
    decide_tools.
    destruct (decide (ARROW = PEN ∨ ARROW = ARROW)) as [_|Hno];
      [|destruct Hno; by right].
    cbn [default length]. unfold Datatypes.id, fin.
    destruct (decide _) as [Hshort|_]; [cbn in Hshort; lia|].
    cbn [point_loop extend minX maxX minY maxY ToNumber of_Z
         JsNum.add JsNum.sub JsNum.neg JsNum.min JsNum.max].
    change (cx + - Qc_of_Z 100)%Qc with (cx - Qc_of_Z 100)%Qc.
    rewrite (Qc_min_l (cx - Qc_of_Z 100) (cx + Qc_of_Z 100)) by done.
    rewrite (Qc_max_r (cx - Qc_of_Z 100) (cx + Qc_of_Z 100)) by done.
    rewrite (Qc_min_l cy cy), (Qc_max_l cy cy) by apply Qcle_refl.
    replace (cx + Qc_of_Z 100 + - (cx - Qc_of_Z 100))%Qc
      with (Qc_of_Z 100 + Qc_of_Z 100)%Qc by ring.
    replace (cy + - cy)%Qc with 0%Qc by ring.
    rewrite Hsum', <- Z2Qc_inj_0. reflexivity.
  - unfold getBoundingBox, new_text. cbn [type data]. decide_tools.
Qed.

Lemma created_shapes_boxes_witness :
  let c := viewport_center (of_Z 1280) (of_Z 720) in
  let square := Some (Box.mk (of_Z 565) (of_Z 225) (of_Z 150) (of_Z 150)) in
  small 1280
  ∧ small 600
  ∧ c = {| centerX := fin (Qc_of_Z 1280 / 2); centerY := fin (Qc_of_Z 600 / 2) |}
  ∧ getBoundingBox (Some (new_circle 1700000000000 c)) = square
  ∧ getBoundingBox (Some (new_rectangle 1700000000000 c)) = square
  ∧ getBoundingBox (Some (new_triangle 1700000000000 c)) = square.
Proof.
  intros c square.
  assert (Hx : small 1280) by (by vm_compute).
  assert (Hy : small 600) by (by vm_compute).
  assert (Hc : c = {| centerX := fin (Qc_of_Z 1280 / 2);
                      centerY := fin (Qc_of_Z 600 / 2) |})
    by (vm_compute; qc_eq).
  assert (Hsquare : Some (Box.mk (fin (Qc_of_Z 1280 / 2 - Qc_of_Z 75))
                            (fin (Qc_of_Z 600 / 2 - Qc_of_Z 75)) (of_Z 150) (of_Z 150))
                    = square)
    by (vm_compute; qc_eq).
  split; [exact Hx|]. split; [exact Hy|]. split; [exact Hc|].
  destruct (created_shapes_boxes 1700000000000 1280 600 None Hx Hy)
    as (Hcircle & Hrectangle & Htriangle & _).
  rewrite Hc, <- Hsquare.
  split; [exact Hcircle|]. split; [exact Hrectangle | exact Htriangle].
Defined.

Lemma Qc_half_double (p : Qc) : (p * 2 / 2 = p)%Qc.
Proof. rewrite <- Z2Qc_inj_2. apply Qcdiv_mult_l, Qc_of_Z_2_nonzero. Qed.

Lemma center_eq (a b a' b' : Qc) :
  a = a' -> b = b' ->
  {| centerX := VNum (Fin a); centerY := VNum (Fin b) |}
  = {| centerX := fin a'; centerY := fin b' |}.
Proof. by intros -> ->. Qed.

(** X26. Placement beside a reference is relative to the reference's box.
    For a rectangle of non-negative size, and for a circle of non-negative
    radius, with bounding box (bx, by, bw, bh) of whole numbers of moderate
    size: "below" and "above" centre the new shape on the box along x,
    "right" and "left" along y, and put its centre 125 = 150 / 2 + 50 beyond
    the box edge on the other axis, so that the 150-square of the new shape
    is exactly 50 clear of the box. *)
Theorem placement_around_box (r : BoardObject) (c : Center) (zx zy zw zh : Z) :
  small zx -> small zy -> small zw -> small zh ->
  let bx := Qc_of_Z zx in
  let by_ := Qc_of_Z zy in
  let bw := Qc_of_Z zw in
  let bh := Qc_of_Z zh in
  (type r = RECTANGLE
   ∧ Data.x (data r) = fin bx ∧ Data.y (data r) = fin by_
   ∧ Data.width (data r) = fin bw ∧ Data.height (data r) = fin bh)
  ∨ (type r = CIRCLE
     ∧ ∃ rad, Data.x (data r) = fin (bx + rad) ∧ Data.y (data r) = fin (by_ + rad)
              ∧ Data.radius (data r) = fin rad
              ∧ bw = (rad * 2)%Qc ∧ bh = (rad * 2)%Qc) ->
  (0 ≤ bw)%Qc ->
  (0 ≤ bh)%Qc ->
  getBoundingBox (Some r) = Some (Box.mk (fin bx) (fin by_) (fin bw) (fin bh))
  ∧ center_below r c
    = {| centerX := fin (bx + bw / 2); centerY := fin (by_ + bh + Qc_of_Z 125) |}
  ∧ center_above r c
    = {| centerX := fin (bx + bw / 2); centerY := fin (by_ - Qc_of_Z 125) |}
  ∧ center_right r c
    = {| centerX := fin (bx + bw + Qc_of_Z 125); centerY := fin (by_ + bh / 2) |}
  ∧ center_left r c
    = {| centerX := fin (bx - Qc_of_Z 125); centerY := fin (by_ + bh / 2) |}.
Proof.
  intros _ _ _ _ bx by_ bw bh. clearbody bx by_ bw bh.
  intros Href Hbw Hbh.
  assert (Hhalf : (baseSize / of_Z 2)%js = of_Z 75).
  { unfold baseSize. change 150%Z with (2 * 75)%Z. apply of_Z_half. }
  assert (H125 : (Qc_of_Z 75 + Qc_of_Z 50 = Qc_of_Z 125)%Qc)
    by (by rewrite <- Z2Qc_inj_add).
  destruct Href as [(Htype & Hx & Hy & Hw & Hh)
                   | (Htype & rad & Hx & Hy & Hr & -> & ->)].
  - split; [|split; [|split; [|split]]].
    + unfold getBoundingBox. rewrite Htype, Hx, Hy, Hw, Hh.
      destruct (decide (RECTANGLE = RECTANGLE)) as [_|?]; [|done].
      cbn [ToNumber fin JsNum.add JsNum.sub JsNum.neg JsNum.min JsNum.max].
      destruct (Qc_span_nonneg bx bw Hbw) as [-> ->].
      destruct (Qc_span_nonneg by_ bh Hbh) as [-> ->].
      reflexivity.
    + unfold center_below. rewrite Htype, ?Hx, ?Hy, ?Hw, ?Hh. decide_tools.
      rewrite Hhalf. unfold spacing, fin, of_Z. cbn [ToNumber]. rewrite !div_two.
      cbn [JsNum.add]. apply center_eq; rewrite <- ?H125; ring.
    + unfold center_above. rewrite Htype, ?Hx, ?Hy, ?Hw, ?Hh. decide_tools.
      rewrite Hhalf. unfold spacing, fin, of_Z. cbn [ToNumber]. rewrite !div_two.
      cbn [JsNum.add JsNum.sub JsNum.neg]. apply center_eq; rewrite <- ?H125; ring.
    + unfold center_right. rewrite Htype, ?Hx, ?Hy, ?Hw, ?Hh. decide_tools.
      rewrite Hhalf. unfold spacing, fin, of_Z. cbn [ToNumber]. rewrite !div_two.
      cbn [JsNum.add]. apply center_eq; rewrite <- ?H125; ring.
    + unfold center_left. rewrite Htype, ?Hx, ?Hy, ?Hw, ?Hh. decide_tools.
      rewrite Hhalf. unfold spacing, fin, of_Z. cbn [ToNumber]. rewrite !div_two.
      cbn [JsNum.add JsNum.sub JsNum.neg]. apply center_eq; rewrite <- ?H125; ring.
  - rewrite !Qc_half_double.
    split; [|split; [|split; [|split]]].
    + unfold getBoundingBox. rewrite Htype, Hx, Hy, Hr. decide_tools.
      unfold fin, or_default, truthy, is_zero. case_bool_decide as Hzero; cbn.
      * subst rad. do 3 f_equal; f_equal; rewrite <- ?Z2Qc_inj_0; ring.
      * do 3 f_equal; f_equal; rewrite <- ?Z2Qc_inj_2; ring.
    + unfold center_below. rewrite Htype, ?Hx, ?Hy, ?Hr. decide_tools.
      rewrite Hhalf. unfold spacing, fin, of_Z. cbn [ToNumber JsNum.add].
      apply center_eq; rewrite <- ?H125; ring.
    + unfold center_above. rewrite Htype, ?Hx, ?Hy, ?Hr. decide_tools.
      rewrite Hhalf. unfold spacing, fin, of_Z.
      cbn [ToNumber JsNum.add JsNum.sub JsNum.neg].
      apply center_eq; rewrite <- ?H125; ring.
    + unfold center_right. rewrite Htype, ?Hx, ?Hy, ?Hr. decide_tools.
      rewrite Hhalf. unfold spacing, fin, of_Z. cbn [ToNumber JsNum.add].
      apply center_eq; rewrite <- ?H125; ring.
    + unfold center_left. rewrite Htype, ?Hx, ?Hy, ?Hr. decide_tools.
      rewrite Hhalf. unfold spacing, fin, of_Z.
      cbn [ToNumber JsNum.add JsNum.sub JsNum.neg].
      apply center_eq; rewrite <- ?H125; ring.
Qed.

Lemma placement_around_box_witness :
  let r := rectangle_at "r" 100 100 50 50 in
  center_below r (viewport_center (of_Z 1280) (of_Z 720))
  = {| centerX := fin (Qc_of_Z 100 + Qc_of_Z 50 / 2);
       centerY := fin (Qc_of_Z 100 + Qc_of_Z 50 + Qc_of_Z 125) |}.
Proof.
  intros r.
  destruct (placement_around_box r (viewport_center (of_Z 1280) (of_Z 720))
              100 100 50 50)
    as (_ & Hbelow & _);
    [by vm_compute | by vm_compute | by vm_compute | by vm_compute
    | | by vm_compute | by vm_compute | exact Hbelow].
  left. repeat split; reflexivity.
Defined.

(** X27. The reference object of a structured command. A command that
    names a kind (triangle, circle, rectangle or square) refers to the most
    recently created object of that kind, for every position alike; when
    the board has no such object there is no reference, the last object is
    not taken instead, and the shape goes to the centre of the viewport. A
    command with the reference "last", or with none, refers to the last
    object. *)
Theorem command_reference_by_kind (iw ih : num) (command : ShapeCommand.t)
    (objs : list BoardObject) (kind : BoardObject -> bool) :
  (ShapeCommand.reference command = Some "triangle" ∧ kind = is_triangle)
  ∨ (ShapeCommand.reference command = Some "circle" ∧ kind = is_type CIRCLE)
  ∨ (ShapeCommand.reference command = Some "rectangle" ∧ kind = is_type RECTANGLE)
  ∨ (ShapeCommand.reference command = Some "square" ∧ kind = is_type RECTANGLE) ->
  (∀ r, most_recent kind objs r -> commandReference command objs = Some r)
  ∧ (Forall (fun o => kind o = false) objs ->
     commandReference command objs = None
     ∧ commandCenter iw ih command objs = viewport_center iw ih).
Proof.
  intros Href.
  assert (Hfind : commandReference command objs = find_last kind objs).
  { unfold commandReference.
    destruct Href as [[-> ->]|[[-> ->]|[[-> ->]|[-> ->]]]]; reflexivity. }
  split.
  - intros r Hr. rewrite Hfind. by apply find_last_most_recent.
  - intros Hnone.
    assert (Hno : commandReference command objs = None)
      by (rewrite Hfind; by apply find_last_none).
    split; [exact Hno|].
    unfold commandCenter. rewrite Hno. cbn [move_center].
    by repeat match goal with
              | |- context [if ?b then _ else _] => destruct b
              end.
Qed.

Lemma command_reference_by_kind_witness :
  let a := circle_at "a" 10 10 5 in
  let b := rectangle_at "b" 0 0 10 10 in
  let c := circle_at "c" 50 50 5 in
  let d := rectangle_at "d" 90 90 10 10 in
  let command := ShapeCommand.mk "circle" 1 (Some "right") (Some "circle") None in
  commandReference command [a; b; c; d] = Some c.
Proof.
  intros a b c d command.
  destruct (command_reference_by_kind (of_Z 1280) (of_Z 720) command [a; b; c; d]
              (is_type CIRCLE)) as [Hfound _].
  - right. left. split; reflexivity.
  - apply Hfound. exists [a; b], [d]. repeat split; repeat constructor.
Defined.

(** *** Presence *)

(** X28. The bookkeeping of the other users. A [user_left] event removes
    every entry of the list with that id together with the id's cursor and
    touches nothing else. The list and the cursors are kept apart, though:
    a [user_joined] event adds an entry without looking for the id, so a
    user who joins twice is counted twice and has no cursor on screen until
    a [cursor_moved] arrives; a [cursor_moved] after [user_left] brings the
    cursor back for a user who is not listed; and [users_list] replaces the
    list while every cursor stays. *)
Theorem presence_bookkeeping (p : Presence.t) (uid nm : string) (c : Presence.Cursor)
    (users : list Presence.User) :
  let gone := (Presence.on_user_left uid nm p).1 in
  let twice := (Presence.on_user_joined uid nm (Presence.on_user_joined uid nm p).1).1 in
  let ghost := (Presence.on_cursor_moved uid c gone).1 in
  (∀ u, (u ∈ Presence.connectedUsers gone)
        <-> (u ∈ Presence.connectedUsers p ∧ Presence.user_id u ≠ uid))
  ∧ Presence.cursors gone !! uid = None
  ∧ (∀ other, other ≠ uid ->
       Presence.cursors gone !! other = Presence.cursors p !! other)
  ∧ Presence.shown_count twice = Presence.shown_count p + 2
  ∧ Presence.cursors twice = Presence.cursors p
  ∧ Presence.cursors ghost !! uid = Some c
  ∧ (uid ∉ Presence.user_id <$> Presence.connectedUsers ghost)
  ∧ Presence.cursors (Presence.on_users_list users p).1 = Presence.cursors p
  ∧ Presence.connectedUsers (Presence.on_users_list users p).1 = users.
Proof.
  intros gone twice ghost. subst gone twice ghost. cbn.
  split; [intros u; rewrite list_elem_of_filter; by split; intros [??]|].
  split; [apply lookup_delete_eq|].
  split; [intros other Hother; by apply lookup_delete_ne|].
  split; [unfold Presence.shown_count; cbn; rewrite !length_app; cbn; lia|].
  split; [reflexivity|].
  split; [apply lookup_insert_eq|].
  split; [|done].
  rewrite list_elem_of_fmap. intros (u & Hid & Hin).
  apply list_elem_of_filter in Hin as [Hne _]. by apply Hne.
Qed.

(** *** Gestures that keep the last pointer position only *)



